(** * MeanGPT: routing, fan-out, context management and aggregation

    A shallow embedding of the TypeScript core of MeanGPT
    (lib/core/context-manager.ts, lib/core/file-storage.ts,
    lib/core/orchestrator.ts, lib/core/aggregator.ts, lib/core/router.ts,
    lib/providers/*.ts) together with the properties of its specification.

    Conventions of the embedding.
    - A JavaScript string is a [string]; [toLowerCase] and [trim] act on the
      ASCII range, which is the range every literal of the source lives in.
    - A [Date] is the clock reading it was built from; the clock reading is an
      explicit argument [now] of every operation that calls [new Date()].
    - A value that may be [undefined] is an [option]; the truthiness tests of
      the source ([a || b], [if (x)], [!x]) are written out with [JS.truthy].
    - A JavaScript number of the numeric fallback is an exact rational, [NaN]
      apart, which is [None]; see the module [Num].
    - A method that mutates an object, throws, or awaits a call that leaves the
      process is a function in the monad [ST]: the state of the object, an
      exception channel, and the trace of the calls made.  The replies of the
      outside world are the data of an [Oracle].  Promises that are awaited
      together settle one after the other, in the order of their array. *)

From stdpp Require Import gmap strings list pretty.
From Stdlib Require Import Ascii QArith Qround.

Local Open Scope string_scope.
Local Open Scope Z_scope.
Local Open Scope list_scope.

(** ** JavaScript primitives used by the source *)

Module JS.

(** [Boolean(s)] for a string: the empty string is falsy. *)
Definition truthy (s : string) : bool :=
  match s with EmptyString => false | String _ _ => true end.

(** [Boolean(o)] for [string | undefined]. *)
Definition truthy_opt (o : option string) : bool :=
  match o with Some s => truthy s | None => false end.

(** [a || b] where [a : string | undefined] and [b : string]. *)
Definition or_else (a : option string) (b : string) : string :=
  match a with
  | Some s => if truthy s then s else b
  | None => b
  end.

(** [String.prototype.substring(0, n)]. *)
Definition substring0 (n : nat) (s : string) : string := String.substring 0 n s.

(** [Array.prototype.join(sep)]. *)
Fixpoint join (sep : string) (l : list string) : string :=
  match l with
  | [] => ""
  | [s] => s
  | s :: rest => s +:+ sep +:+ join sep rest
  end.

Definition lower_char (c : ascii) : ascii :=
  let n := nat_of_ascii c in
  if (Nat.leb 65 n && Nat.leb n 90)%bool then ascii_of_nat (n + 32) else c.

(** [String.prototype.toLowerCase()]. *)
Fixpoint toLowerCase (s : string) : string :=
  match s with
  | EmptyString => EmptyString
  | String c s' => String (lower_char c) (toLowerCase s')
  end.

(** [String.prototype.startsWith(p)]. *)
Fixpoint startsWith (s p : string) : bool :=
  match p, s with
  | EmptyString, _ => true
  | String _ _, EmptyString => false
  | String a p', String b s' => if Ascii.eqb a b then startsWith s' p' else false
  end.

(** [String.prototype.includes(p)]. *)
Fixpoint includes (s p : string) : bool :=
  startsWith s p ||
  match s with
  | EmptyString => false
  | String _ s' => includes s' p
  end.

(** White space removed by [trim]: tab, line feed, vertical tab, form feed,
    carriage return and space. *)
Definition is_space (c : ascii) : bool :=
  let n := nat_of_ascii c in
  (Nat.leb 9 n && Nat.leb n 13)%bool || Nat.eqb n 32.

Fixpoint trimStart (s : string) : string :=
  match s with
  | EmptyString => EmptyString
  | String c s' => if is_space c then trimStart s' else s
  end.

Fixpoint trimEnd (s : string) : string :=
  match s with
  | EmptyString => EmptyString
  | String c s' =>
      match trimEnd s' with
      | EmptyString => if is_space c then EmptyString else String c EmptyString
      | t => String c t
      end
  end.

(** [String.prototype.trim()]. *)
Definition trim (s : string) : string := trimEnd (trimStart s).

Definition LF : ascii := ascii_of_nat 10.

(** [s.split('\n')]: never empty, one more piece than there are line
    feeds. *)
Fixpoint split_lines (s : string) : list string :=
  match s with
  | EmptyString => [EmptyString]
  | String c s' =>
      if Ascii.eqb c LF then EmptyString :: split_lines s'
      else match split_lines s' with
           | [] => [String c EmptyString]
           | l :: ls => String c l :: ls
           end
  end.

(** The double quote, for the template literals that contain one. *)
Definition dquote : string := String (ascii_of_nat 34) EmptyString.
Definition nl : string := String LF EmptyString.

End JS.

(** ** Data model (types/index.ts) *)

Definition Date := Z.

Inductive Role := system | user | assistant.

Global Instance Role_eq_dec : EqDecision Role.
Proof. solve_decision. Defined.

Module Message.
Record t := mk { role : Role; content : string; timestamp : option Date }.
End Message.
Abbreviation Message := Message.t.

Global Instance Message_eq_dec : EqDecision Message.
Proof. solve_decision. Defined.

Module AIProvider.
Record t := mk { name : string; displayName : string; model : string }.
End AIProvider.
Abbreviation AIProvider := AIProvider.t.

Module AIResponse.
Record t := mk {
  provider : AIProvider;
  content : string;
  error : option string;
  timestamp : Date;
  tokensUsed : option Z
}.
End AIResponse.
Abbreviation AIResponse := AIResponse.t.

Module AggregatedResponse.
Record t := mk {
  responses : list AIResponse;
  summary : gmap string string;
  meanAnswer : option string;
  bestAnswer : option string;
  timestamp : Date
}.
End AggregatedResponse.
Abbreviation AggregatedResponse := AggregatedResponse.t.

(** [ConversationContext['aiContexts']]: one history per known provider. *)
Module AIContexts.
Record t := mk {
  openai : list Message;
  anthropic : list Message;
  gemini : list Message;
  grok : list Message
}.

Definition empty : t := mk [] [] [] [].

(** [aiContexts[provider]]: [undefined] for a key that is not one of the
    four. *)
Definition get (c : t) (provider : string) : option (list Message) :=
  if String.eqb provider "openai" then Some (openai c)
  else if String.eqb provider "anthropic" then Some (anthropic c)
  else if String.eqb provider "gemini" then Some (gemini c)
  else if String.eqb provider "grok" then Some (grok c)
  else None.

(** The effect of mutating the array [aiContexts[provider]] in place. *)
Definition set (c : t) (provider : string) (l : list Message) : t :=
  if String.eqb provider "openai" then mk l (anthropic c) (gemini c) (grok c)
  else if String.eqb provider "anthropic" then mk (openai c) l (gemini c) (grok c)
  else if String.eqb provider "gemini" then mk (openai c) (anthropic c) l (grok c)
  else if String.eqb provider "grok" then mk (openai c) (anthropic c) (gemini c) l
  else c.
End AIContexts.
Abbreviation AIContexts := AIContexts.t.

Module ConversationContext.
Record t := mk {
  id : string;
  messages : list Message;
  aiContexts : AIContexts;
  createdAt : Date;
  updatedAt : Date
}.
End ConversationContext.
Abbreviation ConversationContext := ConversationContext.t.

(** ** FileStorageManager (lib/core/file-storage.ts)

    The [conversations/] directory: which conversation directories exist, the
    provider context files and the master files.  A read of a missing file
    yields the empty list, as the [catch] of the loaders does. *)

Module FileStorageManager.
Record t := mk {
  dirs : gset string;
  providerFiles : gmap (string * string) (list Message);
  masterFiles : gmap string (list Message)
}.

Definition empty : t := mk ∅ ∅ ∅.

Definition conversationExists (fs : t) (conversationId : string) : bool :=
  bool_decide (conversationId ∈ dirs fs).

Definition saveProviderContext (fs : t) (conversationId provider : string)
    (messages : list Message) : t :=
  mk ({[conversationId]} ∪ dirs fs)
     (<[(conversationId, provider) := messages]> (providerFiles fs))
     (masterFiles fs).

Definition loadProviderContext (fs : t) (conversationId provider : string)
    : list Message :=
  default [] (providerFiles fs !! (conversationId, provider)).

Definition loadMeanGPTMaster (fs : t) (conversationId : string) : list Message :=
  default [] (masterFiles fs !! conversationId).
End FileStorageManager.
Abbreviation FileStorageManager := FileStorageManager.t.

(** ** Exceptions, the outside world, and the monad of the embedding

    A thrown value is seen by the source only through [error.message], which
    is [undefined] for a thrown value that is not an [Error].  The
    collaborators of the source (fetch, the vendor SDKs, the JSON decoder, the
    property reads inside the try blocks) throw objects, never [null] or
    [undefined]. *)

Module Thrown.
Record t := mk { message : option string }.
End Thrown.
Abbreviation Thrown := Thrown.t.

(** [new Error(msg)], and the [TypeError] of a property read on [undefined]. *)
Definition Error (msg : string) : Thrown := Thrown.mk (Some msg).
Definition TypeError (msg : string) : Thrown := Thrown.mk (Some msg).

Inductive Result (A : Type) : Type :=
| Returned (a : A)
| Threw (e : Thrown).
Arguments Returned {A} a.
Arguments Threw {A} e.

(** The options object of [sendMessage]. *)
Module Options.
Record t := mk { temperature : Q; maxTokens : Z; stream : bool }.
(** The default value of the [options] parameter of every provider. *)
Definition default : t := mk (7 # 10) 4000 false.
End Options.
Abbreviation Options := Options.t.

(** How a call that leaves the process settles.  [Rejects] covers everything
    thrown inside the [try] around the call: network failure, timeout, an
    error raised by the vendor SDK, a body that cannot be decoded.  [NotOk] is
    a [fetch] that resolved with [response.ok = false].  [Resolves text tokens]
    carries the answer text read from the reply ([None] when the reply holds
    none) and the token count ([None] when the reply has no usage data). *)
Inductive CallOutcome :=
| Rejects (e : Thrown)
| NotOk (status : Z) (statusText : string)
| Resolves (text : option string) (tokens : option Z).

(** The value of [JSON.parse] on the routing reply, as far as the source
    reads it: [null], on which a property read throws, or a value whose
    properties [decision], [providers] and [reason] may each be missing. *)
Inductive RoutingJson :=
| JsonNull
| JsonValue (decision : option string) (providers : option (list string))
    (reason : option string).

(** The replies of the outside world. *)
Module Oracle.
Record t := mk {
  (** OpenAI SDK, [chat.completions.create]: model, messages, options. *)
  openai : string -> list Message -> Options -> CallOutcome;
  (** Anthropic SDK, [messages.create]: model, system text, messages,
      options. *)
  anthropic : string -> option string -> list Message -> Options -> CallOutcome;
  (** Gemini SDK, [chat.sendMessage] raced against the 30 s timer: model,
      history, current message, options, attempt number. *)
  gemini : string -> list Message -> string -> Options -> nat -> CallOutcome;
  (** [fetch] of the xAI chat-completions endpoint. *)
  grok : string -> list Message -> Options -> CallOutcome;
  (** [fetch] of the routing classification, keyed by the two varying
      parts of the routing prompt: the context summary and the user
      message. *)
  routing : string -> string -> CallOutcome;
  (** [JSON.parse]; [None] is a [SyntaxError]. *)
  JSON_parse : string -> option RoutingJson
}.
End Oracle.
Abbreviation Oracle := Oracle.t.

(** What a computation is observed to do: the calls that leave the process,
    and the entries into the aggregator. *)
Inductive Event :=
| EvRoutingFetch (contextSummary userMessage : string)
| EvVendorCall (provider model : string) (messages : list Message)
| EvAggregator.

(** A computation over a mutable state [S].  It yields a result or a thrown
    value, the state it leaves behind (kept on both exits, as the mutations
    made before a [throw] are) and the events it produced, in order. *)
Definition ST (S A : Type) : Type := S -> Result A * S * list Event.

Definition ret {S A} (a : A) : ST S A := fun s => (Returned a, s, []).
Definition throw {S A} (e : Thrown) : ST S A := fun s => (Threw e, s, []).
Definition emit {S} (ev : Event) : ST S unit := fun s => (Returned tt, s, [ev]).
Definition bind {S A B} (m : ST S A) (k : A -> ST S B) : ST S B :=
  fun s => match m s with
           | (Returned a, s', evs) =>
               let '(r, s'', evs') := k a s' in (r, s'', evs ++ evs')
           | (Threw e, s', evs) => (Threw e, s', evs)
           end.
Definition try_catch {S A} (body : ST S A) (handler : Thrown -> ST S A) : ST S A :=
  fun s => match body s with
           | (Returned a, s', evs) => (Returned a, s', evs)
           | (Threw e, s', evs) =>
               let '(r, s'', evs') := handler e s' in (r, s'', evs ++ evs')
           end.
Definition get {S} : ST S S := fun s => (Returned s, s, []).
Definition modify {S} (f : S -> S) : ST S unit := fun s => (Returned tt, f s, []).

Declare Scope st_scope.
Delimit Scope st_scope with st.
Notation "x <- m ;; k" := (bind m (fun x => k))
  (at level 100, m at next level, right associativity) : st_scope.
Notation "m ;;; k" := (bind m (fun _ => k))
  (at level 100, right associativity) : st_scope.

(** Run a computation on a component of a larger state. *)
Definition zoom {S T A} (proj : T -> S) (upd : S -> T -> T) (m : ST S A) : ST T A :=
  fun t => let '(r, s', evs) := m (proj t) in (r, upd s' t, evs).

(** A finished run, with events that came before it. *)
Definition prepend {A S} (evs : list Event) (o : Result A * S * list Event)
    : Result A * S * list Event :=
  let '(r, s, evs') := o in (r, s, evs ++ evs').

(** Projections of a finished run. *)
Definition result_of {A S} (o : Result A * S * list Event) : Result A := o.1.1.
Definition state_of {A S} (o : Result A * S * list Event) : S := o.1.2.
Definition events_of {A S} (o : Result A * S * list Event) : list Event := o.2.

(** ** ContextManager (lib/core/context-manager.ts) *)

Module ContextManager.

Record t := mk {
  conversations : gmap string ConversationContext;
  fileStorage : FileStorageManager;
  isServerless : bool
}.

(** [new ContextManager()]. *)
Definition new (fs : FileStorageManager) (serverless : bool) : t := mk ∅ fs serverless.

Definition maxMessagesPerContext : nat := 20.

Definition set_conversations (f : gmap string ConversationContext -> gmap string ConversationContext)
    (this : t) : t :=
  mk (f (conversations this)) (fileStorage this) (isServerless this).

Definition set_fileStorage (fs : FileStorageManager) (this : t) : t :=
  mk (conversations this) fs (isServerless this).

(** [generateId()]; [rnd] is the text of
    [Math.random().toString(36).substr(2, 9)]. *)
Definition generateId (now : Date) (rnd : string) : string :=
  "conv_" +:+ pretty now +:+ "_" +:+ rnd.

Definition createConversation (now : Date) (rnd : string) (id : option string)
    : ST t ConversationContext :=
  fun this =>
    let conversationId :=
      match id with
      | Some s => if JS.truthy s then s else generateId now rnd
      | None => generateId now rnd
      end in
    let context :=
      ConversationContext.mk conversationId [] AIContexts.empty now now in
    (Returned context, set_conversations (insert conversationId context) this, []).

Definition getConversation (id : string) (this : t) : option ConversationContext :=
  conversations this !! id.

Definition createSummary (messages : list Message) : string :=
  let topics :=
    JS.join ", "
      (map (fun m => JS.substring0 50 (Message.content m))
           (filter (fun m => Message.role m = user) messages)) in
  "Topics discussed: " +:+ topics.

(** [trimContextIfNeeded], as a function from the message array before the
    call to the array after it. *)
Definition trimContextIfNeeded (messages : list Message) : list Message :=
  if Nat.ltb maxMessagesPerContext (length messages) then
    let toRemove := (length messages - maxMessagesPerContext)%nat in
    let removed := take toRemove messages in
    let summary := createSummary removed in
    Message.mk system ("Previous conversation summary: " +:+ summary) None
      :: drop toRemove messages
  else messages.

Definition trimAIContextIfNeeded (messages : list Message) : list Message :=
  if Nat.ltb maxMessagesPerContext (length messages) then
    let toRemove := (length messages - maxMessagesPerContext)%nat in
    let removed := take toRemove messages in
    let summary := createSummary removed in
    Message.mk system ("Previous context summary: " +:+ summary) None
      :: drop toRemove messages
  else messages.

Definition addMessage (now : Date) (conversationId : string) (message : Message)
    : ST t unit :=
  fun this =>
    match conversations this !! conversationId with
    | None =>
        (Threw (Error ("Conversation " +:+ conversationId +:+ " not found")), this, [])
    | Some conversation =>
        let pushed := ConversationContext.messages conversation ++ [message] in
        let conversation' :=
          ConversationContext.mk
            (ConversationContext.id conversation)
            (trimContextIfNeeded pushed)
            (ConversationContext.aiContexts conversation)
            (ConversationContext.createdAt conversation)
            now in
        (Returned tt, set_conversations (insert conversationId conversation') this, [])
    end.

Definition addAIMessage (now : Date) (conversationId provider : string)
    (message : Message) : ST t unit :=
  fun this =>
    match conversations this !! conversationId with
    | None =>
        (Threw (Error ("Conversation " +:+ conversationId +:+ " not found")), this, [])
    | Some conversation =>
        match AIContexts.get (ConversationContext.aiContexts conversation) provider with
        | None =>
            (Threw (TypeError "Cannot read properties of undefined (reading 'push')"),
             this, [])
        | Some ctx =>
            let ctx' := trimAIContextIfNeeded (ctx ++ [message]) in
            let conversation' :=
              ConversationContext.mk
                (ConversationContext.id conversation)
                (ConversationContext.messages conversation)
                (AIContexts.set (ConversationContext.aiContexts conversation) provider ctx')
                (ConversationContext.createdAt conversation)
                now in
            let this' := set_conversations (insert conversationId conversation') this in
            if isServerless this then (Returned tt, this', [])
            else
              (Returned tt,
               set_fileStorage
                 (FileStorageManager.saveProviderContext (fileStorage this)
                    conversationId provider ctx')
                 this', [])
        end
    end.

(** [loadConversationFromStorage]: the loaders of the storage model do not
    throw, so the [catch] branch of the source is never entered. *)
Definition loadConversationFromStorage (now : Date) (conversationId : string)
    : ST t (option ConversationContext) :=
  fun this =>
    let fs := fileStorage this in
    let conversation :=
      ConversationContext.mk conversationId
        (FileStorageManager.loadMeanGPTMaster fs conversationId)
        (AIContexts.mk
           (FileStorageManager.loadProviderContext fs conversationId "openai")
           (FileStorageManager.loadProviderContext fs conversationId "anthropic")
           (FileStorageManager.loadProviderContext fs conversationId "gemini")
           (FileStorageManager.loadProviderContext fs conversationId "grok"))
        now now in
    (Returned (Some conversation),
     set_conversations (insert conversationId conversation) this, []).

(** The first lines of [getMessagesForProvider] and [getMasterContext]: the
    conversation in memory, or else, outside a serverless run, the one
    rehydrated from storage. *)
Definition lookupOrLoad (now : Date) (conversationId : string)
    : ST t (option ConversationContext) :=
  (this <- get ;;
   match conversations this !! conversationId with
   | Some conversation => ret (Some conversation)
   | None =>
       if negb (isServerless this)
          && FileStorageManager.conversationExists (fileStorage this) conversationId
       then loadConversationFromStorage now conversationId
       else ret None
   end)%st.

Definition assistantSystemPrompt : Message :=
  Message.mk system
    "You are a helpful AI assistant. Provide clear, accurate, and concise responses."
    None.

Definition getMessagesForProvider (now : Date) (conversationId provider : string)
    (includeSystemPrompt : bool) : ST t (list Message) :=
  (conversation <- lookupOrLoad now conversationId ;;
   let messages := if includeSystemPrompt then [assistantSystemPrompt] else [] in
   match conversation with
   | Some c =>
       match AIContexts.get (ConversationContext.aiContexts c) provider with
       | Some ctx => ret (messages ++ ctx)
       | None => throw (TypeError "undefined is not iterable")
       end
   | None => ret messages
   end)%st.

(** The two system prompts of [getMasterContext]; they differ in their
    indentation only. *)
Definition masterPromptAbsent : string :=
  "You are MeanGPT, an AI orchestrator that manages responses from multiple AI providers (OpenAI, Anthropic, Gemini, and Grok). 
          Your role is to:
          1. Analyze user questions to determine if they need to be forwarded to other AIs
          2. Summarize responses from multiple AIs
          3. Provide mean/average answers when appropriate
          4. Select the best answer based on accuracy and completeness
          5. Handle follow-up questions intelligently".

Definition masterPromptPresent : string :=
  "You are MeanGPT, an AI orchestrator that manages responses from multiple AI providers (OpenAI, Anthropic, Gemini, and Grok). 
        Your role is to:
        1. Analyze user questions to determine if they need to be forwarded to other AIs
        2. Summarize responses from multiple AIs
        3. Provide mean/average answers when appropriate
        4. Select the best answer based on accuracy and completeness
        5. Handle follow-up questions intelligently".

Definition getMasterContext (now : Date) (conversationId : string)
    : ST t (list Message) :=
  (conversation <- lookupOrLoad now conversationId ;;
   match conversation with
   | None => ret [Message.mk system masterPromptAbsent None]
   | Some c =>
       ret (Message.mk system masterPromptPresent None
              :: ConversationContext.messages c)
   end)%st.

(** The result of [shouldForwardToAIs].  [reason] is optional because the
    classifier's JSON may lack it. *)
Module Routing.
Record t := mk {
  shouldForward : bool;
  providers : option (list string);
  reason : option string
}.
End Routing.

Definition role_name (r : Role) : string :=
  match r with system => "system" | user => "user" | assistant => "assistant" end.

(** [conversation.messages.slice(-6)], rendered line by line. *)
Definition contextSummary (messages : list Message) : string :=
  let contextMessages := drop (length messages - 6)%nat messages in
  JS.join JS.nl
    (map (fun msg =>
            role_name (Message.role msg) +:+ ": "
            +:+ JS.substring0 200 (Message.content msg)
            +:+ (if Nat.ltb 200 (String.length (Message.content msg))
                 then "..." else ""))
         contextMessages).

(** The [try] block of [shouldForwardToAIs]: the classification request and
    the decoding of its reply. *)
Definition classify (O : Oracle) (summary userMessage : string) : ST t Routing.t :=
  (emit (EvRoutingFetch summary userMessage) ;;;
   match Oracle.routing O summary userMessage with
   | Rejects e => throw e
   | NotOk status _ => throw (Error ("OpenAI API error: " +:+ pretty status))
   | Resolves routingResponse _ =>
       match routingResponse with
       | None => throw (Error "No routing response received")
       | Some text =>
           if negb (JS.truthy text) then throw (Error "No routing response received")
           else
             match Oracle.JSON_parse O (JS.trim text) with
             | None => throw (Error "Unexpected token in JSON")
             | Some JsonNull =>
                 throw (TypeError "Cannot read properties of null (reading 'decision')")
             | Some (JsonValue decision providers reason) =>
                 ret (Routing.mk
                        (negb (bool_decide (decision = Some "DIRECT_REPLY")))
                        providers reason)
             end
       end
   end)%st.

(** The [catch] block of [shouldForwardToAIs]. *)
Definition fallbackRouting (userMessage : string) : Routing.t :=
  let lowerMessage := JS.toLowerCase userMessage in
  if JS.includes lowerMessage "meangpt" || JS.includes lowerMessage "mean gpt"
     || JS.includes lowerMessage "what is your name"
     || JS.includes lowerMessage "who are you"
  then Routing.mk false None (Some "Fallback: Direct MeanGPT interaction detected")
  else Routing.mk true None (Some "Fallback: General question routing").

Definition shouldForwardToAIs (O : Oracle) (conversationId userMessage : string)
    : ST t Routing.t :=
  (this <- get ;;
   match conversations this !! conversationId with
   | None =>
       ret (Routing.mk true None
              (Some "First message in conversation - getting comprehensive responses"))
   | Some conversation =>
       match ConversationContext.messages conversation with
       | [] =>
           ret (Routing.mk true None
                  (Some "First message in conversation - getting comprehensive responses"))
       | _ :: _ =>
           try_catch
             (classify O (contextSummary (ConversationContext.messages conversation))
                userMessage)
             (fun _ => ret (fallbackRouting userMessage))
       end
   end)%st.

Definition clearConversation (id : string) : ST t unit :=
  modify (set_conversations (delete id)).

End ContextManager.

(** ** Providers (lib/providers/base.ts, openai.ts, anthropic.ts, gemini.ts,
       grok.ts)

    The abstract class [BaseAIProvider] and its four subclasses: one record
    for the fields of the base class, tagged with the subclass, and
    [sendMessage] dispatching on the tag. *)

Inductive ProviderKind := OpenAIProvider | AnthropicProvider | GeminiProvider | GrokProvider.

Module BaseAIProvider.

Record t := mk {
  kind : ProviderKind;
  apiKey : string;
  model : string;
  provider : AIProvider
}.

(** The constructors of the subclasses. *)
Definition newOpenAI (apiKey model : string) : t :=
  mk OpenAIProvider apiKey model (AIProvider.mk "openai" "OpenAI ChatGPT" model).
Definition newAnthropic (apiKey model : string) : t :=
  mk AnthropicProvider apiKey model (AIProvider.mk "anthropic" "Anthropic Claude" model).
Definition newGemini (apiKey model : string) : t :=
  mk GeminiProvider apiKey model (AIProvider.mk "gemini" "Google Gemini" model).
Definition newGrok (apiKey model : string) : t :=
  mk GrokProvider apiKey model (AIProvider.mk "grok" "xAI Grok" model).

(** [handleError(error)]. *)
Definition handleError (now : Date) (this : t) (error : Thrown) : AIResponse :=
  AIResponse.mk (provider this) ""
    (Some (JS.or_else (Thrown.message error) "Unknown error occurred"))
    now None.

(** [formatMessages] of OpenAI and Grok: role and content only. *)
Definition formatMessages (messages : list Message) : list Message :=
  map (fun msg => Message.mk (Message.role msg) (Message.content msg) None) messages.

(** [formatMessages] of Anthropic. *)
Definition formatMessagesAnthropic (messages : list Message) : list Message :=
  map (fun msg =>
         Message.mk
           (if bool_decide (Message.role msg = assistant) then assistant else user)
           (Message.content msg) None)
      (filter (fun msg => Message.role msg ≠ system) messages).

Definition findSystem (messages : list Message) : option Message :=
  List.find (fun m => bool_decide (Message.role m = system)) messages.

(** [formatMessagesForGemini]: the history (a Gemini turn has role
    [assistant] for the vendor's [model], [user] otherwise) and the current
    message. *)
Definition formatMessagesForGemini (messages : list Message)
    : list Message * string :=
  let lastMessage := last messages in
  let allMessages := removelast messages in
  let history :=
    map (fun msg =>
           Message.mk
             (if bool_decide (Message.role msg = assistant) then assistant else user)
             (Message.content msg) None)
        (filter (fun msg => Message.role msg ≠ system) allMessages) in
  let lastContent := JS.or_else (Message.content <$> lastMessage) "" in
  let currentMessage :=
    match findSystem messages with
    | Some systemMessage =>
        Message.content systemMessage +:+ JS.nl +:+ JS.nl +:+ lastContent
    | None => lastContent
    end in
  (history, currentMessage).

(** The request a provider sends at a given attempt, answered by the
    oracle.  Only Gemini makes more than one attempt. *)
Definition vendorCall (O : Oracle) (this : t) (messages : list Message)
    (options : Options) (attempt : nat) : CallOutcome :=
  match kind this with
  | OpenAIProvider => Oracle.openai O (model this) (formatMessages messages) options
  | AnthropicProvider =>
      Oracle.anthropic O (model this)
        (Message.content <$> findSystem messages)
        (formatMessagesAnthropic (filter (fun m => Message.role m ≠ system) messages))
        options
  | GeminiProvider =>
      let '(history, currentMessage) := formatMessagesForGemini messages in
      Oracle.gemini O (model this) history currentMessage options attempt
  | GrokProvider => Oracle.grok O (model this) (formatMessages messages) options
  end.

Section SendMessage.
Context {S : Type}.
Variable O : Oracle.
Variable now : Date.
Variable this : t.
Variable messages : list Message.
Variable options : Options.

Definition call (attempt : nat) : ST S CallOutcome :=
  (emit (EvVendorCall (AIProvider.name (provider this)) (model this) messages) ;;;
   ret (vendorCall O this messages options attempt))%st.

(** The vendor SDKs reject on a status that is not a success; the message
    is the SDK's own. *)
Definition sdkError (status : Z) (statusText : string) : Thrown :=
  Error (pretty status +:+ " " +:+ statusText).

Definition sendMessageOpenAI : ST S AIResponse :=
  try_catch
    (completion <- call 1 ;;
     match completion with
     | Rejects e => throw e
     | NotOk status statusText => throw (sdkError status statusText)
     | Resolves text tokens =>
         if Options.stream options then
           ret (AIResponse.mk (provider this) "Streaming not yet implemented"
                  None now None)
         else
           ret (AIResponse.mk (provider this) (JS.or_else text "") None now tokens)
     end)%st
    (fun error => ret (handleError now this error)).

Definition sendMessageAnthropic : ST S AIResponse :=
  try_catch
    (response <- call 1 ;;
     match response with
     | Rejects e => throw e
     | NotOk status statusText => throw (sdkError status statusText)
     | Resolves text tokens =>
         ret (AIResponse.mk (provider this) (default "" text) None now tokens)
     end)%st
    (fun error => ret (handleError now this error)).

Definition sendMessageGrok : ST S AIResponse :=
  try_catch
    (response <- call 1 ;;
     match response with
     | Rejects e => throw e
     | NotOk status statusText =>
         throw (Error ("Grok API error: " +:+ pretty status +:+ " " +:+ statusText))
     | Resolves text tokens =>
         ret (AIResponse.mk (provider this) (JS.or_else text "") None now tokens)
     end)%st
    (fun error => ret (handleError now this error)).

Definition maxRetries : nat := 2.

(** [error.message?.includes('503') || error.message?.includes('overloaded')]. *)
Definition overloaded (error : Thrown) : bool :=
  match Thrown.message error with
  | Some m => JS.includes m "503" || JS.includes m "overloaded"
  | None => false
  end.

(** [this.handleError(lastError)] after the loop; [lastError] is
    [undefined] if the loop body never ran, and reading its [message]
    throws. *)
Definition handleLastError (lastError : option Thrown) : ST S AIResponse :=
  match lastError with
  | Some e => ret (handleError now this e)
  | None => throw (TypeError "Cannot read properties of undefined (reading 'message')")
  end.

(** The [for] loop of Gemini's [sendMessage] over the attempts still to
    make. *)
Fixpoint geminiLoop (attempts : list nat) (lastError : option Thrown)
    : ST S AIResponse :=
  match attempts with
  | [] => handleLastError lastError
  | attempt :: rest =>
      (outcome <- try_catch
                    (result <- call attempt ;;
                     match result with
                     | Rejects e => throw e
                     | NotOk status statusText => throw (sdkError status statusText)
                     | Resolves text _ =>
                         ret (inl (AIResponse.mk (provider this) (default "" text)
                                     None now None))
                     end)
                    (fun error => ret (inr error)) ;;
       match outcome with
       | inl response => ret response
       | inr error =>
           if overloaded error && Nat.ltb attempt maxRetries
           then geminiLoop rest (Some error)
           else handleLastError (Some error)
       end)%st
  end.

Definition sendMessageGemini : ST S AIResponse :=
  geminiLoop (seq 1 maxRetries) None.

Definition sendMessage : ST S AIResponse :=
  match kind this with
  | OpenAIProvider => sendMessageOpenAI
  | AnthropicProvider => sendMessageAnthropic
  | GeminiProvider => sendMessageGemini
  | GrokProvider => sendMessageGrok
  end.
End SendMessage.

(** [countTokens]: a quarter of the length of the joined contents, rounded
    up. *)
Definition countTokens (messages : list Message) : Z :=
  let text := JS.join " " (map Message.content messages) in
  (Z.of_nat (String.length text) + 3) / 4.

End BaseAIProvider.
Abbreviation BaseAIProvider := BaseAIProvider.t.

(** ** Process environment *)

Module Env.
Record t := mk {
  OPENAI_API_KEY : option string;
  ANTHROPIC_API_KEY : option string;
  GEMINI_API_KEY : option string;
  GROK_API_KEY : option string;
  OPENAI_MODEL : option string;
  ANTHROPIC_MODEL : option string;
  GEMINI_MODEL : option string;
  GROK_MODEL : option string;
  VERCEL : option string;
  NODE_ENV : option string
}.

(** [process.env.VERCEL === '1' || process.env.NODE_ENV === 'production']. *)
Definition isServerless (env : t) : bool :=
  bool_decide (VERCEL env = Some "1") || bool_decide (NODE_ENV env = Some "production").
End Env.
Abbreviation Env := Env.t.

(** ** AIOrchestrator (lib/core/orchestrator.ts) *)

(** The settled state of a promise, as [Promise.allSettled] reports it. *)
Inductive Settled :=
| Fulfilled (value : AIResponse)
| Rejected (reason : Thrown).

Module AIOrchestrator.

(** [providers] is a [Map], iterated in insertion order: the list of its
    entries, whose keys are distinct by construction. *)
Record t := mk { providers : list (string * BaseAIProvider) }.

(** The options object of [queryAllProviders]. *)
Module QueryOptions.
Record t := mk {
  temperature : option Q;
  maxTokens : option Z;
  providers : option (list string)
}.
End QueryOptions.

Definition initializeProviders (env : Env) : list (string * BaseAIProvider) :=
  (match Env.OPENAI_API_KEY env with
   | Some openaiKey =>
       if JS.truthy openaiKey then
         [("openai", BaseAIProvider.newOpenAI openaiKey
                       (JS.or_else (Env.OPENAI_MODEL env) "gpt-4o-mini"))]
       else []
   | None => []
   end)
  ++ (match Env.ANTHROPIC_API_KEY env with
      | Some anthropicKey =>
          if JS.truthy anthropicKey then
            [("anthropic", BaseAIProvider.newAnthropic anthropicKey
                             (JS.or_else (Env.ANTHROPIC_MODEL env)
                                "claude-3-5-sonnet-20241022"))]
          else []
      | None => []
      end)
  ++ (match Env.GEMINI_API_KEY env with
      | Some geminiKey =>
          if JS.truthy geminiKey then
            [("gemini", BaseAIProvider.newGemini geminiKey
                          (JS.or_else (Env.GEMINI_MODEL env) "gemini-1.5-flash"))]
          else []
      | None => []
      end)
  ++ (match Env.GROK_API_KEY env with
      | Some grokKey =>
          if JS.truthy grokKey then
            [("grok", BaseAIProvider.newGrok grokKey
                        (JS.or_else (Env.GROK_MODEL env) "grok-2-1212"))]
          else []
      | None => []
      end).

(** [new AIOrchestrator()]. *)
Definition new (env : Env) : t := mk (initializeProviders env).

(** [this.providers.get(name)]. *)
Definition lookup (this : t) (name : string) : option BaseAIProvider :=
  snd <$> List.find (fun e => String.eqb (fst e) name) (providers this).

Definition getAvailableProviders (this : t) : list string := map fst (providers this).

Definition createSummaries (responses : list AIResponse) : gmap string string :=
  fold_left
    (fun summary response =>
       let name := AIProvider.name (AIResponse.provider response) in
       if JS.truthy (AIResponse.content response) then
         let content := AIResponse.content response in
         let preview :=
           if Nat.ltb 200 (String.length content)
           then JS.substring0 197 content +:+ "..."
           else content in
         <[name := preview]> summary
       else if JS.truthy_opt (AIResponse.error response) then
         <[name := "Error: " +:+ default "" (AIResponse.error response)]> summary
       else summary)
    responses ∅.

(** [x || d] on an optional number: [undefined] and [0] give [d]. *)
Definition Q_or_else (x : option Q) (d : Q) : Q :=
  match x with Some q => if Qeq_bool q 0 then d else q | None => d end.
Definition Z_or_else (x : option Z) (d : Z) : Z :=
  match x with Some z => if Z.eqb z 0 then d else z | None => d end.

Section Queries.
Context {S : Type}.
Variable O : Oracle.
Variable now : Date.
Variable this : t.

(** One promise, awaited to its settlement. *)
Definition settle (promise : ST S AIResponse) : ST S Settled :=
  try_catch (value <- promise ;; ret (Fulfilled value))%st
            (fun reason => ret (Rejected reason)).

(** [Promise.allSettled]: every promise is awaited, none aborts the
    others; the results keep the order of the promises. *)
Fixpoint allSettled (promises : list (ST S AIResponse)) : ST S (list Settled) :=
  match promises with
  | [] => ret []
  | promise :: rest =>
      (result <- settle promise ;;
       results <- allSettled rest ;;
       ret (result :: results))%st
  end.

(** The [forEach] over the settled results: the fulfilled values, and the
    entries built for the rejected ones. *)
Fixpoint partitionSettled (results : list Settled)
    (activeProviders : list (string * BaseAIProvider))
    : list AIResponse * list AIResponse :=
  match results, activeProviders with
  | result :: results', (name, provider) :: active' =>
      let '(successfulResponses, failedResponses) :=
        partitionSettled results' active' in
      match result with
      | Fulfilled value => (value :: successfulResponses, failedResponses)
      | Rejected reason =>
          (successfulResponses,
           AIResponse.mk (BaseAIProvider.provider provider) ""
             (Some (JS.or_else (Thrown.message reason) "Unknown error"))
             now None
           :: failedResponses)
      end
  | _, _ => ([], [])
  end.

Definition activeProvidersOf (options : option QueryOptions.t)
    : list (string * BaseAIProvider) :=
  match options ≫= QueryOptions.providers with
  | Some requested =>
      filter (fun e => fst e ∈ requested) (providers this)
  | None => providers this
  end.

Definition queryAllProviders (messages : list Message)
    (options : option QueryOptions.t) : ST S AggregatedResponse :=
  let activeProviders := activeProvidersOf options in
  let promises :=
    map (fun e =>
           BaseAIProvider.sendMessage O now (snd e) messages
             (Options.mk
                (Q_or_else (options ≫= QueryOptions.temperature) (7 # 10))
                (Z_or_else (options ≫= QueryOptions.maxTokens) 4000)
                false))
        activeProviders in
  (responses <- allSettled promises ;;
   let '(successfulResponses, failedResponses) :=
     partitionSettled responses activeProviders in
   let allResponses := successfulResponses ++ failedResponses in
   ret (AggregatedResponse.mk allResponses (createSummaries allResponses)
          None None now))%st.

Definition querySingleProvider (providerName : string) (messages : list Message)
    (options : option Options) : ST S AIResponse :=
  match lookup this providerName with
  | None =>
      ret (AIResponse.mk (AIProvider.mk providerName providerName "unknown") ""
             (Some ("Provider " +:+ providerName +:+ " not configured"))
             now None)
  | Some provider =>
      BaseAIProvider.sendMessage O now provider messages
        (default Options.default options)
  end.
End Queries.

End AIOrchestrator.
Abbreviation AIOrchestrator := AIOrchestrator.t.

(** ** Regular expressions of the aggregator

    The two patterns of the source are sequences of quantified character
    classes.  [run] is the backtracking matcher of such a sequence: every
    quantifier is greedy and gives characters back on failure of what
    follows, as the JavaScript matcher does. *)

Module Regex.

Inductive Quant := Once | Opt | Star | Plus.

Record Item := item { class : ascii -> bool; quant : Quant }.

Definition isDigit (c : ascii) : bool :=
  let n := nat_of_ascii c in Nat.leb 48 n && Nat.leb n 57.
Definition isChar (x : ascii) (c : ascii) : bool := Ascii.eqb x c.
Definition isDigitOrComma (c : ascii) : bool := isDigit c || isChar "," c.

Section Run.
Context {R : Type}.

(** Greedy repetition of a class, then the continuation [k] on what is
    left; on failure of [k] one character less is taken. *)
Fixpoint star (cls : ascii -> bool) (k : string -> option R) (s : string)
    : option R :=
  match s with
  | String c s' =>
      if cls c then
        match star cls k s' with
        | Some r => Some r
        | None => k s
        end
      else k s
  | EmptyString => k s
  end.

Definition one (cls : ascii -> bool) (k : string -> option R) (s : string)
    : option R :=
  match s with
  | String c s' => if cls c then k s' else None
  | EmptyString => None
  end.

Definition step (i : Item) (k : string -> option R) (s : string) : option R :=
  match quant i with
  | Once => one (class i) k s
  | Opt => match one (class i) k s with Some r => Some r | None => k s end
  | Star => star (class i) k s
  | Plus => one (class i) (star (class i) k) s
  end.

Fixpoint run (items : list Item) (k : string -> option R) (s : string)
    : option R :=
  match items with
  | [] => k s
  | i :: rest => step i (run rest k) s
  end.
End Run.

(** A pattern anchored at both ends, [/^...$/.test(s)]. *)
Definition test_anchored (items : list Item) (s : string) : bool :=
  match run items (fun rest => if JS.truthy rest then None else Some tt) s with
  | Some _ => true
  | None => false
  end.

(** [s.match(/prefix(group)/)]: the text of the capture group of the
    leftmost match, the pattern being [prefix] followed by the group. *)
Definition match_here (prefix group : list Item) (s : string) : option string :=
  run prefix
    (fun start =>
       run group
         (fun rest =>
            Some (JS.substring0 (String.length start - String.length rest)%nat start))
         start)
    s.

Fixpoint match_group (prefix group : list Item) (s : string) : option string :=
  match match_here prefix group s with
  | Some g => Some g
  | None =>
      match s with
      | String _ s' => match_group prefix group s'
      | EmptyString => None
      end
  end.

(** An optional dollar sign; and one or more digits or commas, an
    optional dot, any number of digits. *)
Definition dollarOpt : list Item := [item (isChar "$") Opt].
Definition amount : list Item :=
  [item isDigitOrComma Plus; item (isChar ".") Opt; item isDigit Star].

(** [numericPattern]: an optional dollar sign and [amount], anchored at
    both ends. *)
Definition numericPattern (s : string) : bool := test_anchored (dollarOpt ++ amount) s.

(** [match[1]] of [content.match], whose pattern is an optional dollar
    sign followed by the group [amount], not anchored. *)
Definition firstAmount (s : string) : option string := match_group dollarOpt amount s.

End Regex.

(** ** Numbers of the aggregator

    The source computes with IEEE doubles.  The embedding computes with exact
    rationals; [None] is [NaN].  The two agree whenever the amounts read, their
    sum and their mean are doubles (for instance integer amounts, below 2^53,
    whose mean has at most two binary fraction digits); outside that range the
    source rounds where the embedding does not. *)

Module Num.

Definition digitValue (c : ascii) : Z := Z.of_nat (nat_of_ascii c) - 48.

(** The longest prefix of digits, read as a number, and the rest. *)
Fixpoint digits (acc : Z) (count : nat) (s : string) : Z * nat * string :=
  match s with
  | String c s' =>
      if Regex.isDigit c then digits (10 * acc + digitValue c) (S count) s'
      else (acc, count, s)
  | EmptyString => (acc, count, s)
  end.

(** [parseFloat] on an unsigned decimal without exponent, which is all the
    source passes to it: the longest prefix [digits], [digits.digits],
    [digits.] or [.digits]; [NaN] when there is no such prefix. *)
Definition parseFloat (s : string) : option Q :=
  let '(int, intCount, rest) := digits 0 0 (JS.trimStart s) in
  let '(frac, fracCount) :=
    match rest with
    | String c rest' =>
        if Regex.isChar "." c then
          let '(f, n, _) := digits 0 0 rest' in (f, n)
        else (0, 0%nat)
    | EmptyString => (0, 0%nat)
    end in
  match intCount, fracCount with
  | O, O => None
  | _, _ =>
      Some (Qmake (int * 10 ^ Z.of_nat fracCount + frac)
                  (Z.to_pos (10 ^ Z.of_nat fracCount)))
  end.

(** [s.replace(/,/g, '')]. *)
Fixpoint removeCommas (s : string) : string :=
  match s with
  | String c s' =>
      if Regex.isChar "," c then removeCommas s' else String c (removeCommas s')
  | EmptyString => EmptyString
  end.

(** [n > 0] on a number that may be [NaN]. *)
Definition positive (n : option Q) : bool :=
  match n with
  | Some q => if Qlt_le_dec 0 q then true else false
  | None => false
  end.

Definition pad2 (n : Z) : string :=
  if Z.ltb n 10 then "0" +:+ pretty n else pretty n.

(** [x.toFixed(2)]: the integer [n] nearest to [100 x], the larger one on a
    tie, written with two fraction digits. *)
Definition toFixed2 (x : Q) : string :=
  let render (y : Q) :=
    let n := Qfloor (y * 100 + (1 # 2)) in
    pretty (n / 100) +:+ "." +:+ pad2 (n mod 100) in
  if Qlt_le_dec x 0 then "-" +:+ render (- x)%Q else render x.

(** [numbers.reduce((a, b) => a + b, 0)]. *)
Definition sum (numbers : list Q) : Q := fold_left Qplus numbers 0%Q.

End Num.

(** ** ResponseAggregator (lib/core/aggregator.ts) *)

Module ResponseAggregator.

(** [meanGPT] is the synthesis provider, [null] without an OpenAI key. *)
Record t := mk { meanGPT : option BaseAIProvider }.

(** [new ResponseAggregator()]. *)
Definition new (env : Env) : t :=
  mk (match Env.OPENAI_API_KEY env with
      | Some openaiKey =>
          if JS.truthy openaiKey
          then Some (BaseAIProvider.newOpenAI openaiKey "gpt-4o-mini")
          else None
      | None => None
      end).

(** [r.content && !r.error]. *)
Definition isValid (r : AIResponse) : bool :=
  JS.truthy (AIResponse.content r) && negb (JS.truthy_opt (AIResponse.error r)).

Definition getLogoPath (now : Date) (providerName : string) : string :=
  let timestamp := pretty now in
  let lower := JS.toLowerCase providerName in
  if String.eqb lower "openai chatgpt" then "/AILogos/ChatGPTLogo.png?v=" +:+ timestamp
  else if String.eqb lower "anthropic claude" then "/AILogos/ClaudeLogo.png?v=" +:+ timestamp
  else if String.eqb lower "google gemini" then "/AILogos/GemeniLogo.png?v=" +:+ timestamp
  else if String.eqb lower "xai grok" then "/AILogos/GrokLogo.png?v=" +:+ timestamp
  else "".

Definition separator : string := JS.nl +:+ JS.nl +:+ "---" +:+ JS.nl +:+ JS.nl.

Definition createMeanAnalysisPrompt (now : Date) (responses : list AIResponse)
    (question : string) : string :=
  let responsesText :=
    JS.join separator
      (map (fun r =>
              let displayName := AIProvider.displayName (AIResponse.provider r) in
              let logoPath := getLogoPath now displayName in
              let logoMarkdown :=
                if JS.truthy logoPath
                then "![" +:+ displayName +:+ "](" +:+ logoPath +:+ ")"
                else "" in
              let content :=
                if JS.truthy_opt (AIResponse.error r)
                then "*Error: " +:+ default "" (AIResponse.error r) +:+ "*"
                else if JS.truthy (AIResponse.content r) then AIResponse.content r
                else "*No response received*" in
              logoMarkdown +:+ " **" +:+ displayName +:+ ":** " +:+ content)
           responses) in
  "Original Question: "
  +:+ JS.dquote
  +:+ question
  +:+ JS.dquote
  +:+ "

Here are the individual AI responses:

"
  +:+ responsesText
  +:+ "

Your task: Analyze these responses and provide a synthesized answer. Return your response in this EXACT format:

## AI Responses

"
  +:+ responsesText
  +:+ "

---

## ![MeanGPT](/AILogos/MeanGPTLogo.svg?v="
  +:+ pretty now
  +:+ ") Consolidated Answer

**Answer:** [Your direct, clear answer to the question]

**Key Details:** [2-3 most important supporting facts]

**Note:** [Any important caveats if needed]

IMPORTANT: You must include both the AI Responses section (exactly as shown above) AND the Consolidated Answer section. Do not truncate or skip either section.".

Definition createBestAnswerPrompt (responses : list AIResponse) (question : string)
    : string :=
  let responsesText :=
    JS.join separator
      (map (fun r =>
              AIProvider.displayName (AIResponse.provider r) +:+ ":" +:+ JS.nl
              +:+ AIResponse.content r)
           responses) in
  "Original Question: "
  +:+ JS.dquote
  +:+ question
  +:+ JS.dquote
  +:+ "

The following are responses from different AI providers:

"
  +:+ responsesText
  +:+ "

---

Evaluate these responses and provide what you consider the BEST answer based on:
1. Accuracy and correctness
2. Completeness
3. Clarity and coherence
4. Relevance to the question

Either select and refine one of the existing answers, or create an improved version that addresses any shortcomings.".

Definition areNumericResponses (contents : list string) : bool :=
  forallb
    (fun content =>
       let trimmed := JS.trim content in
       Regex.numericPattern trimmed
       || existsb (fun line => Regex.numericPattern (JS.trim line))
                  (JS.split_lines trimmed))
    contents.

(** The number read from one content: [parseFloat] of the first amount
    without its commas, [0] when the content holds no amount. *)
Definition amountOf (content : string) : option Q :=
  match Regex.firstAmount content with
  | Some group => Num.parseFloat (Num.removeCommas group)
  | None => Some 0%Q
  end.

(** [contents.map(...).filter(n => n > 0)]; [NaN] does not pass the
    filter. *)
Definition positiveAmounts (contents : list string) : list Q :=
  omap (fun content =>
          let n := amountOf content in
          if Num.positive n then n else None)
       contents.

Definition calculateNumericMean (contents : list string) : string :=
  let numbers := positiveAmounts contents in
  match numbers with
  | [] => "Unable to calculate mean"
  | _ :: _ =>
      let mean := (Num.sum numbers / inject_Z (Z.of_nat (length numbers)))%Q in
      "Mean value: $" +:+ Num.toFixed2 mean
  end.

Definition simpleAverage (responses : list AIResponse) : string :=
  let contents := List.filter JS.truthy (map AIResponse.content responses) in
  if areNumericResponses contents then calculateNumericMean contents
  else
    "Combined response from " +:+ pretty (length responses) +:+ " AIs:"
    +:+ JS.nl +:+ JS.nl
    +:+ JS.join (JS.nl +:+ JS.nl)
          (map (fun r =>
                  AIProvider.displayName (AIResponse.provider r) +:+ ": "
                  +:+ AIResponse.content r)
               responses).

(** The options of the two synthesis calls. *)
Definition synthesisOptions : Options := Options.mk (3 # 10) 8000 false.

Section Synthesis.
Context {S : Type}.
Variable O : Oracle.
Variable now : Date.
Variable this : t.

Definition calculateMeanAnswer (responses : list AIResponse)
    (originalQuestion : string) (allResponses : list AIResponse) : ST S string :=
  match meanGPT this with
  | None => ret (simpleAverage responses)
  | Some provider =>
      let analysisPrompt :=
        createMeanAnalysisPrompt now allResponses originalQuestion in
      try_catch
        (result <- BaseAIProvider.sendMessage O now provider
                     [Message.mk system
                        "You are MeanGPT, an AI that synthesizes multiple AI responses into a consensus answer."
                        None;
                      Message.mk user analysisPrompt None]
                     synthesisOptions ;;
         ret (if JS.truthy (AIResponse.content result)
              then AIResponse.content result
              else simpleAverage responses))%st
        (fun _ => ret (simpleAverage responses))
  end.

(** [responses[0].content]; reading [content] of a missing first element
    throws. *)
Definition firstContent (responses : list AIResponse) : ST S string :=
  match responses with
  | r :: _ => ret (AIResponse.content r)
  | [] => throw (TypeError "Cannot read properties of undefined (reading 'content')")
  end.

Definition selectBestAnswer (responses : list AIResponse)
    (originalQuestion : string) : ST S string :=
  match meanGPT this with
  | None => firstContent responses
  | Some provider =>
      let selectionPrompt := createBestAnswerPrompt responses originalQuestion in
      try_catch
        (result <- BaseAIProvider.sendMessage O now provider
                     [Message.mk system
                        "You are MeanGPT, an AI that evaluates and selects the best response from multiple AI providers."
                        None;
                      Message.mk user selectionPrompt None]
                     synthesisOptions ;;
         if JS.truthy (AIResponse.content result)
         then ret (AIResponse.content result)
         else firstContent responses)%st
        (fun _ => firstContent responses)
  end.

(** [{...aggregatedResponse, meanAnswer, bestAnswer}]. *)
Definition withAnswers (aggregatedResponse : AggregatedResponse)
    (meanAnswer bestAnswer : string) : AggregatedResponse :=
  AggregatedResponse.mk
    (AggregatedResponse.responses aggregatedResponse)
    (AggregatedResponse.summary aggregatedResponse)
    (Some meanAnswer) (Some bestAnswer)
    (AggregatedResponse.timestamp aggregatedResponse).

Definition analyzeResponses (aggregatedResponse : AggregatedResponse)
    (originalQuestion : string) : ST S AggregatedResponse :=
  (emit EvAggregator ;;;
   let validResponses :=
     List.filter isValid (AggregatedResponse.responses aggregatedResponse) in
   match validResponses with
   | [] =>
       ret (withAnswers aggregatedResponse
              "All AI providers failed to respond." "No responses available.")
   | [single] =>
       singleResponseAnswer <-
         calculateMeanAnswer validResponses originalQuestion
           (AggregatedResponse.responses aggregatedResponse) ;;
       ret (withAnswers aggregatedResponse singleResponseAnswer
              (AIResponse.content single))
   | _ :: _ :: _ =>
       meanAnswer <-
         calculateMeanAnswer validResponses originalQuestion
           (AggregatedResponse.responses aggregatedResponse) ;;
       bestAnswer <- selectBestAnswer validResponses originalQuestion ;;
       ret (withAnswers aggregatedResponse meanAnswer bestAnswer)
   end)%st.
End Synthesis.

Definition createFormattedResponse (aggregated : AggregatedResponse) : string :=
  let sections :=
    fold_left
      (fun formatted response =>
         formatted
         +:+ "### " +:+ AIProvider.displayName (AIResponse.provider response) +:+ JS.nl
         +:+ (if JS.truthy_opt (AIResponse.error response)
              then "*Error: " +:+ default "" (AIResponse.error response) +:+ "*"
                   +:+ JS.nl +:+ JS.nl
              else AIResponse.content response +:+ JS.nl +:+ JS.nl))
      (AggregatedResponse.responses aggregated)
      ("## AI Responses Summary" +:+ JS.nl +:+ JS.nl) in
  let withMean :=
    if JS.truthy_opt (AggregatedResponse.meanAnswer aggregated)
    then sections +:+ "---" +:+ JS.nl +:+ JS.nl +:+ "## Mean Answer" +:+ JS.nl
         +:+ default "" (AggregatedResponse.meanAnswer aggregated) +:+ JS.nl +:+ JS.nl
    else sections in
  if JS.truthy_opt (AggregatedResponse.bestAnswer aggregated)
     && negb (bool_decide (AggregatedResponse.bestAnswer aggregated
                           = AggregatedResponse.meanAnswer aggregated))
  then withMean +:+ "## Best Answer" +:+ JS.nl
       +:+ default "" (AggregatedResponse.bestAnswer aggregated) +:+ JS.nl +:+ JS.nl
  else withMean.

End ResponseAggregator.
Abbreviation ResponseAggregator := ResponseAggregator.t.

(** ** MeanGPTRouter (lib/core/router.ts) *)

Module MeanGPTRouter.

Record t := mk {
  contextManager : ContextManager.t;
  orchestrator : AIOrchestrator;
  aggregator : ResponseAggregator
}.

(** [new MeanGPTRouter()]. *)
Definition new (env : Env) (fs : FileStorageManager) : t :=
  mk (ContextManager.new fs (Env.isServerless env))
     (AIOrchestrator.new env)
     (ResponseAggregator.new env).

(** A call of a method of [this.contextManager]. *)
Definition onContextManager {A} (m : ST ContextManager.t A) : ST t A :=
  zoom contextManager (fun cm this => mk cm (orchestrator this) (aggregator this)) m.

(** The value [processMessage] resolves to. *)
Module Reply.
Record t := mk {
  response : string;
  conversationId : string;
  routing : ContextManager.Routing.t;
  aggregatedData : option AggregatedResponse
}.
End Reply.

Section Methods.
Variable O : Oracle.
Variable now : Date.
(** The random part of an identifier, should one be generated. *)
Variable rnd : string.

Definition handleDirectResponse (conversationId userMessage : string)
    : ST t string :=
  (context <- onContextManager (ContextManager.getMasterContext now conversationId) ;;
   let messages := context ++ [Message.mk user userMessage None] in
   this <- get ;;
   directResponse <-
     AIOrchestrator.querySingleProvider O now (orchestrator this) "openai"
       messages None ;;
   if JS.truthy_opt (AIResponse.error directResponse) then
     ret ("MeanGPT: I encountered an error processing your request: "
          +:+ default "" (AIResponse.error directResponse))
   else ret (AIResponse.content directResponse))%st.

(** The body of the [for] loop of [handleAIForwarding]. *)
Definition recordProviderTurn (conversationId userMessage : string)
    (result : AggregatedResponse) (provider : string) : ST t unit :=
  (onContextManager
     (ContextManager.addAIMessage now conversationId provider
        (Message.mk user userMessage None)) ;;;
   match List.find
           (fun r => String.eqb (AIProvider.name (AIResponse.provider r)) provider)
           (AggregatedResponse.responses result) with
   | Some providerResponse =>
       if negb (JS.truthy_opt (AIResponse.error providerResponse)) then
         onContextManager
           (ContextManager.addAIMessage now conversationId provider
              (Message.mk assistant (AIResponse.content providerResponse) None))
       else ret tt
   | None => ret tt
   end)%st.

Fixpoint forEach {A} (body : A -> ST t unit) (l : list A) : ST t unit :=
  match l with
  | [] => ret tt
  | x :: rest => (body x ;;; forEach body rest)%st
  end.

Definition handleAIForwarding (conversationId userMessage : string)
    (specificProviders : option (list string)) : ST t AggregatedResponse :=
  let providers := ["openai"; "anthropic"; "gemini"; "grok"] in
  let activeProviders := default providers specificProviders in
  (* [activeProviders[0]]; a missing element is the key [undefined]. *)
  let primaryProvider := default "undefined" (head activeProviders) in
  (context <- onContextManager
                (ContextManager.getMessagesForProvider now conversationId
                   primaryProvider true) ;;
   let messages := context ++ [Message.mk user userMessage None] in
   this <- get ;;
   result <-
     AIOrchestrator.queryAllProviders O now (orchestrator this) messages
       (Some (AIOrchestrator.QueryOptions.mk (Some (7 # 10)) (Some 4000)
                (Some activeProviders))) ;;
   forEach (recordProviderTurn conversationId userMessage result) activeProviders ;;;
   ret result)%st.

Definition processMessage (conversationId userMessage : string)
    : ST t Reply.t :=
  (this <- get ;;
   match ContextManager.getConversation conversationId (contextManager this) with
   | Some _ => ret tt
   | None =>
       onContextManager
         (ContextManager.createConversation now rnd (Some conversationId)) ;;;
       ret tt
   end ;;;
   let userMsg := Message.mk user userMessage (Some now) in
   onContextManager (ContextManager.addMessage now conversationId userMsg) ;;;
   routing <- onContextManager
                (ContextManager.shouldForwardToAIs O conversationId userMessage) ;;
   if negb (ContextManager.Routing.shouldForward routing) then
     response <- handleDirectResponse conversationId userMessage ;;
     ret (Reply.mk response conversationId routing None)
   else
     aggregatedResponse <-
       handleAIForwarding conversationId userMessage
         (ContextManager.Routing.providers routing) ;;
     this' <- get ;;
     analyzedResponse <-
       ResponseAggregator.analyzeResponses O now (aggregator this')
         aggregatedResponse userMessage ;;
     let formattedResponse :=
       ResponseAggregator.createFormattedResponse analyzedResponse in
     let assistantMsg := Message.mk assistant formattedResponse (Some now) in
     onContextManager (ContextManager.addMessage now conversationId assistantMsg) ;;;
     ret (Reply.mk formattedResponse conversationId routing (Some analyzedResponse)))%st.

Definition getConversationHistory (conversationId : string) : ST t (list Message) :=
  onContextManager (ContextManager.getMasterContext now conversationId).

Definition createNewConversation : ST t string :=
  (conversation <- onContextManager (ContextManager.createConversation now rnd None) ;;
   ret (ConversationContext.id conversation))%st.

Definition getAvailableProviders (this : t) : list string :=
  AIOrchestrator.getAvailableProviders (orchestrator this).
End Methods.

End MeanGPTRouter.
Abbreviation MeanGPTRouter := MeanGPTRouter.t.

(** ** Vocabulary of the properties *)

(** The appends of the context manager, as a client may issue them one after
    the other; a call that throws leaves the manager as it was and the
    sequence goes on. *)
Inductive Append :=
| AppendMessage (now : Date) (conversationId : string) (message : Message)
| AppendAIMessage (now : Date) (conversationId provider : string) (message : Message)
| Create (now : Date) (rnd : string) (id : option string).

Definition runAppend (a : Append) (this : ContextManager.t) : ContextManager.t :=
  match a with
  | AppendMessage now conversationId message =>
      state_of (ContextManager.addMessage now conversationId message this)
  | AppendAIMessage now conversationId provider message =>
      state_of (ContextManager.addAIMessage now conversationId provider message this)
  | Create now rnd id =>
      state_of (ContextManager.createConversation now rnd id this)
  end.

Definition runAppends (l : list Append) (this : ContextManager.t) : ContextManager.t :=
  fold_left (fun acc a => runAppend a acc) l this.

(** Every transcript and every provider context of the manager holds at most
    [n] messages. *)
Definition contextsBoundedBy (n : nat) (this : ContextManager.t) : Prop :=
  ∀ id c, ContextManager.conversations this !! id = Some c →
    (length (ConversationContext.messages c) ≤ n)%nat
    ∧ ∀ provider ctx,
        AIContexts.get (ConversationContext.aiContexts c) provider = Some ctx →
        (length ctx ≤ n)%nat.

(** The synthetic message that stands for the removed messages: its topics
    are the first 50 characters of each removed user message, joined by a
    comma and a space. *)
Definition summaryOf (label : string) (removed : list Message) : Message :=
  Message.mk system
    (label +:+ "Topics discussed: "
     +:+ JS.join ", "
           (map (fun m => JS.substring0 50 (Message.content m))
                (filter (fun m => Message.role m = user) removed)))
    None.

(** The conversation [createConversation] stores. *)
Definition freshConversation (now : Date) (id : string) : ConversationContext :=
  ConversationContext.mk id [] AIContexts.empty now now.

(** A call fails when it does not resolve with a reply. *)
Definition callFails (o : CallOutcome) : bool :=
  match o with
  | Resolves _ _ => false
  | Rejects _ | NotOk _ _ => true
  end.

(** An error field that is present and not empty. *)
Definition populated (e : option string) : Prop := ∃ msg, e = Some msg ∧ msg ≠ "".

(** What [sendMessage] resolves to: a response of this provider that either
    has the shape [handleError] gives it, an empty content and a populated
    error, or carries no error and was built from an attempt at the vendor
    that resolved. *)
Definition settlesWith (O : Oracle) (this : BaseAIProvider) (messages : list Message)
    (options : Options) (r : AIResponse) : Prop :=
  AIResponse.provider r = BaseAIProvider.provider this
  ∧ ((AIResponse.content r = "" ∧ populated (AIResponse.error r))
     ∨ (AIResponse.error r = None
        ∧ ∃ attempt text tokens,
            BaseAIProvider.vendorCall O this messages options attempt
            = Resolves text tokens)).

(** The provider names of the responses of a fan-out, in order. *)
Definition respondents (agg : AggregatedResponse) : list string :=
  map (fun r => AIProvider.name (AIResponse.provider r)) (AggregatedResponse.responses agg).




(** A response is not valid: its content is empty or its error is
    populated. *)
Definition failed (r : AIResponse) : Prop :=
  AIResponse.content r = "" ∨ populated (AIResponse.error r).

(** Synthesis is unavailable: no synthesis provider is configured, or the
    call of the configured one fails whatever it is sent. *)
Definition synthesisUnavailable (O : Oracle) (this : ResponseAggregator) : Prop :=
  ResponseAggregator.meanGPT this = None
  ∨ ∃ p, ResponseAggregator.meanGPT this = Some p
         ∧ ∀ messages attempt,
             callFails (BaseAIProvider.vendorCall O p messages
                          ResponseAggregator.synthesisOptions attempt) = true.

(** The keywords by which a message refers to MeanGPT itself: its name, in
    one word or two, and the two identity questions. *)
Definition selfReferenceKeywords : list string :=
  ["meangpt"; "mean gpt"; "what is your name"; "who are you"].

Definition mentionsSelf (userMessage : string) : bool :=
  existsb (JS.includes (JS.toLowerCase userMessage)) selfReferenceKeywords.

(** The classification fails: the request is refused or answered with an
    error status, or the reply holds no text, or its text is not JSON, or it
    is the JSON null. *)
Definition classificationFails (O : Oracle) (summary userMessage : string) : Prop :=
  match Oracle.routing O summary userMessage with
  | Rejects _ | NotOk _ _ | Resolves None _ => True
  | Resolves (Some text) _ =>
      text = ""
      ∨ Oracle.JSON_parse O (JS.trim text) = None
      ∨ Oracle.JSON_parse O (JS.trim text) = Some JsonNull
  end.

(** The master transcript and the provider contexts a manager holds for an
    identifier; those of a conversation that is not in memory are empty. *)
Definition transcriptOf (this : ContextManager.t) (id : string) : list Message :=
  match ContextManager.conversations this !! id with
  | Some c => ConversationContext.messages c
  | None => []
  end.

Definition providerContextsOf (this : ContextManager.t) (id : string) : AIContexts :=
  match ContextManager.conversations this !! id with
  | Some c => ConversationContext.aiContexts c
  | None => AIContexts.empty
  end.

(** The notice of the direct branch starts with the name of the
    orchestrator. *)
Definition hasIdentityPrefix (response : string) : bool :=
  JS.startsWith response "MeanGPT: ".

(** An event that is a call of a vendor. *)
Definition isVendorCall (ev : Event) : Prop :=
  match ev with
  | EvVendorCall _ _ _ => True
  | EvRoutingFetch _ _ | EvAggregator => False
  end.

(** What [processMessage] does after the routing decision. *)
Definition afterRouting (O : Oracle) (now : Date) (id userMessage : string)
    (routing : ContextManager.Routing.t)
    : ST MeanGPTRouter MeanGPTRouter.Reply.t :=
  (if negb (ContextManager.Routing.shouldForward routing) then
     response <- MeanGPTRouter.handleDirectResponse O now id userMessage ;;
     ret (MeanGPTRouter.Reply.mk response id routing None)
   else
     aggregatedResponse <-
       MeanGPTRouter.handleAIForwarding O now id userMessage
         (ContextManager.Routing.providers routing) ;;
     this' <- get ;;
     analyzedResponse <-
       ResponseAggregator.analyzeResponses O now (MeanGPTRouter.aggregator this')
         aggregatedResponse userMessage ;;
     let formattedResponse :=
       ResponseAggregator.createFormattedResponse analyzedResponse in
     let assistantMsg := Message.mk assistant formattedResponse (Some now) in
     MeanGPTRouter.onContextManager
       (ContextManager.addMessage now id assistantMsg) ;;;
     ret (MeanGPTRouter.Reply.mk formattedResponse id routing (Some analyzedResponse)))%st.

(** ** Sample data *)

(** A manager that already holds a conversation with one message under the
    identifier conv-1. *)
Definition managerWithHistory : ContextManager.t :=
  runAppends
    [Create 1 "k3j2h1g0f" (Some "conv-1");
     AppendMessage 2 "conv-1" (Message.mk user "What is 2+2?" (Some 2))]
    (ContextManager.new FileStorageManager.empty true).

(** An outside world in which every call is refused. *)
Definition offlineOracle : Oracle :=
  Oracle.mk
    (fun _ _ _ => Rejects (Error "fetch failed"))
    (fun _ _ _ _ => Rejects (Error "fetch failed"))
    (fun _ _ _ _ _ => Rejects (Error "fetch failed"))
    (fun _ _ _ => Rejects (Error "fetch failed"))
    (fun _ _ => Rejects (Error "fetch failed"))
    (fun _ => None).

(** An environment with the four keys, and one with the OpenAI key only. *)
Definition fullEnv : Env :=
  Env.mk (Some "sk-openai") (Some "sk-anthropic") (Some "sk-gemini") (Some "sk-grok")
    None None None None None (Some "production").
Definition openaiOnlyEnv : Env :=
  Env.mk (Some "sk-openai") None None None None None None None None (Some "production").

(** The respondents of a fan-out over the requested names, on a new
    orchestrator of the environment. *)
Definition respondentsOf (env : Env) (O : Oracle) (requested : list string)
    : option (list string) :=
  match result_of
          (AIOrchestrator.queryAllProviders O 0 (AIOrchestrator.new env) []
             (Some (AIOrchestrator.QueryOptions.mk None None (Some requested))) tt) with
  | Returned agg => Some (respondents agg)
  | Threw _ => None
  end.

(** A successful response of OpenAI with the given content, and a failed
    response of Grok. *)
Definition answer (content : string) : AIResponse :=
  AIResponse.mk (AIProvider.mk "openai" "OpenAI ChatGPT" "gpt-4o-mini") content None 0 None.
Definition failure : AIResponse :=
  AIResponse.mk (AIProvider.mk "grok" "xAI Grok" "grok-2-1212") ""
    (Some "fetch failed") 0 None.

(** A fan-out result in which both providers failed, and one in which only
    OpenAI answered. *)
Definition allFailed : AggregatedResponse :=
  AggregatedResponse.mk
    [failure;
     AIResponse.mk (AIProvider.mk "gemini" "Google Gemini" "gemini-1.5-flash")
       "partial" (Some "Request timeout after 30 seconds") 0 None]
    ∅ None None 0.

(** An outside world whose classifier always answers with a direct reply,
    and in which only OpenAI answers. *)
Definition directReplyText : string :=
  "{" +:+ JS.dquote +:+ "decision" +:+ JS.dquote +:+ ": "
  +:+ JS.dquote +:+ "DIRECT_REPLY" +:+ JS.dquote +:+ "}".

Definition directReplyOracle : Oracle :=
  Oracle.mk
    (fun _ _ _ => Resolves (Some "I am MeanGPT.") (Some 42))
    (fun _ _ _ _ => Rejects (Error "fetch failed"))
    (fun _ _ _ _ _ => Rejects (Error "fetch failed"))
    (fun _ _ _ => Rejects (Error "fetch failed"))
    (fun _ _ => Resolves (Some directReplyText) (Some 17))
    (fun text =>
       if String.eqb text directReplyText
       then Some (JsonValue (Some "DIRECT_REPLY") None None)
       else None).

(** A router whose conversation conv-1 holds twenty messages, m0 to m19,
    of the user and the assistant in turn. *)
Definition twentyMessages : list Message :=
  map (fun i =>
         Message.mk (if Nat.even i then user else assistant)
           ("m" +:+ pretty i) None)
      (seq 0 20).

Definition routerWithTwenty : MeanGPTRouter :=
  MeanGPTRouter.mk
    (runAppends
       (Create 0 "k3j2h1g0f" (Some "conv-1")
          :: map (AppendMessage 0 "conv-1") twentyMessages)
       (ContextManager.new FileStorageManager.empty true))
    (AIOrchestrator.new fullEnv)
    (ResponseAggregator.new fullEnv).

(** The first message of a conversation, on a new router, in a world whose
    classifier answers with a direct reply; and the same message sent to the
    conversation of twenty messages. *)
Definition firstMessageRun : Result MeanGPTRouter.Reply.t * MeanGPTRouter * list Event :=
  MeanGPTRouter.processMessage directReplyOracle 0 "a1b2c3d4e" "conv-1" "Who are you?"
    (MeanGPTRouter.new fullEnv FileStorageManager.empty).

Definition twentyFirstMessageRun
    : Result MeanGPTRouter.Reply.t * MeanGPTRouter * list Event :=
  MeanGPTRouter.processMessage directReplyOracle 7 "a1b2c3d4e" "conv-1" "Who are you?"
    routerWithTwenty.


(** ** Further vocabulary: the context manager *)

(** The context a manager holds for a provider of a conversation. *)
Definition contextOf (this : ContextManager.t) (id provider : string)
    : option (list Message) :=
  c ← ContextManager.conversations this !! id;
  AIContexts.get (ConversationContext.aiContexts c) provider.

(** A restart of the process: the memory is lost, the storage stays. *)
Definition restart (this : ContextManager.t) : ContextManager.t :=
  ContextManager.new (ContextManager.fileStorage this) (ContextManager.isServerless this).

(** A manager that writes to storage, with a conversation conv-1 whose
    openai context holds one turn. *)
Definition persistentManager : ContextManager.t :=
  runAppends
    [Create 1 "k3j2h1g0f" (Some "conv-1");
     AppendAIMessage 2 "conv-1" "openai" (Message.mk user "What is 2+2?" None)]
    (ContextManager.new FileStorageManager.empty false).

(** A context as a first trimming leaves it: a summary and twenty
    messages. *)
Definition trimmedOnce : list Message :=
  summaryOf "Previous context summary: " [Message.mk user "m0" None]
    :: map (fun i =>
              Message.mk (if Nat.even i then user else assistant)
                ("m" +:+ pretty i) None)
           (seq 1 20).

(** ** Further vocabulary: the orchestrator *)

(** The key the environment holds for a provider name. *)
Definition apiKeyOf (env : Env) (name : string) : option string :=
  if String.eqb name "openai" then Env.OPENAI_API_KEY env
  else if String.eqb name "anthropic" then Env.ANTHROPIC_API_KEY env
  else if String.eqb name "gemini" then Env.GEMINI_API_KEY env
  else if String.eqb name "grok" then Env.GROK_API_KEY env
  else None.

(** A provider is configured when its key is present and not empty. *)
Definition configured (env : Env) (name : string) : bool :=
  JS.truthy_opt (apiKeyOf env name).

Definition knownProviders : list string := ["openai"; "anthropic"; "gemini"; "grok"].

(** An environment whose Gemini key is the empty string. *)
Definition emptyGeminiKeyEnv : Env :=
  Env.mk (Some "sk-openai") None (Some "") (Some "sk-grok") None None None None None None.

(** ** Further vocabulary: summaries and vendor calls *)

(** The preview the summary keeps of a content: the content itself up to 200
    characters, its first 197 characters and an ellipsis beyond. *)
Definition previewOf (content : string) : string :=
  if Nat.ltb 200 (String.length content)
  then JS.substring0 197 content +:+ "..."
  else content.

(** What an attempt at the vendor throws inside the [try], if anything. *)
Definition thrownBy (o : CallOutcome) : option Thrown :=
  match o with
  | Rejects e => Some e
  | NotOk status statusText => Some (BaseAIProvider.sdkError status statusText)
  | Resolves _ _ => None
  end.

(** Gemini tries again: its first attempt threw an error whose message
    mentions 503 or overloaded. *)
Definition geminiRetries (O : Oracle) (this : BaseAIProvider) (messages : list Message)
    (options : Options) : bool :=
  match thrownBy (BaseAIProvider.vendorCall O this messages options 1) with
  | Some e => BaseAIProvider.overloaded e
  | None => false
  end.

(** An outside world in which Gemini is overloaded at every attempt. *)
Definition overloadedOracle : Oracle :=
  Oracle.mk
    (fun _ _ _ => Rejects (Error "fetch failed"))
    (fun _ _ _ _ => Rejects (Error "fetch failed"))
    (fun _ _ _ _ _ => Rejects (Error "[503 Service Unavailable] The model is overloaded."))
    (fun _ _ _ => Rejects (Error "fetch failed"))
    (fun _ _ => Rejects (Error "fetch failed"))
    (fun _ => None).

(** ** Further vocabulary: the aggregator *)

(** The result without a best answer. *)
Definition withoutBestAnswer (agg : AggregatedResponse) : AggregatedResponse :=
  AggregatedResponse.mk (AggregatedResponse.responses agg)
    (AggregatedResponse.summary agg) (AggregatedResponse.meanAnswer agg) None
    (AggregatedResponse.timestamp agg).

(** A fan-out result with two valid answers and a failure between them. *)
Definition twoAnswers : AggregatedResponse :=
  AggregatedResponse.mk
    [AIResponse.mk (AIProvider.mk "anthropic" "Anthropic Claude" "claude-3-5-sonnet-20241022")
       "Paris is the capital." None 0 None;
     failure;
     answer "Paris"]
    ∅ None None 0.

(** ** Further vocabulary: the router *)

(** Two states of the router hold the same master transcripts, the same
    set of conversations and the same collaborators. *)
Definition sameTranscripts (s s' : MeanGPTRouter) : Prop :=
  (∀ id, transcriptOf (MeanGPTRouter.contextManager s') id
         = transcriptOf (MeanGPTRouter.contextManager s) id)
  ∧ (∀ id, ContextManager.conversations (MeanGPTRouter.contextManager s') !! id = None
           ↔ ContextManager.conversations (MeanGPTRouter.contextManager s) !! id = None)
  ∧ MeanGPTRouter.orchestrator s' = MeanGPTRouter.orchestrator s
  ∧ MeanGPTRouter.aggregator s' = MeanGPTRouter.aggregator s.

(** An outside world whose classifier asks for one provider by a name the
    context manager has no context for. *)
Definition unknownProviderText : string :=
  "{" +:+ JS.dquote +:+ "decision" +:+ JS.dquote +:+ ": "
  +:+ JS.dquote +:+ "FORWARD_SPECIFIC" +:+ JS.dquote +:+ "}".

Definition unknownProviderOracle : Oracle :=
  Oracle.mk
    (fun _ _ _ => Resolves (Some "4") (Some 42))
    (fun _ _ _ _ => Resolves (Some "4") (Some 42))
    (fun _ _ _ _ _ => Resolves (Some "4") (Some 42))
    (fun _ _ _ => Resolves (Some "4") (Some 42))
    (fun _ _ => Resolves (Some unknownProviderText) (Some 17))
    (fun text =>
       if String.eqb text unknownProviderText
       then Some (JsonValue (Some "FORWARD_SPECIFIC") (Some ["chatgpt"]) None)
       else None).

(** An outside world in which every provider answers 4 and the classifier
    cannot be reached. *)
Definition answeringOracle : Oracle :=
  Oracle.mk
    (fun _ _ _ => Resolves (Some "4") (Some 42))
    (fun _ _ _ _ => Resolves (Some "4") (Some 42))
    (fun _ _ _ _ _ => Resolves (Some "4") (Some 42))
    (fun _ _ _ => Resolves (Some "4") (Some 42))
    (fun _ _ => Rejects (Error "fetch failed"))
    (fun _ => None).

(** A forwarded first turn on a new router with the OpenAI key only. *)
Definition forwardedRun : Result MeanGPTRouter.Reply.t * MeanGPTRouter * list Event :=
  MeanGPTRouter.processMessage answeringOracle 5 "a1b2c3d4e" "conv-1" "What is 2+2?"
    (MeanGPTRouter.new openaiOnlyEnv FileStorageManager.empty).

(** * Properties *)

(** ** The monad *)

Lemma bind_threw {S A B} (m : ST S A) (k : A -> ST S B) s e s1 evs :
  m s = (Threw e, s1, evs) -> bind m k s = (Threw e, s1, evs).
Proof. intros Hm. unfold bind. rewrite Hm. reflexivity. Qed.

Lemma bind_run {S A B} (m : ST S A) (k : A -> ST S B) s a s1 evs :
  m s = (Returned a, s1, evs) -> bind m k s = prepend evs (k a s1).
Proof.
  intros Hm. unfold bind, prepend. rewrite Hm. reflexivity.
Qed.

Lemma prepend_nil {S A} (o : Result A * S * list Event) : prepend [] o = o.
Proof. destruct o as [[r s] evs]. reflexivity. Qed.

Lemma bind_inv_returned {S A B} (m : ST S A) (k : A -> ST S B) s b s' evs :
  bind m k s = (Returned b, s', evs) ->
  ∃ a s1 e1 e2,
    m s = (Returned a, s1, e1) ∧ k a s1 = (Returned b, s', e2) ∧ evs = e1 ++ e2.
Proof.
  unfold bind. destruct (m s) as [[[a | e] s1] e1]; [| discriminate].
  destruct (k a s1) as [[r s2] e2] eqn:Hk. intros H. injection H as -> -> <-.
  exists a, s1, e1, e2. auto.
Qed.

(** ** ContextManager: trimming *)

Section Trimming.

Lemma trimContextIfNeeded_short (l : list Message) :
  (length l ≤ 20)%nat -> ContextManager.trimContextIfNeeded l = l.
Proof.
  intros H. unfold ContextManager.trimContextIfNeeded, ContextManager.maxMessagesPerContext.
  destruct (Nat.ltb_spec 20 (length l)); [lia | reflexivity].
Qed.

Lemma trimContextIfNeeded_long (l : list Message) :
  (20 < length l)%nat ->
  ContextManager.trimContextIfNeeded l
  = summaryOf "Previous conversation summary: " (take (length l - 20) l)
      :: drop (length l - 20) l.
Proof.
  intros H. unfold ContextManager.trimContextIfNeeded, ContextManager.maxMessagesPerContext.
  destruct (Nat.ltb_spec 20 (length l)); [| lia].
  reflexivity.
Qed.

Lemma trimAIContextIfNeeded_short (l : list Message) :
  (length l ≤ 20)%nat -> ContextManager.trimAIContextIfNeeded l = l.
Proof.
  intros H. unfold ContextManager.trimAIContextIfNeeded, ContextManager.maxMessagesPerContext.
  destruct (Nat.ltb_spec 20 (length l)); [lia | reflexivity].
Qed.

Lemma trimAIContextIfNeeded_long (l : list Message) :
  (20 < length l)%nat ->
  ContextManager.trimAIContextIfNeeded l
  = summaryOf "Previous context summary: " (take (length l - 20) l)
      :: drop (length l - 20) l.
Proof.
  intros H. unfold ContextManager.trimAIContextIfNeeded, ContextManager.maxMessagesPerContext.
  destruct (Nat.ltb_spec 20 (length l)); [| lia].
  reflexivity.
Qed.

Lemma trimContextIfNeeded_length (l : list Message) :
  (length (ContextManager.trimContextIfNeeded l) ≤ 21)%nat.
Proof.
  destruct (le_lt_dec (length l) 20) as [H | H].
  - rewrite trimContextIfNeeded_short by exact H. lia.
  - rewrite trimContextIfNeeded_long by exact H. cbn [length].
    rewrite length_drop. lia.
Qed.

Lemma trimAIContextIfNeeded_length (l : list Message) :
  (length (ContextManager.trimAIContextIfNeeded l) ≤ 21)%nat.
Proof.
  destruct (le_lt_dec (length l) 20) as [H | H].
  - rewrite trimAIContextIfNeeded_short by exact H. lia.
  - rewrite trimAIContextIfNeeded_long by exact H. cbn [length].
    rewrite length_drop. lia.
Qed.

End Trimming.

(** ** ContextManager: appends and the size bound *)

Section Appends.

Lemma AIContexts_get_set (c : AIContexts) (p p' : string) (l ctx : list Message) :
  AIContexts.get (AIContexts.set c p l) p' = Some ctx ->
  ctx = l ∨ AIContexts.get c p' = Some ctx.
Proof.
  unfold AIContexts.get, AIContexts.set.
  destruct (String.eqb p "openai"), (String.eqb p "anthropic"),
    (String.eqb p "gemini"), (String.eqb p "grok"),
    (String.eqb p' "openai"), (String.eqb p' "anthropic"),
    (String.eqb p' "gemini"), (String.eqb p' "grok");
    cbn; intros H; first [ right; exact H | left; congruence ].
Qed.

Lemma addMessage_found now id m this c :
  ContextManager.conversations this !! id = Some c ->
  ContextManager.addMessage now id m this
  = (Returned tt,
     ContextManager.set_conversations
       (insert id
          (ConversationContext.mk (ConversationContext.id c)
             (ContextManager.trimContextIfNeeded (ConversationContext.messages c ++ [m]))
             (ConversationContext.aiContexts c) (ConversationContext.createdAt c) now))
       this,
     []).
Proof. intros H. unfold ContextManager.addMessage. rewrite H. reflexivity. Qed.

Lemma addMessage_missing now id m this :
  ContextManager.conversations this !! id = None ->
  ContextManager.addMessage now id m this
  = (Threw (Error ("Conversation " +:+ id +:+ " not found")), this, []).
Proof. intros H. unfold ContextManager.addMessage. rewrite H. reflexivity. Qed.

(** The conversations after [addAIMessage] on a known provider key. *)
Lemma addAIMessage_found now id p m this c ctx :
  ContextManager.conversations this !! id = Some c ->
  AIContexts.get (ConversationContext.aiContexts c) p = Some ctx ->
  result_of (ContextManager.addAIMessage now id p m this) = Returned tt
  ∧ ContextManager.conversations
      (state_of (ContextManager.addAIMessage now id p m this))
    = <[id := ConversationContext.mk (ConversationContext.id c)
                (ConversationContext.messages c)
                (AIContexts.set (ConversationContext.aiContexts c) p
                   (ContextManager.trimAIContextIfNeeded (ctx ++ [m])))
                (ConversationContext.createdAt c) now]>
        (ContextManager.conversations this).
Proof.
  intros H Hp. unfold ContextManager.addAIMessage. rewrite H, Hp.
  destruct (ContextManager.isServerless this); split; reflexivity.
Qed.

Lemma addAIMessage_unchanged now id p m this :
  ContextManager.conversations this !! id = None
  ∨ (∃ c, ContextManager.conversations this !! id = Some c
          ∧ AIContexts.get (ConversationContext.aiContexts c) p = None) ->
  state_of (ContextManager.addAIMessage now id p m this) = this.
Proof.
  unfold ContextManager.addAIMessage.
  intros [H | (c & H & Hp)]; rewrite H; [| rewrite Hp]; reflexivity.
Qed.

(** [createConversation] stores a fresh conversation under the identifier
    it resolves, which is the one passed when that is not empty. *)
Lemma createConversation_state now rnd oid this :
  ∃ k, (∀ id, oid = Some id -> id ≠ "" -> k = id)
       ∧ ContextManager.conversations
           (state_of (ContextManager.createConversation now rnd oid this))
         = <[k := freshConversation now k]> (ContextManager.conversations this).
Proof.
  unfold ContextManager.createConversation, state_of, freshConversation. cbn.
  eexists. split; [| reflexivity].
  intros id -> Hne. destruct id; [congruence | reflexivity].
Qed.

Lemma contextsBoundedBy_new fs serverless :
  contextsBoundedBy 21 (ContextManager.new fs serverless).
Proof. intros id c H. cbn in H. rewrite lookup_empty in H. discriminate. Qed.

Lemma runAppend_bounded a this :
  contextsBoundedBy 21 this -> contextsBoundedBy 21 (runAppend a this).
Proof.
  intros Hb. destruct a as [now id m | now id p m | now rnd oid]; cbn [runAppend].
  - destruct (ContextManager.conversations this !! id) as [c |] eqn:Hc.
    + rewrite (addMessage_found _ _ _ _ _ Hc). cbn.
      intros id' c' H'.
      unfold ContextManager.set_conversations in H'.
      cbn [ContextManager.conversations] in H'.
      destruct (decide (id = id')) as [<- | Hne].
      * rewrite lookup_insert_eq in H'. injection H' as <-. cbn. split.
        -- apply trimContextIfNeeded_length.
        -- apply (Hb _ _ Hc).
      * rewrite lookup_insert_ne in H' by exact Hne. exact (Hb _ _ H').
    + rewrite (addMessage_missing _ _ _ _ Hc). exact Hb.
  - destruct (ContextManager.conversations this !! id) as [c |] eqn:Hc.
    + destruct (AIContexts.get (ConversationContext.aiContexts c) p) as [ctx |] eqn:Hp.
      * destruct (addAIMessage_found now id p m this c ctx Hc Hp) as [_ Hs].
        intros id' c' H'. rewrite Hs in H'.
        destruct (decide (id = id')) as [<- | Hne].
        -- rewrite lookup_insert_eq in H'. injection H' as <-. cbn. split.
           ++ apply (Hb _ _ Hc).
           ++ intros p' ctx' Hget. apply AIContexts_get_set in Hget as [-> | Hget].
              ** apply trimAIContextIfNeeded_length.
              ** exact (proj2 (Hb _ _ Hc) _ _ Hget).
        -- rewrite lookup_insert_ne in H' by exact Hne. exact (Hb _ _ H').
      * rewrite addAIMessage_unchanged; [exact Hb |]. right. eauto.
    + rewrite addAIMessage_unchanged; [exact Hb |]. left. exact Hc.
  - destruct (createConversation_state now rnd oid this) as (k & _ & Hs).
    intros id' c' H'. rewrite Hs in H'.
    destruct (decide (k = id')) as [<- | Hne].
    + rewrite lookup_insert_eq in H'. injection H' as <-. cbn. split; [lia |].
      intros p' ctx' Hget. unfold AIContexts.get in Hget. cbn in Hget.
      repeat case_match; simplify_eq; cbn; lia.
    + rewrite lookup_insert_ne in H' by exact Hne. exact (Hb _ _ H').
Qed.

Lemma runAppends_bounded l this :
  contextsBoundedBy 21 this -> contextsBoundedBy 21 (runAppends l this).
Proof.
  revert this. induction l as [| a l IH]; intros this Hb; cbn.
  - exact Hb.
  - apply IH, runAppend_bounded, Hb.
Qed.

End Appends.

Lemma AIContexts_get_set_eq (c : AIContexts) (p : string) (l ctx : list Message) :
  AIContexts.get c p = Some ctx -> AIContexts.get (AIContexts.set c p l) p = Some l.
Proof.
  unfold AIContexts.get, AIContexts.set.
  destruct (String.eqb p "openai"); [reflexivity |].
  destruct (String.eqb p "anthropic"); [reflexivity |].
  destruct (String.eqb p "gemini"); [reflexivity |].
  destruct (String.eqb p "grok"); [reflexivity | discriminate].
Qed.

(** The list an append leaves behind: the pushed list while it holds at most
    20 messages; beyond that, one summary of the removed prefix followed by
    the last 20 messages, 21 entries in all. *)
Lemma trimmed_shape (trim : list Message -> list Message) (label : string)
    (pushed : list Message) :
  (∀ l, (length l ≤ 20)%nat -> trim l = l) ->
  (∀ l, (20 < length l)%nat ->
        trim l = summaryOf label (take (length l - 20) l) :: drop (length l - 20) l) ->
  ((length pushed ≤ 20)%nat -> trim pushed = pushed)
  ∧ ((20 < length pushed)%nat ->
     trim pushed
     = summaryOf label (take (length pushed - 20) pushed)
         :: drop (length pushed - 20) pushed
     ∧ length (trim pushed) = 21%nat
     ∧ pushed = take (length pushed - 20) pushed ++ drop (length pushed - 20) pushed).
Proof.
  intros Hshort Hlong. split; [apply Hshort |].
  intros H. rewrite (Hlong _ H). split; [reflexivity |]. split.
  - cbn [length]. rewrite length_drop. lia.
  - symmetry. apply take_drop.
Qed.

(** C6. After any sequence of appends to a new context manager, every master
    transcript and every provider context holds at most 21 messages.  An
    append that brings a list beyond 20 messages removes the oldest excess
    messages and puts one system message in front, whose topics are the first
    50 characters of each removed user message, joined by commas; 21 entries
    remain.  This holds of [addMessage] and, with its own label, of
    [addAIMessage]. *)
Theorem appends_keep_contexts_within_21 :
  (∀ fs serverless l,
     contextsBoundedBy 21 (runAppends l (ContextManager.new fs serverless)))
  ∧ (∀ now id m this c,
       ContextManager.conversations this !! id = Some c ->
       let pushed := ConversationContext.messages c ++ [m] in
       ∃ c',
         ContextManager.conversations
           (state_of (ContextManager.addMessage now id m this)) !! id = Some c'
         ∧ (length (ConversationContext.messages c') ≤ 21)%nat
         ∧ ((length pushed ≤ 20)%nat -> ConversationContext.messages c' = pushed)
         ∧ ((20 < length pushed)%nat ->
            ConversationContext.messages c'
            = summaryOf "Previous conversation summary: "
                (take (length pushed - 20) pushed)
                :: drop (length pushed - 20) pushed
            ∧ length (ConversationContext.messages c') = 21%nat
            ∧ pushed = take (length pushed - 20) pushed
                       ++ drop (length pushed - 20) pushed))
  ∧ (∀ now id p m this c ctx,
       ContextManager.conversations this !! id = Some c ->
       AIContexts.get (ConversationContext.aiContexts c) p = Some ctx ->
       let pushed := ctx ++ [m] in
       ∃ c' ctx',
         ContextManager.conversations
           (state_of (ContextManager.addAIMessage now id p m this)) !! id = Some c'
         ∧ AIContexts.get (ConversationContext.aiContexts c') p = Some ctx'
         ∧ (length ctx' ≤ 21)%nat
         ∧ ((length pushed ≤ 20)%nat -> ctx' = pushed)
         ∧ ((20 < length pushed)%nat ->
            ctx'
            = summaryOf "Previous context summary: "
                (take (length pushed - 20) pushed)
                :: drop (length pushed - 20) pushed
            ∧ length ctx' = 21%nat
            ∧ pushed = take (length pushed - 20) pushed
                       ++ drop (length pushed - 20) pushed)).
Proof.
  split; [| split].
  - intros fs serverless l. apply runAppends_bounded, contextsBoundedBy_new.
  - intros now id m this c Hc pushed.
    rewrite (addMessage_found _ _ _ _ _ Hc). unfold state_of. cbn.
    rewrite lookup_insert_eq. eexists. split; [reflexivity |]. cbn.
    split; [apply trimContextIfNeeded_length |].
    apply trimmed_shape;
      [apply trimContextIfNeeded_short | apply trimContextIfNeeded_long].
  - intros now id p m this c ctx Hc Hp pushed.
    destruct (addAIMessage_found now id p m this c ctx Hc Hp) as [_ Hs].
    rewrite Hs, lookup_insert_eq. eexists. eexists. split; [reflexivity |]. cbn.
    split; [exact (AIContexts_get_set_eq _ _ _ _ Hp) |].
    split; [apply trimAIContextIfNeeded_length |].
    apply trimmed_shape;
      [apply trimAIContextIfNeeded_short | apply trimAIContextIfNeeded_long].
Qed.

(** ** ContextManager: createConversation *)

(** C10, as amended. For every identifier that is not the empty string,
    [createConversation] does not throw and stores under that identifier a
    conversation with an empty master transcript and four empty provider
    contexts, whatever was stored under it before; every other conversation,
    the storage and the serverless flag are left as they were. *)
Theorem createConversation_stores_fresh now rnd id this :
  id ≠ "" ->
  let run := ContextManager.createConversation now rnd (Some id) this in
  ∃ c,
    result_of run = Returned c
    ∧ ContextManager.conversations (state_of run) !! id = Some c
    ∧ ConversationContext.id c = id
    ∧ ConversationContext.messages c = []
    ∧ ConversationContext.aiContexts c = AIContexts.mk [] [] [] []
    ∧ (∀ id', id' ≠ id ->
         ContextManager.conversations (state_of run) !! id'
         = ContextManager.conversations this !! id')
    ∧ ContextManager.fileStorage (state_of run) = ContextManager.fileStorage this
    ∧ ContextManager.isServerless (state_of run) = ContextManager.isServerless this.
Proof.
  intros Hne run. subst run.
  unfold ContextManager.createConversation, result_of, state_of. cbn.
  destruct id as [| a id]; [congruence |]. cbn.
  eexists. split; [reflexivity |].
  split; [apply lookup_insert_eq |].
  repeat (split; [reflexivity |]).
  split; [| split; reflexivity].
  intros id' Hid'. apply lookup_insert_ne. congruence.
Qed.

Lemma createConversation_stores_fresh_witness :
  ∃ c,
    ContextManager.conversations
      (state_of (ContextManager.createConversation 3 "a1b2c3d4e" (Some "conv-1")
                   managerWithHistory)) !! "conv-1" = Some c
    ∧ ConversationContext.messages c = [].
Proof.
  destruct (createConversation_stores_fresh 3 "a1b2c3d4e" "conv-1" managerWithHistory)
    as (c & _ & Hc & _ & Hm & _); [discriminate |].
  exists c. split; [exact Hc | exact Hm].
Defined.

(** C10, as stated, fails for the empty identifier: a generated identifier is
    used instead, and nothing is stored under the empty one. *)
Lemma createConversation_empty_id_not_stored :
  let run :=
    ContextManager.createConversation 3 "a1b2c3d4e" (Some "")
      (ContextManager.new FileStorageManager.empty true) in
  ContextManager.conversations (state_of run) !! "" = None
  ∧ ContextManager.conversations (state_of run) !! "conv_3_a1b2c3d4e"
    = Some (freshConversation 3 "conv_3_a1b2c3d4e").
Proof. vm_compute. split; reflexivity. Qed.

(** ** Providers: sendMessage never throws *)

Section SendMessageTotal.
Context {S : Type}.
Variable O : Oracle.
Variable now : Date.

Lemma or_else_nonempty (a : option string) (d : string) :
  d ≠ "" -> JS.or_else a d ≠ "".
Proof.
  intros Hd. destruct a as [[| c s] |]; cbn; [exact Hd | discriminate | exact Hd].
Qed.

Lemma handleError_shape (this : BaseAIProvider) (e : Thrown) :
  AIResponse.provider (BaseAIProvider.handleError now this e)
  = BaseAIProvider.provider this
  ∧ AIResponse.content (BaseAIProvider.handleError now this e) = ""
  ∧ populated (AIResponse.error (BaseAIProvider.handleError now this e)).
Proof.
  repeat split. eexists. split; [reflexivity |].
  apply or_else_nonempty. discriminate.
Qed.

(** Closes a branch in which the provider answered through [handleError]. *)
Ltac by_handleError Hh :=
  do 2 eexists; split; [reflexivity |]; split; [repeat constructor |];
  split; [apply Hh |]; left; apply Hh.

(** Closes a branch in which attempt [n] resolved, against [E : f n = Resolves _ _]. *)
Ltac by_reply n E :=
  do 2 eexists; split; [reflexivity |]; split; [repeat constructor |];
  split; [reflexivity |]; right; split; [reflexivity |];
  exists n; do 2 eexists; exact E.

Lemma sendMessage_returns (this : BaseAIProvider) (messages : list Message)
    (options : Options) (s : S) :
  ∃ r evs,
    BaseAIProvider.sendMessage O now this messages options s = (Returned r, s, evs)
    ∧ Forall isVendorCall evs
    ∧ settlesWith O this messages options r.
Proof.
  pose proof (handleError_shape this) as Hh.
  unfold settlesWith, BaseAIProvider.sendMessage.
  destruct (BaseAIProvider.kind this);
    unfold BaseAIProvider.sendMessageOpenAI, BaseAIProvider.sendMessageAnthropic,
      BaseAIProvider.sendMessageGrok, BaseAIProvider.sendMessageGemini,
      BaseAIProvider.maxRetries;
    cbn [seq BaseAIProvider.geminiLoop];
    unfold BaseAIProvider.call, BaseAIProvider.handleLastError,
      try_catch, bind, emit, ret, throw;
    destruct (BaseAIProvider.vendorCall O this messages options 1)
      as [e1 | st1 tx1 | text1 tokens1] eqn:E1;
    cbn -[BaseAIProvider.vendorCall BaseAIProvider.handleError BaseAIProvider.overloaded];
    try (by_handleError Hh); try (by_reply 1%nat E1).
  - destruct (Options.stream options); by_reply 1%nat E1.
  - destruct (BaseAIProvider.overloaded e1);
      cbn -[BaseAIProvider.vendorCall BaseAIProvider.handleError BaseAIProvider.overloaded];
      [| by_handleError Hh].
    destruct (BaseAIProvider.vendorCall O this messages options 2)
      as [e2 | st2 tx2 | text2 tokens2] eqn:E2;
      cbn -[BaseAIProvider.vendorCall BaseAIProvider.handleError BaseAIProvider.overloaded];
      rewrite ?andb_false_r;
      try (by_handleError Hh); by_reply 2%nat E2.
  - destruct (BaseAIProvider.overloaded (BaseAIProvider.sdkError st1 tx1));
      cbn -[BaseAIProvider.vendorCall BaseAIProvider.handleError BaseAIProvider.overloaded];
      [| by_handleError Hh].
    destruct (BaseAIProvider.vendorCall O this messages options 2)
      as [e2 | st2 tx2 | text2 tokens2] eqn:E2;
      cbn -[BaseAIProvider.vendorCall BaseAIProvider.handleError BaseAIProvider.overloaded];
      rewrite ?andb_false_r;
      try (by_handleError Hh); by_reply 2%nat E2.
Qed.

Lemma settlesWith_failure (this : BaseAIProvider) (messages : list Message)
    (options : Options) (r : AIResponse) :
  settlesWith O this messages options r ->
  (∀ attempt,
     callFails (BaseAIProvider.vendorCall O this messages options attempt) = true) ->
  AIResponse.content r = "" ∧ populated (AIResponse.error r).
Proof.
  intros [_ [Herr | (_ & attempt & text & tokens & Hres)]] Hfail; [exact Herr |].
  specialize (Hfail attempt). rewrite Hres in Hfail. discriminate.
Qed.

End SendMessageTotal.

(** C2. Whatever the provider (OpenAI, Anthropic, Gemini or Grok), the
    messages and the options, [sendMessage] returns a response and does not
    throw, and leaves the state as it was.  The response carries the descriptor
    of the provider.  Unless it was built from an attempt at the vendor that
    resolved, its content is the empty string and its error field is
    populated; this is so, in particular, when the call to the vendor fails
    at every attempt. *)
Theorem sendMessage_never_throws {S : Type} (O : Oracle) (now : Date)
    (this : BaseAIProvider) (messages : list Message) (options : Options) (s : S) :
  ∃ r evs,
    BaseAIProvider.sendMessage O now this messages options s = (Returned r, s, evs)
    ∧ AIResponse.provider r = BaseAIProvider.provider this
    ∧ ((AIResponse.content r = "" ∧ populated (AIResponse.error r))
       ∨ (AIResponse.error r = None
          ∧ ∃ attempt text tokens,
              BaseAIProvider.vendorCall O this messages options attempt
              = Resolves text tokens))
    ∧ ((∀ attempt,
          callFails (BaseAIProvider.vendorCall O this messages options attempt) = true) ->
       AIResponse.content r = "" ∧ populated (AIResponse.error r)).
Proof.
  destruct (sendMessage_returns O now this messages options s)
    as (r & evs & Hrun & _ & Hs).
  exists r, evs. split; [exact Hrun |].
  split; [apply Hs |]. split; [apply Hs |].
  apply (settlesWith_failure O _ _ _ _ Hs).
Qed.

Lemma sendMessage_never_throws_witness :
  ∃ r,
    result_of
      (BaseAIProvider.sendMessage offlineOracle 0
         (BaseAIProvider.newGemini "sk-gemini" "gemini-2.5-flash")
         [Message.mk user "What is the capital of France?" None] Options.default tt)
    = Returned r
    ∧ AIResponse.content r = "" ∧ populated (AIResponse.error r).
Proof.
  destruct (sendMessage_never_throws offlineOracle 0
              (BaseAIProvider.newGemini "sk-gemini" "gemini-2.5-flash")
              [Message.mk user "What is the capital of France?" None] Options.default tt)
    as (r & evs & Hrun & _ & _ & Hfail).
  exists r. split; [rewrite Hrun; reflexivity |].
  apply Hfail. intros attempt. reflexivity.
Defined.

(** ** AIOrchestrator: the fan-out *)

Section FanOut.
Context {S : Type}.
Variable O : Oracle.
Variable now : Date.

Lemma allSettled_sendMessage (messages : list Message) (options : Options)
    (active : list (string * BaseAIProvider)) (s : S) :
  ∃ rs evs,
    AIOrchestrator.allSettled
      (map (fun e => BaseAIProvider.sendMessage O now (snd e) messages options) active) s
    = (Returned (map Fulfilled rs), s, evs)
    ∧ Forall2 (fun e r => settlesWith O (snd e) messages options r) active rs.
Proof.
  induction active as [| e active IH]; cbn [map AIOrchestrator.allSettled].
  - exists [], []. split; [reflexivity | constructor].
  - destruct IH as (rs & evs & Hrun & Hall).
    destruct (sendMessage_returns O now (snd e) messages options s)
      as (r & evs1 & Hr & _ & Hs).
    exists (r :: rs). eexists. split; [| constructor; assumption].
    unfold AIOrchestrator.settle, try_catch, bind, ret. rewrite Hr. cbn.
    rewrite Hrun. reflexivity.
Qed.

Lemma partitionSettled_fulfilled (rs : list AIResponse)
    (active : list (string * BaseAIProvider)) :
  length rs = length active ->
  AIOrchestrator.partitionSettled now (map Fulfilled rs) active = (rs, []).
Proof.
  revert active. induction rs as [| r rs IH]; intros [| [name p] active] Hlen;
    cbn in *; try discriminate; try reflexivity.
  rewrite IH by lia. reflexivity.
Qed.

(** The responses of a fan-out are those of the active providers, one
    each, in the order of the provider table. *)
Lemma queryAllProviders_responses (this : AIOrchestrator) (messages : list Message)
    (options : option AIOrchestrator.QueryOptions.t) (s : S) :
  ∃ agg evs,
    AIOrchestrator.queryAllProviders O now this messages options s
    = (Returned agg, s, evs)
    ∧ map AIResponse.provider (AggregatedResponse.responses agg)
      = map (fun e => BaseAIProvider.provider (snd e))
            (AIOrchestrator.activeProvidersOf this options).
Proof.
  unfold AIOrchestrator.queryAllProviders.
  set (active := AIOrchestrator.activeProvidersOf this options).
  match goal with
  | |- context [BaseAIProvider.sendMessage O now _ messages ?o] => set (opts := o)
  end.
  destruct (allSettled_sendMessage messages opts active s) as (rs & evs & Hrun & Hall).
  unfold bind. rewrite Hrun.
  rewrite partitionSettled_fulfilled by (symmetry; exact (Forall2_length _ _ _ Hall)).
  cbn. rewrite app_nil_r. do 2 eexists. split; [reflexivity |]. cbn.
  clear Hrun. induction Hall as [| e r active' rs' [Hp _] _ IH]; cbn.
  - reflexivity.
  - rewrite Hp, IH. reflexivity.
Qed.

End FanOut.

Lemma initializeProviders_keyed (env : Env) :
  Forall (fun e => AIProvider.name (BaseAIProvider.provider (snd e)) = fst e)
         (AIOrchestrator.initializeProviders env).
Proof.
  unfold AIOrchestrator.initializeProviders.
  repeat apply Forall_app_2;
    repeat case_match; repeat constructor.
Qed.

Lemma getAvailableProviders_NoDup (env : Env) :
  NoDup (AIOrchestrator.getAvailableProviders (AIOrchestrator.new env)).
Proof.
  unfold AIOrchestrator.getAvailableProviders, AIOrchestrator.new,
    AIOrchestrator.initializeProviders. cbn [AIOrchestrator.providers].
  rewrite !map_app.
  repeat case_match; cbn; compute_done.
Qed.

Lemma map_fst_filter_elem (requested : list string) (l : list (string * BaseAIProvider)) :
  map fst (filter (fun e => fst e ∈ requested) l)
  = filter (fun n => n ∈ requested) (map fst l).
Proof.
  induction l as [| e l IH]; [reflexivity |].
  rewrite filter_cons. cbn [map]. rewrite filter_cons.
  destruct (decide (e.1 ∈ requested)); cbn [map]; rewrite IH; reflexivity.
Qed.

(** C1, as amended. For every message list and every requested list P of
    provider names, [queryAllProviders] on a new orchestrator returns, without
    throwing, one response for each configured provider whose name occurs in
    P, in the order in which the providers were registered (openai,
    anthropic, gemini, grok), and none for a requested provider that is not
    configured.  So there are at most as many responses as configured
    providers; and when P has no repetition and names configured providers
    only, the responses are exactly those of P, one each, up to order. *)
Theorem queryAllProviders_answers_configured {S : Type} (env : Env) (O : Oracle)
    (now : Date) (messages : list Message) (temperature : option Q)
    (maxTokens : option Z) (P : list string) (s : S) :
  let this := AIOrchestrator.new env in
  ∃ agg evs,
    AIOrchestrator.queryAllProviders O now this messages
      (Some (AIOrchestrator.QueryOptions.mk temperature maxTokens (Some P))) s
    = (Returned agg, s, evs)
    ∧ respondents agg
      = filter (fun n => n ∈ P) (AIOrchestrator.getAvailableProviders this)
    ∧ (length (AggregatedResponse.responses agg)
       ≤ length (AIOrchestrator.getAvailableProviders this))%nat
    ∧ (NoDup P ->
       (∀ n, n ∈ P -> n ∈ AIOrchestrator.getAvailableProviders this) ->
       respondents agg ≡ₚ P
       ∧ length (AggregatedResponse.responses agg) = length P).
Proof.
  intros this.
  destruct (queryAllProviders_responses O now this messages
              (Some (AIOrchestrator.QueryOptions.mk temperature maxTokens (Some P))) s)
    as (agg & evs & Hrun & Hprov).
  exists agg, evs. split; [exact Hrun |].
  assert (Hnames : respondents agg
                   = filter (fun n => n ∈ P) (AIOrchestrator.getAvailableProviders this)).
  { unfold respondents, AIOrchestrator.getAvailableProviders.
    rewrite <- map_fst_filter_elem.
    rewrite <- (map_map AIResponse.provider AIProvider.name), Hprov, map_map.
    cbn [AIOrchestrator.activeProvidersOf mbind option_bind
         AIOrchestrator.QueryOptions.providers].
    apply map_ext_in. intros e He.
    apply list_elem_of_In, list_elem_of_filter in He as [_ He].
    pose proof (initializeProviders_keyed env) as Hk.
    rewrite Forall_forall in Hk. exact (Hk e He). }
  split; [exact Hnames |].
  assert (Hlen : length (AggregatedResponse.responses agg) = length (respondents agg)).
  { unfold respondents. rewrite length_map. reflexivity. }
  split.
  - rewrite Hlen, Hnames. apply length_filter.
  - intros HP Hsub. assert (Hperm : respondents agg ≡ₚ P).
    { rewrite Hnames. apply NoDup_Permutation.
      - apply NoDup_filter, getAvailableProviders_NoDup.
      - exact HP.
      - intros n. rewrite list_elem_of_filter. split; [tauto | auto]. }
    split; [exact Hperm |]. rewrite Hlen. apply Permutation_length, Hperm.
Qed.

(** C1, as stated, fails twice over.  With all four providers configured and
    P = grok, openai the responses come in the order openai, grok; with only
    OpenAI configured and P = openai, anthropic there is one response, not
    two. *)
Lemma queryAllProviders_not_in_requested_order :
  respondentsOf fullEnv offlineOracle ["grok"; "openai"] = Some ["openai"; "grok"]
  ∧ respondentsOf openaiOnlyEnv offlineOracle ["openai"; "anthropic"] = Some ["openai"].
Proof. split; vm_compute; reflexivity. Qed.

(** ** ResponseAggregator: the numeric fallback *)

Section NumericFallback.






End NumericFallback.

(** ** ResponseAggregator: synthesis and its fallback *)

Section SynthesisFallback.
Context {S : Type}.
Variable O : Oracle.
Variable now : Date.
Variable this : ResponseAggregator.


Lemma calculateMeanAnswer_fallback (responses : list AIResponse) (question : string)
    (allResponses : list AIResponse) (s : S) :
  synthesisUnavailable O this ->
  result_of
    (ResponseAggregator.calculateMeanAnswer O now this responses question allResponses s)
  = Returned (ResponseAggregator.simpleAverage responses).
Proof.
  unfold ResponseAggregator.calculateMeanAnswer.
  intros [Hnone | (p & Hp & Hfail)].
  - rewrite Hnone. reflexivity.
  - rewrite Hp.
    match goal with
    | |- context [BaseAIProvider.sendMessage O now p ?m ?o] =>
        destruct (sendMessage_returns O now p m o s) as (r & evs & Hr & _ & Hs);
        pose proof (settlesWith_failure O _ _ _ _ Hs (Hfail m)) as Hempty
    end.
    unfold try_catch, bind, ret, result_of. rewrite Hr. cbn.
    destruct Hempty as [-> _]. reflexivity.
Qed.

End SynthesisFallback.




(** ** ResponseAggregator: analyzeResponses *)

Lemma failed_not_valid (r : AIResponse) : failed r -> ResponseAggregator.isValid r = false.
Proof.
  unfold ResponseAggregator.isValid.
  intros [Hc | (msg & He & Hmsg)].
  - rewrite Hc. reflexivity.
  - rewrite He. destruct msg; [congruence |]. cbn. apply andb_false_r.
Qed.

Lemma filter_isValid_failed (l : list AIResponse) :
  Forall failed l -> List.filter ResponseAggregator.isValid l = [].
Proof.
  induction 1 as [| r l Hr _ IH]; [reflexivity |].
  cbn. rewrite (failed_not_valid _ Hr). exact IH.
Qed.

(** C4. When no response of the aggregated result is valid, every one having
    an empty content or a populated error, [analyzeResponses] returns the
    result with meanAnswer All AI providers failed to respond. and bestAnswer
    No responses available., its responses, summary and timestamp being those
    of the input; no synthesis call is made. *)
Theorem analyzeResponses_all_failed {S : Type} (O : Oracle) (now : Date)
    (this : ResponseAggregator) (aggregatedResponse : AggregatedResponse)
    (originalQuestion : string) (s : S) :
  Forall failed (AggregatedResponse.responses aggregatedResponse) ->
  ∃ out,
    ResponseAggregator.analyzeResponses O now this aggregatedResponse originalQuestion s
    = (Returned out, s, [EvAggregator])
    ∧ AggregatedResponse.meanAnswer out = Some "All AI providers failed to respond."
    ∧ AggregatedResponse.bestAnswer out = Some "No responses available."
    ∧ AggregatedResponse.responses out = AggregatedResponse.responses aggregatedResponse
    ∧ AggregatedResponse.summary out = AggregatedResponse.summary aggregatedResponse
    ∧ AggregatedResponse.timestamp out = AggregatedResponse.timestamp aggregatedResponse.
Proof.
  intros Hall. unfold ResponseAggregator.analyzeResponses.
  rewrite (filter_isValid_failed _ Hall).
  eexists. split; [reflexivity |]. repeat split.
Qed.

Lemma analyzeResponses_all_failed_witness :
  ∃ out,
    result_of
      (ResponseAggregator.analyzeResponses offlineOracle 0
         (ResponseAggregator.new fullEnv) allFailed "What is the capital of France?" tt)
    = Returned out
    ∧ AggregatedResponse.meanAnswer out = Some "All AI providers failed to respond."
    ∧ AggregatedResponse.bestAnswer out = Some "No responses available.".
Proof.
  destruct (analyzeResponses_all_failed offlineOracle 0 (ResponseAggregator.new fullEnv)
              allFailed "What is the capital of France?" tt)
    as (out & Hrun & Hmean & Hbest & _).
  - constructor; [left; reflexivity |].
    constructor; [| constructor].
    right. eexists. split; [reflexivity | discriminate].
  - exists out. rewrite Hrun. repeat split; assumption.
Defined.



(** ** ContextManager: the routing decision *)

Section RoutingDecision.
Variable O : Oracle.

(** With a message in the transcript the decision is obtained by exactly
    one classification request, and is returned, not thrown. *)
Lemma shouldForwardToAIs_classifies (id userMessage : string)
    (this : ContextManager.t) (c : ConversationContext) :
  ContextManager.conversations this !! id = Some c ->
  ConversationContext.messages c ≠ [] ->
  ∃ routing,
    ContextManager.shouldForwardToAIs O id userMessage this
    = (Returned routing, this,
       [EvRoutingFetch (ContextManager.contextSummary (ConversationContext.messages c))
          userMessage])
    ∧ (classificationFails O
         (ContextManager.contextSummary (ConversationContext.messages c)) userMessage ->
       routing = ContextManager.fallbackRouting userMessage).
Proof.
  intros Hc Hne.
  unfold ContextManager.shouldForwardToAIs, bind, get. rewrite Hc.
  destruct (ConversationContext.messages c) as [| m0 ms] eqn:Hm; [congruence |].
  rewrite <- Hm. clear Hm Hne.
  unfold classificationFails, try_catch, ContextManager.classify, bind, emit, ret, throw.
  destruct (Oracle.routing O _ userMessage) as [e | st tx | [text |] tokens];
    cbn -[JS.trim]; try (eexists; split; [reflexivity | intros _; reflexivity]).
  destruct text as [| a text]; cbn -[JS.trim];
    [eexists; split; [reflexivity | intros _; reflexivity] |].
  destruct (Oracle.JSON_parse O (JS.trim (String a text))) as [[| d p r] |];
    cbn -[JS.trim];
    eexists; (split; [reflexivity |]); intros [H | [H | H]]; congruence.
Qed.

Lemma fallbackRouting_shouldForward (userMessage : string) :
  ContextManager.Routing.shouldForward (ContextManager.fallbackRouting userMessage)
  = negb (mentionsSelf userMessage).
Proof.
  unfold ContextManager.fallbackRouting, mentionsSelf, selfReferenceKeywords.
  cbn [existsb]. rewrite orb_false_r, <- !orb_assoc.
  destruct (JS.includes (JS.toLowerCase userMessage) "meangpt"
            || (JS.includes (JS.toLowerCase userMessage) "mean gpt"
                || (JS.includes (JS.toLowerCase userMessage) "what is your name"
                    || JS.includes (JS.toLowerCase userMessage) "who are you")));
    reflexivity.
Qed.

End RoutingDecision.

(** C7. For a conversation that holds at least one message, when the
    classification request fails or its reply cannot be decoded,
    [shouldForwardToAIs] does not throw: it returns the decision of the static
    rule, which does not forward when the lowercased message contains one of
    the self-reference keywords and forwards otherwise; the manager is left
    as it was, and the one classification request is the only call made. *)
Theorem shouldForwardToAIs_falls_back (O : Oracle) (id userMessage : string)
    (this : ContextManager.t) (c : ConversationContext) :
  ContextManager.conversations this !! id = Some c ->
  ConversationContext.messages c ≠ [] ->
  classificationFails O
    (ContextManager.contextSummary (ConversationContext.messages c)) userMessage ->
  ∃ routing,
    ContextManager.shouldForwardToAIs O id userMessage this
    = (Returned routing, this,
       [EvRoutingFetch (ContextManager.contextSummary (ConversationContext.messages c))
          userMessage])
    ∧ ContextManager.Routing.shouldForward routing = negb (mentionsSelf userMessage)
    ∧ ContextManager.Routing.providers routing = None.
Proof.
  intros Hc Hne Hfail.
  destruct (shouldForwardToAIs_classifies O id userMessage this c Hc Hne)
    as (routing & Hrun & Hfb).
  exists routing. split; [exact Hrun |].
  rewrite (Hfb Hfail). split; [apply fallbackRouting_shouldForward |].
  unfold ContextManager.fallbackRouting. case_match; reflexivity.
Qed.

Lemma shouldForwardToAIs_falls_back_witness :
  ∃ routing,
    result_of
      (ContextManager.shouldForwardToAIs offlineOracle "conv-1"
         "Hey MeanGPT, who are you?" managerWithHistory)
    = Returned routing
    ∧ ContextManager.Routing.shouldForward routing = false.
Proof.
  destruct (shouldForwardToAIs_falls_back offlineOracle "conv-1"
              "Hey MeanGPT, who are you?" managerWithHistory
              (ConversationContext.mk "conv-1"
                 [Message.mk user "What is 2+2?" (Some 2)] AIContexts.empty 1 2))
    as (routing & Hrun & Hfwd & _).
  - vm_compute. reflexivity.
  - discriminate.
  - exact I.
  - exists routing. rewrite Hrun. split; [reflexivity |].
    rewrite Hfwd. vm_compute. reflexivity.
Defined.

(** ** MeanGPTRouter: processMessage *)

Lemma trimContextIfNeeded_push_nonempty (l : list Message) (m : Message) :
  ContextManager.trimContextIfNeeded (l ++ [m]) ≠ [].
Proof.
  unfold ContextManager.trimContextIfNeeded. case_match; [discriminate |].
  destruct l; discriminate.
Qed.

Lemma onContextManager_run {A} (m : ST ContextManager.t A) (this : MeanGPTRouter)
    (r : Result A) (cm' : ContextManager.t) (evs : list Event) :
  m (MeanGPTRouter.contextManager this) = (r, cm', evs) ->
  MeanGPTRouter.onContextManager m this
  = (r, MeanGPTRouter.mk cm' (MeanGPTRouter.orchestrator this)
          (MeanGPTRouter.aggregator this), evs).
Proof.
  intros H. unfold MeanGPTRouter.onContextManager, zoom. rewrite H. reflexivity.
Qed.

Section ProcessMessage.
Variable O : Oracle.
Variable now : Date.
Variable rnd : string.

(** The first step: the conversation is looked up, and created when it is
    not in memory. *)
Lemma processMessage_ensure (id : string) (this : MeanGPTRouter) :
  let cm := MeanGPTRouter.contextManager this in
  ContextManager.conversations cm !! id ≠ None ∨ id ≠ "" ->
  ∃ c1 cm1,
    ContextManager.conversations cm1 !! id = Some c1
    ∧ ConversationContext.messages c1 = transcriptOf cm id
    ∧ ConversationContext.aiContexts c1 = providerContextsOf cm id
    ∧ (∀ c, ContextManager.set_conversations (insert id c) cm1
            = ContextManager.set_conversations (insert id c) cm)
    ∧ match ContextManager.getConversation id cm with
      | Some _ => ret tt
      | None =>
          bind (MeanGPTRouter.onContextManager
                  (ContextManager.createConversation now rnd (Some id)))
               (fun _ => ret tt)
      end this
      = (Returned tt,
         MeanGPTRouter.mk cm1 (MeanGPTRouter.orchestrator this)
           (MeanGPTRouter.aggregator this), []).
Proof.
  intros cm Hid.
  unfold transcriptOf, providerContextsOf, ContextManager.getConversation.
  destruct (ContextManager.conversations cm !! id) as [c0 |] eqn:Hc0.
  - exists c0, cm. split; [exact Hc0 |]. repeat (split; [reflexivity |]).
    subst cm. destruct this; reflexivity.
  - destruct Hid as [Hid | Hid]; [congruence |].
    destruct id as [| a id']; [congruence |].
    exists (freshConversation now (String a id')),
      (ContextManager.set_conversations
         (insert (String a id') (freshConversation now (String a id'))) cm).
    split; [apply lookup_insert_eq |]. split; [reflexivity |]. split; [reflexivity |].
    split; [| reflexivity].
    intros c. unfold ContextManager.set_conversations. cbn.
    rewrite insert_insert_eq. reflexivity.
Qed.

(** The run of [processMessage] up to the routing decision: the user
    message is appended, with the trimming of [addMessage], and then one
    classification request is made. *)
Lemma processMessage_preamble (id userMessage : string) (this : MeanGPTRouter) :
  let cm := MeanGPTRouter.contextManager this in
  ContextManager.conversations cm !! id ≠ None ∨ id ≠ "" ->
  ∃ c2 routing,
    let cm2 := ContextManager.set_conversations (insert id c2) cm in
    let this2 := MeanGPTRouter.mk cm2 (MeanGPTRouter.orchestrator this)
                   (MeanGPTRouter.aggregator this) in
    let fetch := EvRoutingFetch
                   (ContextManager.contextSummary (ConversationContext.messages c2))
                   userMessage in
    ConversationContext.messages c2
    = ContextManager.trimContextIfNeeded
        (transcriptOf cm id ++ [Message.mk user userMessage (Some now)])
    ∧ ConversationContext.aiContexts c2 = providerContextsOf cm id
    ∧ MeanGPTRouter.processMessage O now rnd id userMessage this
      = prepend [fetch] (afterRouting O now id userMessage routing this2).
Proof.
  intros cm Hid.
  set (userMsg := Message.mk user userMessage (Some now)).
  destruct (processMessage_ensure id this Hid)
    as (c1 & cm1 & Hc1 & Hm1 & Ha1 & Hset & Hrun1).
  set (c2 := ConversationContext.mk (ConversationContext.id c1)
               (ContextManager.trimContextIfNeeded
                  (ConversationContext.messages c1 ++ [userMsg]))
               (ConversationContext.aiContexts c1)
               (ConversationContext.createdAt c1) now).
  assert (Hc2 : ContextManager.conversations
                  (ContextManager.set_conversations (insert id c2) cm) !! id = Some c2)
    by apply lookup_insert_eq.
  destruct (shouldForwardToAIs_classifies O id userMessage _ c2 Hc2
              ltac:(apply trimContextIfNeeded_push_nonempty))
    as (routing & Hroute & _).
  exists c2, routing. cbn zeta.
  split; [cbn; rewrite Hm1; reflexivity |].
  split; [exact Ha1 |].
  unfold MeanGPTRouter.processMessage.
  rewrite (bind_run get _ this this this []) by reflexivity. rewrite prepend_nil.
  fold cm. rewrite (bind_run _ _ _ _ _ _ Hrun1), prepend_nil.
  erewrite bind_run, prepend_nil;
    [| apply onContextManager_run; cbn [MeanGPTRouter.contextManager];
       apply (addMessage_found _ _ _ _ _ Hc1)].
  cbn [MeanGPTRouter.contextManager MeanGPTRouter.orchestrator MeanGPTRouter.aggregator].
  rewrite Hset. fold userMsg. fold c2.
  erewrite bind_run;
    [| apply onContextManager_run; cbn [MeanGPTRouter.contextManager];
       exact Hroute].
  reflexivity.
Qed.

End ProcessMessage.

Section DirectBranch.
Variable O : Oracle.
Variable now : Date.

Lemma querySingleProvider_returns {S : Type} (this : AIOrchestrator)
    (providerName : string) (messages : list Message) (options : option Options)
    (s : S) :
  ∃ r evs,
    AIOrchestrator.querySingleProvider O now this providerName messages options s
    = (Returned r, s, evs)
    ∧ Forall isVendorCall evs.
Proof.
  unfold AIOrchestrator.querySingleProvider.
  destruct (AIOrchestrator.lookup this providerName) as [p |].
  - destruct (sendMessage_returns O now p messages (default Options.default options) s)
      as (r & evs & Hr & Hev & _).
    exists r, evs. split; assumption.
  - do 2 eexists. split; [reflexivity | constructor].
Qed.

(** The direct branch: one call of the provider openai on the master
    context followed by the user message; the router is left as it was. *)
Lemma handleDirectResponse_run (id userMessage : string) (this : MeanGPTRouter)
    (c : ConversationContext) :
  ContextManager.conversations (MeanGPTRouter.contextManager this) !! id = Some c ->
  ∃ directResponse evs,
    AIOrchestrator.querySingleProvider O now (MeanGPTRouter.orchestrator this) "openai"
      (Message.mk system ContextManager.masterPromptPresent None
         :: (ConversationContext.messages c ++ [Message.mk user userMessage None]))
      None this
    = (Returned directResponse, this, evs)
    ∧ Forall isVendorCall evs
    ∧ MeanGPTRouter.handleDirectResponse O now id userMessage this
      = (Returned
           (if JS.truthy_opt (AIResponse.error directResponse)
            then "MeanGPT: I encountered an error processing your request: "
                 +:+ default "" (AIResponse.error directResponse)
            else AIResponse.content directResponse),
         this, evs).
Proof.
  intros Hc.
  destruct (querySingleProvider_returns (MeanGPTRouter.orchestrator this) "openai"
              (Message.mk system ContextManager.masterPromptPresent None
                 :: (ConversationContext.messages c ++ [Message.mk user userMessage None]))
              None this)
    as (dr & evs & Hq & Hev).
  exists dr, evs. split; [exact Hq |]. split; [exact Hev |].
  unfold MeanGPTRouter.handleDirectResponse.
  erewrite bind_run, prepend_nil;
    [| apply onContextManager_run;
       unfold ContextManager.getMasterContext, ContextManager.lookupOrLoad;
       erewrite bind_run, prepend_nil;
         [| erewrite bind_run, prepend_nil; [| reflexivity]; rewrite Hc; reflexivity];
       reflexivity].
  replace (MeanGPTRouter.mk (MeanGPTRouter.contextManager this)
             (MeanGPTRouter.orchestrator this) (MeanGPTRouter.aggregator this))
    with this by (destruct this; reflexivity).
  rewrite (bind_run get _ this this this []) by reflexivity. rewrite prepend_nil.
  cbn [app]. erewrite bind_run; [| exact Hq].
  destruct (JS.truthy_opt (AIResponse.error dr)); unfold ret, prepend;
    rewrite app_nil_r; reflexivity.
Qed.

(** A reply of the forward branch carries the routing decision it was
    given. *)
Lemma afterRouting_forward (id userMessage : string)
    (routing : ContextManager.Routing.t) (this final : MeanGPTRouter)
    (reply : MeanGPTRouter.Reply.t) (evs : list Event) :
  ContextManager.Routing.shouldForward routing = true ->
  afterRouting O now id userMessage routing this = (Returned reply, final, evs) ->
  MeanGPTRouter.Reply.routing reply = routing.
Proof.
  intros Hfwd H. unfold afterRouting in H. rewrite Hfwd in H. cbn [negb] in H.
  apply bind_inv_returned in H as (agg & s1 & e1 & e2 & _ & H & _).
  apply bind_inv_returned in H as (this' & s2 & e3 & e4 & _ & H & _).
  apply bind_inv_returned in H as (analyzed & s3 & e5 & e6 & _ & H & _).
  apply bind_inv_returned in H as (u & s4 & e7 & e8 & _ & H & _).
  unfold ret in H. injection H as <- _ _. reflexivity.
Qed.

(** With the empty identifier and no conversation stored under it, the
    append of the user message throws. *)
Lemma processMessage_empty_id (rnd userMessage : string) (this : MeanGPTRouter) :
  ContextManager.conversations (MeanGPTRouter.contextManager this) !! "" = None ->
  ∃ e, result_of (MeanGPTRouter.processMessage O now rnd "" userMessage this) = Threw e.
Proof.
  intros Hnone. unfold MeanGPTRouter.processMessage.
  rewrite (bind_run get _ this this this []) by reflexivity. rewrite prepend_nil.
  unfold ContextManager.getConversation. rewrite Hnone.
  erewrite bind_run, prepend_nil;
    [| erewrite bind_run, prepend_nil;
         [| apply onContextManager_run; reflexivity]; reflexivity].
  erewrite bind_threw; [eexists; reflexivity |].
  apply onContextManager_run. cbn [MeanGPTRouter.contextManager].
  apply addMessage_missing.
  unfold ContextManager.set_conversations. cbn [ContextManager.conversations].
  rewrite lookup_insert_ne; [exact Hnone | discriminate].
Qed.

End DirectBranch.

(** C9, as amended. When [processMessage] returns a reply whose routing
    decision is not to forward: the provider contexts of every conversation
    and the storage are as before; the aggregator was not entered and the
    reply carries no aggregated data; the master transcript of the
    conversation is the one [addMessage] leaves after appending the user
    message, that is the old transcript followed by the user message while
    the old one holds fewer than 20 messages, and its trimmed form beyond; the
    other conversations are as before; and the response is the answer of the
    single call of the provider openai, or, if that answer carries an error, a
    notice that starts with MeanGPT: . *)
Theorem processMessage_direct_reply (O : Oracle) (now : Date) (rnd id userMessage : string)
    (this final : MeanGPTRouter) (reply : MeanGPTRouter.Reply.t) (evs : list Event) :
  MeanGPTRouter.processMessage O now rnd id userMessage this = (Returned reply, final, evs) ->
  ContextManager.Routing.shouldForward (MeanGPTRouter.Reply.routing reply) = false ->
  let cm := MeanGPTRouter.contextManager this in
  let cm' := MeanGPTRouter.contextManager final in
  let userMsg := Message.mk user userMessage (Some now) in
  (∀ id', providerContextsOf cm' id' = providerContextsOf cm id')
  ∧ ContextManager.fileStorage cm' = ContextManager.fileStorage cm
  ∧ MeanGPTRouter.Reply.aggregatedData reply = None
  ∧ (EvAggregator ∉ evs)
  ∧ transcriptOf cm' id
    = ContextManager.trimContextIfNeeded (transcriptOf cm id ++ [userMsg])
  ∧ ((length (transcriptOf cm id) < 20)%nat ->
     transcriptOf cm' id = transcriptOf cm id ++ [userMsg])
  ∧ (∀ id', id' ≠ id ->
       ContextManager.conversations cm' !! id' = ContextManager.conversations cm !! id')
  ∧ ∃ directResponse evs',
      AIOrchestrator.querySingleProvider O now (MeanGPTRouter.orchestrator this) "openai"
        (Message.mk system ContextManager.masterPromptPresent None
           :: (transcriptOf cm' id ++ [Message.mk user userMessage None]))
        None final
      = (Returned directResponse, final, evs')
      ∧ (JS.truthy_opt (AIResponse.error directResponse) = true ->
         hasIdentityPrefix (MeanGPTRouter.Reply.response reply) = true)
      ∧ (JS.truthy_opt (AIResponse.error directResponse) = false ->
         MeanGPTRouter.Reply.response reply = AIResponse.content directResponse).
Proof.
  intros Hrun Hdirect cm cm' userMsg.
  assert (Hid : ContextManager.conversations cm !! id ≠ None ∨ id ≠ "").
  { destruct (ContextManager.conversations cm !! id) eqn:Hc; [left; discriminate |].
    right. intros ->.
    destruct (processMessage_empty_id O now rnd userMessage this Hc) as (e & He).
    rewrite Hrun in He. discriminate. }
  destruct (processMessage_preamble O now rnd id userMessage this Hid)
    as (c2 & routing & Hm2 & Ha2 & Heq).
  cbn zeta in Heq. rewrite Hrun in Heq.
  destruct (ContextManager.Routing.shouldForward routing) eqn:Hfwd.
  { exfalso.
    destruct (afterRouting O now id userMessage routing _) as [[r f] e] eqn:Hafter.
    unfold prepend in Heq. injection Heq as <- _ _.
    rewrite (afterRouting_forward O now _ _ _ _ _ _ _ Hfwd Hafter) in Hdirect.
    congruence. }
  set (this2 := MeanGPTRouter.mk (ContextManager.set_conversations (insert id c2) cm)
                  (MeanGPTRouter.orchestrator this) (MeanGPTRouter.aggregator this)) in *.
  assert (Hc2 : ContextManager.conversations (MeanGPTRouter.contextManager this2) !! id
                = Some c2) by apply lookup_insert_eq.
  destruct (handleDirectResponse_run O now id userMessage this2 c2 Hc2)
    as (dr & evs' & Hq & Hev & Hdr).
  unfold afterRouting in Heq. rewrite Hfwd in Heq. cbn [negb] in Heq.
  rewrite (bind_run _ _ _ _ _ _ Hdr) in Heq. unfold ret, prepend in Heq.
  injection Heq as -> -> ->. subst cm'. cbn [MeanGPTRouter.contextManager this2].
  assert (Ht : transcriptOf (ContextManager.set_conversations (insert id c2) cm) id
               = ConversationContext.messages c2).
  { unfold transcriptOf, ContextManager.set_conversations. cbn.
    rewrite lookup_insert_eq. reflexivity. }
  split.
  { intros id'. unfold providerContextsOf at 1, ContextManager.set_conversations. cbn.
    destruct (decide (id = id')) as [<- | Hne].
    - rewrite lookup_insert_eq. exact Ha2.
    - rewrite lookup_insert_ne by exact Hne. reflexivity. }
  split; [reflexivity |]. split; [reflexivity |].
  split.
  { rewrite app_nil_r. intros Hin. apply elem_of_cons in Hin as [Hin | Hin];
      [discriminate |].
    rewrite Forall_forall in Hev. exact (Hev _ Hin). }
  split; [rewrite Ht; exact Hm2 |].
  split.
  { intros Hlen. rewrite Ht, Hm2. apply trimContextIfNeeded_short.
    rewrite length_app. cbn. lia. }
  split.
  { intros id' Hne. unfold ContextManager.set_conversations. cbn.
    apply lookup_insert_ne. congruence. }
  exists dr, evs'. rewrite Ht. split; [exact Hq |].
  cbn [MeanGPTRouter.Reply.response].
  split; intros He; rewrite He; reflexivity.
Qed.

Lemma processMessage_direct_reply_witness :
  transcriptOf (MeanGPTRouter.contextManager (state_of firstMessageRun)) "conv-1"
  = [Message.mk user "Who are you?" (Some 0)]
  ∧ (EvAggregator ∉ events_of firstMessageRun).
Proof.
  destruct (processMessage_direct_reply directReplyOracle 0 "a1b2c3d4e" "conv-1"
              "Who are you?" (MeanGPTRouter.new fullEnv FileStorageManager.empty)
              (state_of firstMessageRun)
              (MeanGPTRouter.Reply.mk "I am MeanGPT." "conv-1"
                 (ContextManager.Routing.mk false None None) None)
              (events_of firstMessageRun))
    as (_ & _ & _ & Hev & _ & Ht & _).
  - vm_compute. reflexivity.
  - reflexivity.
  - split; [| exact Hev]. apply Ht. vm_compute. lia.
Defined.

(** C9, as stated, fails when the master transcript is full: sent to a
    conversation of twenty messages and answered directly, the message leaves
    a transcript of 21 entries that starts with a summary in place of the
    oldest message, not the old transcript followed by the message. *)
Lemma processMessage_direct_reply_trims :
  let before := transcriptOf (MeanGPTRouter.contextManager routerWithTwenty) "conv-1" in
  let after :=
    transcriptOf (MeanGPTRouter.contextManager (state_of twentyFirstMessageRun)) "conv-1" in
  let userMsg := Message.mk user "Who are you?" (Some 7) in
  (∃ reply,
     result_of twentyFirstMessageRun = Returned reply
     ∧ ContextManager.Routing.shouldForward (MeanGPTRouter.Reply.routing reply) = false)
  ∧ before = twentyMessages
  ∧ after
    = Message.mk system "Previous conversation summary: Topics discussed: m0" None
        :: (drop 1 twentyMessages ++ [userMsg])
  ∧ after ≠ before ++ [userMsg].
Proof.
  cbv zeta. split; [| split; [| split]].
  - eexists. split; vm_compute; reflexivity.
  - vm_compute. reflexivity.
  - vm_compute. reflexivity.
  - intros H. vm_compute in H. discriminate H.
Qed.

(** C3 does not hold of the code.  On a router that has never seen the
    conversation, [processMessage] appends the user message before it asks
    for the routing decision, so the decision is obtained by a classification
    request, whatever the outside world; and when the classifier answers
    with a direct reply, the first message is not forwarded. *)
Theorem processMessage_first_message_is_classified (O : Oracle) (now : Date)
    (rnd userMessage : string) (env : Env) (fs : FileStorageManager) :
  head (events_of
          (MeanGPTRouter.processMessage O now rnd "conv-1" userMessage
             (MeanGPTRouter.new env fs)))
  = Some (EvRoutingFetch
            (ContextManager.contextSummary [Message.mk user userMessage (Some now)])
            userMessage)
  ∧ ∃ reply,
      result_of firstMessageRun = Returned reply
      ∧ ContextManager.Routing.shouldForward (MeanGPTRouter.Reply.routing reply) = false
      ∧ ContextManager.Routing.reason (MeanGPTRouter.Reply.routing reply) = None
      ∧ head (events_of firstMessageRun)
        = Some (EvRoutingFetch "user: Who are you?" "Who are you?").
Proof.
  split.
  - destruct (processMessage_preamble O now rnd "conv-1" userMessage
                (MeanGPTRouter.new env fs))
      as (c2 & routing & Hm2 & _ & Heq); [right; discriminate |].
    cbn zeta in Heq. rewrite Heq.
    unfold transcriptOf in Hm2. cbn in Hm2. rewrite lookup_empty in Hm2.
    cbn in Hm2. rewrite Hm2.
    destruct (afterRouting O now "conv-1" userMessage routing _) as [[r f] e].
    reflexivity.
  - eexists. repeat split; vm_compute; reflexivity.
Qed.

(** * Further properties of the code *)

(** ** ContextManager: frames, storage and restart *)

Lemma AIContexts_get_set_ne (c : AIContexts) (p p' : string) (l : list Message) :
  p' ≠ p -> AIContexts.get (AIContexts.set c p l) p' = AIContexts.get c p'.
Proof.
  intros Hne. unfold AIContexts.get, AIContexts.set.
  destruct (String.eqb_spec p "openai"), (String.eqb_spec p "anthropic"),
    (String.eqb_spec p "gemini"), (String.eqb_spec p "grok"),
    (String.eqb_spec p' "openai"), (String.eqb_spec p' "anthropic"),
    (String.eqb_spec p' "gemini"), (String.eqb_spec p' "grok");
    subst; try congruence; reflexivity.
Qed.

Lemma AIContexts_get_known (c : AIContexts) (p : string) (ctx : list Message) :
  AIContexts.get c p = Some ctx -> p ∈ ["openai"; "anthropic"; "gemini"; "grok"].
Proof.
  unfold AIContexts.get.
  destruct (String.eqb_spec p "openai"); [subst; set_solver |].
  destruct (String.eqb_spec p "anthropic"); [subst; set_solver |].
  destruct (String.eqb_spec p "gemini"); [subst; set_solver |].
  destruct (String.eqb_spec p "grok"); [subst; set_solver | discriminate].
Qed.

(** The frame of [addAIMessage]. *)
Lemma addAIMessage_frame (now : Date) (id p : string) (m : Message)
    (this : ContextManager.t) :
  let this' := state_of (ContextManager.addAIMessage now id p m this) in
  (∀ id', transcriptOf this' id' = transcriptOf this id')
  ∧ (∀ id' p', id' ≠ id ∨ p' ≠ p -> contextOf this' id' p' = contextOf this id' p')
  ∧ (∀ id', ContextManager.conversations this' !! id' = None
            ↔ ContextManager.conversations this !! id' = None).
Proof.
  intros this'. subst this'.
  destruct (ContextManager.conversations this !! id) as [c |] eqn:Hc;
    [destruct (AIContexts.get (ConversationContext.aiContexts c) p) as [ctx |] eqn:Hp |].
  - destruct (addAIMessage_found now id p m this c ctx Hc Hp) as [_ Hs].
    unfold transcriptOf, contextOf. rewrite Hs. repeat split.
    + intros id'. destruct (decide (id = id')) as [<- | Hne].
      * rewrite lookup_insert_eq, Hc. reflexivity.
      * rewrite lookup_insert_ne by exact Hne. reflexivity.
    + intros id' p' Hd. destruct (decide (id = id')) as [<- | Hne].
      * rewrite lookup_insert_eq, Hc. cbn.
        destruct Hd as [Hd | Hd]; [congruence |].
        apply AIContexts_get_set_ne, Hd.
      * rewrite lookup_insert_ne by exact Hne. reflexivity.
    + destruct (decide (id = id')) as [<- | Hne].
      * rewrite lookup_insert_eq. discriminate.
      * rewrite lookup_insert_ne by exact Hne. trivial.
    + destruct (decide (id = id')) as [<- | Hne].
      * rewrite Hc. discriminate.
      * rewrite lookup_insert_ne by exact Hne. trivial.
  - rewrite addAIMessage_unchanged by (right; eauto). repeat split; trivial.
  - rewrite addAIMessage_unchanged by (left; exact Hc). repeat split; trivial.
Qed.

(** X1. [addAIMessage] touches one provider context only: whatever its
    outcome, every master transcript, every context of another provider or
    of another conversation, and the set of stored conversations are as
    before. *)
Theorem addAIMessage_touches_one_context (now : Date) (id p : string) (m : Message)
    (this : ContextManager.t) :
  let this' := state_of (ContextManager.addAIMessage now id p m this) in
  (∀ id', transcriptOf this' id' = transcriptOf this id')
  ∧ (∀ id' p', id' ≠ id ∨ p' ≠ p -> contextOf this' id' p' = contextOf this id' p')
  ∧ (∀ id', ContextManager.conversations this' !! id' = None
            ↔ ContextManager.conversations this !! id' = None).
Proof. exact (addAIMessage_frame now id p m this). Qed.

(** The appends never change the serverless flag nor the master files, and
    in a serverless run they leave the whole storage alone. *)
Lemma runAppend_storage (a : Append) (this : ContextManager.t) :
  ContextManager.isServerless (runAppend a this) = ContextManager.isServerless this
  ∧ FileStorageManager.masterFiles (ContextManager.fileStorage (runAppend a this))
    = FileStorageManager.masterFiles (ContextManager.fileStorage this)
  ∧ (ContextManager.isServerless this = true ->
     ContextManager.fileStorage (runAppend a this) = ContextManager.fileStorage this).
Proof.
  destruct a as [now id m | now id p m | now rnd oid]; cbn [runAppend].
  - unfold ContextManager.addMessage.
    destruct (ContextManager.conversations this !! id); repeat split.
  - unfold ContextManager.addAIMessage.
    destruct (ContextManager.conversations this !! id) as [c |]; [| repeat split].
    destruct (AIContexts.get (ConversationContext.aiContexts c) p); [| repeat split].
    destruct (ContextManager.isServerless this) eqn:Hs; cbn; rewrite ?Hs;
      repeat split; discriminate.
  - repeat split.
Qed.

(** X2. The context manager never writes the master transcript to storage:
    after any sequence of [createConversation], [addMessage] and
    [addAIMessage] calls the master files are as before; and in a serverless
    run the whole storage is as before. *)
Theorem appends_never_write_master (l : list Append) (this : ContextManager.t) :
  FileStorageManager.masterFiles (ContextManager.fileStorage (runAppends l this))
  = FileStorageManager.masterFiles (ContextManager.fileStorage this)
  ∧ (ContextManager.isServerless this = true ->
     ContextManager.fileStorage (runAppends l this) = ContextManager.fileStorage this).
Proof.
  revert this. induction l as [| a l IH]; intros this; [split; reflexivity |].
  cbn [runAppends fold_left]. fold (runAppends l (runAppend a this)).
  destruct (runAppend_storage a this) as (Hs & Hm & Hf).
  destruct (IH (runAppend a this)) as [IHm IHf]. split.
  - rewrite IHm. exact Hm.
  - intros Hserverless. rewrite IHf by (rewrite Hs; exact Hserverless).
    apply Hf, Hserverless.
Qed.

(** X3. Outside a serverless run, a provider context survives a restart:
    after [addAIMessage] has returned, a manager started anew on the storage
    it left answers [getMessagesForProvider] (without system prompt) with the
    very list the old manager held in memory for that provider. *)
Theorem provider_context_survives_restart (now now' : Date) (id p : string)
    (m : Message) (this : ContextManager.t) (c : ConversationContext)
    (ctx : list Message) :
  ContextManager.isServerless this = false ->
  ContextManager.conversations this !! id = Some c ->
  AIContexts.get (ConversationContext.aiContexts c) p = Some ctx ->
  let this' := state_of (ContextManager.addAIMessage now id p m this) in
  contextOf this' id p = Some (ContextManager.trimAIContextIfNeeded (ctx ++ [m]))
  ∧ result_of (ContextManager.getMessagesForProvider now' id p false (restart this'))
    = Returned (ContextManager.trimAIContextIfNeeded (ctx ++ [m])).
Proof.
  intros Hs Hc Hp this'.
  destruct (addAIMessage_found now id p m this c ctx Hc Hp) as [_ Hconv].
  fold this' in Hconv. split.
  - unfold contextOf. rewrite Hconv, lookup_insert_eq. cbn.
    exact (AIContexts_get_set_eq _ _ _ _ Hp).
  - assert (Hfs : ContextManager.fileStorage this'
                  = FileStorageManager.saveProviderContext (ContextManager.fileStorage this)
                      id p (ContextManager.trimAIContextIfNeeded (ctx ++ [m]))).
    { subst this'. unfold ContextManager.addAIMessage. rewrite Hc, Hp, Hs. reflexivity. }
    assert (Hflag : ContextManager.isServerless this' = false).
    { subst this'. unfold ContextManager.addAIMessage. rewrite Hc, Hp, Hs. exact Hs. }
    unfold restart. rewrite Hfs, Hflag.
    unfold ContextManager.getMessagesForProvider, ContextManager.lookupOrLoad,
      ContextManager.loadConversationFromStorage, ContextManager.new, bind, get, ret,
      result_of.
    cbn [ContextManager.conversations ContextManager.isServerless
         ContextManager.fileStorage negb andb].
    rewrite lookup_empty.
    unfold FileStorageManager.conversationExists, FileStorageManager.saveProviderContext.
    cbn [FileStorageManager.dirs].
    rewrite bool_decide_eq_true_2 by set_solver.
    cbn [fst snd ConversationContext.aiContexts].
    unfold FileStorageManager.loadProviderContext. cbn [FileStorageManager.providerFiles].
    pose proof (AIContexts_get_known _ _ _ Hp) as Hk.
    repeat (apply elem_of_cons in Hk as [-> | Hk]);
      [| | | | apply elem_of_nil in Hk; destruct Hk];
      unfold AIContexts.get; cbn; rewrite lookup_insert_eq; reflexivity.
Qed.

Lemma provider_context_survives_restart_witness :
  result_of
    (ContextManager.getMessagesForProvider 9 "conv-1" "openai" false
       (restart
          (state_of
             (ContextManager.addAIMessage 3 "conv-1" "openai"
                (Message.mk assistant "4" None) persistentManager))))
  = Returned [Message.mk user "What is 2+2?" None; Message.mk assistant "4" None].
Proof.
  refine (proj2 (provider_context_survives_restart 3 9 "conv-1" "openai"
                   (Message.mk assistant "4" None) persistentManager
                   (ConversationContext.mk "conv-1" []
                      (AIContexts.mk [Message.mk user "What is 2+2?" None] [] [] []) 1 2)
                   [Message.mk user "What is 2+2?" None] _ _ _)).
  - reflexivity.
  - vm_compute. reflexivity.
  - reflexivity.
Defined.

(** ** ContextManager: trimming again, clearing, reading back *)

Lemma summaryOf_after_summary (label : string) (s x : Message) :
  Message.role s = system -> summaryOf label [s; x] = summaryOf label [x].
Proof.
  intros Hs. unfold summaryOf. rewrite filter_cons.
  destruct (decide (Message.role s = user)) as [Hu | _]; [congruence | reflexivity].
Qed.

(** X4. Once a list has been trimmed, its summary does not outlive the next
    append.  Appending to a list of 21 entries that starts with a system
    message, the earlier summary, removes that summary and the oldest kept
    message, and puts in front a new summary that lists the topic of that
    one message only (none if it is not a user message); the topics of the
    earlier summary are gone.  This holds of both trimming functions. *)
Theorem later_trim_drops_earlier_summary (s x m : Message) (rest : list Message) :
  Message.role s = system ->
  length rest = 19%nat ->
  ContextManager.trimContextIfNeeded ((s :: x :: rest) ++ [m])
  = summaryOf "Previous conversation summary: " [x] :: (rest ++ [m])
  ∧ ContextManager.trimAIContextIfNeeded ((s :: x :: rest) ++ [m])
    = summaryOf "Previous context summary: " [x] :: (rest ++ [m]).
Proof.
  intros Hs Hlen.
  assert (Hl : length ((s :: x :: rest) ++ [m]) = 22%nat)
    by (rewrite length_app; cbn; lia).
  split.
  - rewrite trimContextIfNeeded_long by lia. rewrite Hl. cbn [Nat.sub app take drop].
    rewrite (summaryOf_after_summary _ _ _ Hs). reflexivity.
  - rewrite trimAIContextIfNeeded_long by lia. rewrite Hl. cbn [Nat.sub app take drop].
    rewrite (summaryOf_after_summary _ _ _ Hs). reflexivity.
Qed.

Lemma later_trim_drops_earlier_summary_witness :
  ContextManager.trimAIContextIfNeeded (trimmedOnce ++ [Message.mk user "m21" None])
  = Message.mk system "Previous context summary: Topics discussed: " None
      :: (drop 2 trimmedOnce ++ [Message.mk user "m21" None]).
Proof.
  refine (proj2 (later_trim_drops_earlier_summary
                   (summaryOf "Previous context summary: " [Message.mk user "m0" None])
                   (Message.mk assistant "m1" None) (Message.mk user "m21" None)
                   (drop 2 trimmedOnce) _ _)).
  - reflexivity.
  - reflexivity.
Defined.

(** X5. [clearConversation] forgets the conversation in memory and nothing
    else: the other conversations and the storage are as before, and an
    append to the cleared identifier, to the transcript or to a provider
    context, throws the not-found error and leaves the manager as it is. *)
Theorem clearConversation_forgets (now : Date) (id p : string) (m : Message)
    (this : ContextManager.t) :
  let cleared := state_of (ContextManager.clearConversation id this) in
  result_of (ContextManager.clearConversation id this) = Returned tt
  ∧ ContextManager.getConversation id cleared = None
  ∧ (∀ id', id' ≠ id ->
       ContextManager.getConversation id' cleared = ContextManager.getConversation id' this)
  ∧ ContextManager.fileStorage cleared = ContextManager.fileStorage this
  ∧ ContextManager.addMessage now id m cleared
    = (Threw (Error ("Conversation " +:+ id +:+ " not found")), cleared, [])
  ∧ ContextManager.addAIMessage now id p m cleared
    = (Threw (Error ("Conversation " +:+ id +:+ " not found")), cleared, []).
Proof.
  intros cleared.
  assert (Hnone : ContextManager.conversations cleared !! id = None)
    by apply lookup_delete_eq.
  split; [reflexivity |]. split; [exact Hnone |].
  split; [intros id' Hne; apply lookup_delete_ne; congruence |].
  split; [reflexivity |].
  split; [apply addMessage_missing, Hnone |].
  unfold ContextManager.addAIMessage. rewrite Hnone. reflexivity.
Qed.

(** X6. The reads return what the appends stored and change nothing.  After
    [addAIMessage], [getMessagesForProvider] returns the context [addAIMessage]
    left, behind the assistant system prompt if that is asked for; after
    [addMessage], [getMasterContext] returns the orchestrator system prompt
    followed by the transcript [addMessage] left.  For a conversation that
    is neither in memory nor, outside a serverless run, in storage, they
    return the system prompt alone. *)
Theorem reads_follow_appends :
  (∀ now now' id p m incl this c ctx,
     ContextManager.conversations this !! id = Some c ->
     AIContexts.get (ConversationContext.aiContexts c) p = Some ctx ->
     let this' := state_of (ContextManager.addAIMessage now id p m this) in
     ContextManager.getMessagesForProvider now' id p incl this'
     = (Returned ((if incl then [ContextManager.assistantSystemPrompt] else [])
                  ++ ContextManager.trimAIContextIfNeeded (ctx ++ [m])),
        this', []))
  ∧ (∀ now now' id m this c,
       ContextManager.conversations this !! id = Some c ->
       let this' := state_of (ContextManager.addMessage now id m this) in
       ContextManager.getMasterContext now' id this'
       = (Returned (Message.mk system ContextManager.masterPromptPresent None
                      :: ContextManager.trimContextIfNeeded
                           (ConversationContext.messages c ++ [m])),
          this', []))
  ∧ (∀ now' id p incl this,
       ContextManager.conversations this !! id = None ->
       ContextManager.isServerless this = true
       ∨ FileStorageManager.conversationExists (ContextManager.fileStorage this) id = false ->
       ContextManager.getMessagesForProvider now' id p incl this
       = (Returned (if incl then [ContextManager.assistantSystemPrompt] else []), this, [])
       ∧ ContextManager.getMasterContext now' id this
         = (Returned [Message.mk system ContextManager.masterPromptAbsent None], this, [])).
Proof.
  split; [| split].
  - intros now now' id p m incl this c ctx Hc Hp this'.
    destruct (addAIMessage_found now id p m this c ctx Hc Hp) as [_ Hconv].
    fold this' in Hconv.
    unfold ContextManager.getMessagesForProvider, ContextManager.lookupOrLoad, bind, get.
    rewrite Hconv, lookup_insert_eq. cbn.
    rewrite (AIContexts_get_set_eq _ _ _ _ Hp). reflexivity.
  - intros now now' id m this c Hc this'. subst this'.
    rewrite (addMessage_found _ _ _ _ _ Hc).
    unfold ContextManager.getMasterContext, ContextManager.lookupOrLoad, bind, get,
      state_of, ContextManager.set_conversations.
    cbn. rewrite lookup_insert_eq. reflexivity.
  - intros now' id p incl this Hnone Hoff.
    assert (Hload : ContextManager.lookupOrLoad now' id this = (Returned None, this, [])).
    { unfold ContextManager.lookupOrLoad, bind, get. rewrite Hnone.
      destruct Hoff as [-> | ->]; [reflexivity |].
      rewrite andb_false_r. reflexivity. }
    unfold ContextManager.getMessagesForProvider, ContextManager.getMasterContext.
    rewrite !(bind_run _ _ _ _ _ _ Hload). split; reflexivity.
Qed.

(** The decision read from a reply that can be decoded. *)
Lemma shouldForwardToAIs_decoded (O : Oracle) (id userMessage : string)
    (this : ContextManager.t) (c : ConversationContext) (text : string)
    (tokens : option Z) (decision : option string) (providers : option (list string))
    (reason : option string) :
  ContextManager.conversations this !! id = Some c ->
  ConversationContext.messages c ≠ [] ->
  Oracle.routing O (ContextManager.contextSummary (ConversationContext.messages c))
    userMessage = Resolves (Some text) tokens ->
  text ≠ "" ->
  Oracle.JSON_parse O (JS.trim text) = Some (JsonValue decision providers reason) ->
  ∃ forward,
    ContextManager.shouldForwardToAIs O id userMessage this
    = (Returned (ContextManager.Routing.mk forward providers reason), this,
       [EvRoutingFetch (ContextManager.contextSummary (ConversationContext.messages c))
          userMessage])
    ∧ (forward = false ↔ decision = Some "DIRECT_REPLY").
Proof.
  intros Hc Hne Hroute Htext Hparse.
  exists (negb (bool_decide (decision = Some "DIRECT_REPLY"))). split.
  - unfold ContextManager.shouldForwardToAIs, bind, get. rewrite Hc.
    destruct (ConversationContext.messages c) as [| m0 ms]; [congruence |].
    unfold try_catch, ContextManager.classify, bind, emit, ret, throw.
    rewrite Hroute. destruct text as [| a text]; [congruence |].
    cbn -[JS.trim]. rewrite Hparse. reflexivity.
  - rewrite negb_false_iff, bool_decide_eq_true. reflexivity.
Qed.

(** X7. The routing decision follows the classifier when its reply can be
    decoded: for a conversation with a message in it, a reply whose text
    parses to an object yields a decision that forwards unless the object's
    decision is DIRECT_REPLY (so also when the decision is missing or
    unknown), with the providers and the reason of the object, after one
    request. *)
Theorem shouldForwardToAIs_follows_classifier (O : Oracle) (id userMessage : string)
    (this : ContextManager.t) (c : ConversationContext) (text : string)
    (tokens : option Z) (decision : option string) (providers : option (list string))
    (reason : option string) :
  ContextManager.conversations this !! id = Some c ->
  ConversationContext.messages c ≠ [] ->
  Oracle.routing O (ContextManager.contextSummary (ConversationContext.messages c))
    userMessage = Resolves (Some text) tokens ->
  text ≠ "" ->
  Oracle.JSON_parse O (JS.trim text) = Some (JsonValue decision providers reason) ->
  ∃ forward,
    ContextManager.shouldForwardToAIs O id userMessage this
    = (Returned (ContextManager.Routing.mk forward providers reason), this,
       [EvRoutingFetch (ContextManager.contextSummary (ConversationContext.messages c))
          userMessage])
    ∧ (forward = false ↔ decision = Some "DIRECT_REPLY").
Proof.
  exact (shouldForwardToAIs_decoded O id userMessage this c text tokens decision providers reason).
Qed.

Lemma shouldForwardToAIs_follows_classifier_witness :
  ∃ forward,
    result_of
      (ContextManager.shouldForwardToAIs directReplyOracle "conv-1"
         "Why is the mean answer 4?" managerWithHistory)
    = Returned (ContextManager.Routing.mk forward None None)
    ∧ forward = false.
Proof.
  destruct (shouldForwardToAIs_follows_classifier directReplyOracle "conv-1"
              "Why is the mean answer 4?" managerWithHistory
              (ConversationContext.mk "conv-1"
                 [Message.mk user "What is 2+2?" (Some 2)] AIContexts.empty 1 2)
              directReplyText (Some 17) (Some "DIRECT_REPLY") None None)
    as (forward & Hrun & Hiff).
  - vm_compute. reflexivity.
  - discriminate.
  - reflexivity.
  - discriminate.
  - vm_compute. reflexivity.
  - exists forward. rewrite Hrun. split; [reflexivity |]. apply Hiff. reflexivity.
Defined.

(** ** AIOrchestrator: the provider table *)

(** X8. The available providers are the known names whose key is present and
    not empty, in the order openai, anthropic, gemini, grok; a key that is
    the empty string excludes its provider like a missing one. *)
Theorem getAvailableProviders_are_configured (env : Env) :
  AIOrchestrator.getAvailableProviders (AIOrchestrator.new env)
  = filter (fun name => configured env name = true) knownProviders
  ∧ AIOrchestrator.getAvailableProviders (AIOrchestrator.new emptyGeminiKeyEnv)
    = ["openai"; "grok"].
Proof.
  split; [| reflexivity].
  destruct env as [ko ka kg kx mo ma mg mx v n].
  unfold AIOrchestrator.getAvailableProviders, AIOrchestrator.new,
    AIOrchestrator.initializeProviders, configured, apiKeyOf, knownProviders.
  cbn [AIOrchestrator.providers Env.OPENAI_API_KEY Env.ANTHROPIC_API_KEY
       Env.GEMINI_API_KEY Env.GROK_API_KEY].
  destruct ko as [[| ? ?] |], ka as [[| ? ?] |], kg as [[| ? ?] |], kx as [[| ? ?] |];
    reflexivity.
Qed.

Lemma lookup_new (env : Env) (name : string) :
  match AIOrchestrator.lookup (AIOrchestrator.new env) name with
  | Some p => configured env name = true
              ∧ AIProvider.name (BaseAIProvider.provider p) = name
  | None => configured env name = false
  end.
Proof.
  destruct env as [ko ka kg kx mo ma mg mx v n].
  unfold AIOrchestrator.lookup, AIOrchestrator.new, AIOrchestrator.initializeProviders,
    configured, apiKeyOf.
  cbn [AIOrchestrator.providers Env.OPENAI_API_KEY Env.ANTHROPIC_API_KEY
       Env.GEMINI_API_KEY Env.GROK_API_KEY].
  destruct (String.eqb_spec name "openai") as [-> | H1];
    [destruct ko as [[| ? ?] |], ka as [[| ? ?] |], kg as [[| ? ?] |], kx as [[| ? ?] |];
     cbn; auto |].
  destruct (String.eqb_spec name "anthropic") as [-> | H2];
    [destruct ko as [[| ? ?] |], ka as [[| ? ?] |], kg as [[| ? ?] |], kx as [[| ? ?] |];
     cbn; auto |].
  destruct (String.eqb_spec name "gemini") as [-> | H3];
    [destruct ko as [[| ? ?] |], ka as [[| ? ?] |], kg as [[| ? ?] |], kx as [[| ? ?] |];
     cbn; auto |].
  destruct (String.eqb_spec name "grok") as [-> | H4];
    [destruct ko as [[| ? ?] |], ka as [[| ? ?] |], kg as [[| ? ?] |], kx as [[| ? ?] |];
     cbn; auto |].
  assert (E1 : String.eqb "openai" name = false)
    by (apply String.eqb_neq; congruence).
  assert (E2 : String.eqb "anthropic" name = false)
    by (apply String.eqb_neq; congruence).
  assert (E3 : String.eqb "gemini" name = false)
    by (apply String.eqb_neq; congruence).
  assert (E4 : String.eqb "grok" name = false)
    by (apply String.eqb_neq; congruence).
  destruct ko as [[| ? ?] |], ka as [[| ? ?] |], kg as [[| ? ?] |], kx as [[| ? ?] |];
    cbn [JS.truthy app List.find fst snd fmap option_map JS.truthy_opt];
    rewrite ?E1, ?E2, ?E3, ?E4; reflexivity.
Qed.

(** X9. [querySingleProvider] never throws and leaves the state as it was.
    For a name that is not configured, known or not, it calls no vendor and
    returns a response tagged with that name, with an empty content and the
    error Provider name not configured; for a configured name the response
    is the one [sendMessage] of that provider settles with. *)
Theorem querySingleProvider_unconfigured {S : Type} (env : Env) (O : Oracle)
    (now : Date) (providerName : string) (messages : list Message)
    (options : option Options) (s : S) :
  ∃ r evs,
    AIOrchestrator.querySingleProvider O now (AIOrchestrator.new env) providerName
      messages options s
    = (Returned r, s, evs)
    ∧ AIProvider.name (AIResponse.provider r) = providerName
    ∧ (configured env providerName = false ->
       evs = []
       ∧ AIResponse.content r = ""
       ∧ AIResponse.error r = Some ("Provider " +:+ providerName +:+ " not configured"))
    ∧ (configured env providerName = true ->
       ∃ p, AIOrchestrator.lookup (AIOrchestrator.new env) providerName = Some p
            ∧ settlesWith O p messages (default Options.default options) r).
Proof.
  pose proof (lookup_new env providerName) as Hl.
  unfold AIOrchestrator.querySingleProvider.
  destruct (AIOrchestrator.lookup (AIOrchestrator.new env) providerName) as [p |].
  - destruct Hl as [Hc Hn].
    destruct (sendMessage_returns O now p messages (default Options.default options) s)
      as (r & evs & Hr & _ & Hs).
    exists r, evs. split; [exact Hr |].
    split; [rewrite (proj1 Hs); exact Hn |].
    split; [congruence |]. intros _. exists p. split; [reflexivity | exact Hs].
  - do 2 eexists. split; [reflexivity |]. split; [reflexivity |].
    split; [intros _; repeat split | congruence].
Qed.

Lemma querySingleProvider_unconfigured_witness :
  ∃ r,
    AIOrchestrator.querySingleProvider offlineOracle 0
      (AIOrchestrator.new openaiOnlyEnv) "chatgpt" [] None tt
    = (Returned r, tt, [])
    ∧ AIResponse.error r = Some "Provider chatgpt not configured".
Proof.
  destruct (querySingleProvider_unconfigured openaiOnlyEnv offlineOracle 0 "chatgpt"
              [] None tt)
    as (r & evs & Hrun & _ & Hoff & _).
  destruct (Hoff eq_refl) as (-> & _ & Herr).
  exists r. split; [exact Hrun | exact Herr].
Defined.

(** ** AIOrchestrator: the barrier and the summaries *)

Section Barrier.
Context {S : Type}.
Variable now : Date.

Lemma allSettled_returns (promises : list (ST S AIResponse)) (s : S) :
  ∃ results s' evs,
    AIOrchestrator.allSettled promises s = (Returned results, s', evs)
    ∧ length results = length promises.
Proof.
  revert s. induction promises as [| promise rest IH]; intros s.
  - exists [], s, []. split; reflexivity.
  - cbn [AIOrchestrator.allSettled].
    assert (Hsettle : ∃ result s1 e1,
               AIOrchestrator.settle promise s = (Returned result, s1, e1)).
    { unfold AIOrchestrator.settle, try_catch, bind, ret.
      destruct (promise s) as [[[v | e] s1] e1]; do 3 eexists; reflexivity. }
    destruct Hsettle as (result & s1 & e1 & Hsettle).
    destruct (IH s1) as (results & s2 & e2 & Hrest & Hlen).
    rewrite (bind_run _ _ _ _ _ _ Hsettle), (bind_run _ _ _ _ _ _ Hrest).
    do 3 eexists. split; [reflexivity |]. cbn. rewrite Hlen. reflexivity.
Qed.

Lemma partitionSettled_counts (results : list Settled)
    (active : list (string * BaseAIProvider)) :
  length results = length active ->
  let '(successful, failed) := AIOrchestrator.partitionSettled now results active in
  (length successful + length failed = length results)%nat
  ∧ Forall (fun r => AIResponse.content r = "" ∧ populated (AIResponse.error r)) failed
  ∧ successful
    = omap (fun x => match x with Fulfilled v => Some v | Rejected _ => None end) results.
Proof.
  revert active. induction results as [| result results IH];
    intros [| [name p] active] Hlen; cbn in Hlen; try discriminate.
  - cbn. repeat split. constructor.
  - cbn [AIOrchestrator.partitionSettled].
    specialize (IH active ltac:(lia)).
    destruct (AIOrchestrator.partitionSettled now results active)
      as [successful failed].
    destruct IH as (Hcount & Hfailed & Hsucc).
    destruct result as [v | reason]; cbn [length omap list_omap].
    + split; [lia |]. split; [exact Hfailed |]. rewrite Hsucc. reflexivity.
    + split; [lia |]. split; [| exact Hsucc].
      constructor; [| exact Hfailed]. split; [reflexivity |].
      eexists. split; [reflexivity |]. apply or_else_nonempty. discriminate.
Qed.

End Barrier.

(** X10. The barrier of the fan-out waits for every promise and drops none.
    [allSettled] does not throw, whatever the promises do, and yields one
    settled result per promise; the partition that follows turns every
    rejected promise into an entry with an empty content and a populated
    error, keeps the fulfilled values in order, and yields as many entries
    as there were promises. *)
Theorem barrier_drops_no_settlement {S : Type} (now : Date)
    (promises : list (ST S AIResponse)) (active : list (string * BaseAIProvider))
    (s : S) :
  length promises = length active ->
  ∃ results s' evs successful failed,
    AIOrchestrator.allSettled promises s = (Returned results, s', evs)
    ∧ AIOrchestrator.partitionSettled now results active = (successful, failed)
    ∧ length (successful ++ failed) = length promises
    ∧ Forall (fun r => AIResponse.content r = "" ∧ populated (AIResponse.error r)) failed
    ∧ successful
      = omap (fun x => match x with Fulfilled v => Some v | Rejected _ => None end)
             results.
Proof.
  intros Hlen.
  destruct (allSettled_returns promises s) as (results & s' & evs & Hrun & Hres).
  pose proof (partitionSettled_counts now results active ltac:(lia)) as Hpart.
  destruct (AIOrchestrator.partitionSettled now results active)
    as [successful failed] eqn:Heq.
  destruct Hpart as (Hcount & Hfailed & Hsucc).
  exists results, s', evs, successful, failed.
  split; [exact Hrun |]. split; [exact Heq |].
  split; [rewrite length_app; lia |]. split; assumption.
Qed.

Lemma barrier_drops_no_settlement_witness :
  ∃ results successful failed,
    result_of
      (AIOrchestrator.allSettled
         [ret (answer "Paris"); throw (Error "socket hang up")] tt)
    = Returned results
    ∧ AIOrchestrator.partitionSettled 0 results
        [("openai", BaseAIProvider.newOpenAI "sk-openai" "gpt-4o-mini");
         ("grok", BaseAIProvider.newGrok "sk-grok" "grok-2-1212")]
      = (successful, failed)
    ∧ length (successful ++ failed) = 2%nat.
Proof.
  destruct (barrier_drops_no_settlement 0
              [ret (answer "Paris"); throw (Error "socket hang up")]
              [("openai", BaseAIProvider.newOpenAI "sk-openai" "gpt-4o-mini");
               ("grok", BaseAIProvider.newGrok "sk-grok" "grok-2-1212")] tt)
    as (results & s' & evs & successful & failed & Hrun & Hpart & Hlen & _);
    [reflexivity |].
  exists results, successful, failed. rewrite Hrun. repeat split; assumption.
Defined.

Lemma length_append (s t : string) :
  String.length (s +:+ t) = (String.length s + String.length t)%nat.
Proof. induction s as [| c s IH]; simpl; [reflexivity | rewrite IH; reflexivity]. Qed.

Lemma length_substring0 (n : nat) (s : string) :
  String.length (JS.substring0 n s) = Nat.min n (String.length s).
Proof.
  unfold JS.substring0. revert s. induction n as [| n IH]; intros [| c s]; cbn;
    try reflexivity.
  rewrite IH. reflexivity.
Qed.

Lemma previewOf_length (content : string) : (String.length (previewOf content) ≤ 200)%nat.
Proof.
  unfold previewOf. destruct (Nat.ltb_spec 200 (String.length content)); [| lia].
  rewrite length_append, length_substring0.
  change (String.length "...") with 3%nat. lia.
Qed.

(** The entry a response adds to the summary map. *)
Lemma createSummaries_snoc (responses : list AIResponse) (r : AIResponse) :
  AIOrchestrator.createSummaries (responses ++ [r])
  = let summary := AIOrchestrator.createSummaries responses in
    let name := AIProvider.name (AIResponse.provider r) in
    if JS.truthy (AIResponse.content r) then
      <[name := previewOf (AIResponse.content r)]> summary
    else if JS.truthy_opt (AIResponse.error r) then
      <[name := "Error: " +:+ default "" (AIResponse.error r)]> summary
    else summary.
Proof. unfold AIOrchestrator.createSummaries. rewrite fold_left_app. reflexivity. Qed.

(** X11. Every entry of the summary map comes from a response of the provider
    it is filed under: it is the preview of that response's content, at most
    200 characters long, or, for a response without content, its error
    behind the word Error.  A response with neither content nor error adds
    no entry. *)
Theorem createSummaries_entries (responses : list AIResponse) (name v : string) :
  AIOrchestrator.createSummaries responses !! name = Some v ->
  ∃ r,
    r ∈ responses
    ∧ AIProvider.name (AIResponse.provider r) = name
    ∧ ((AIResponse.content r ≠ ""
        ∧ v = previewOf (AIResponse.content r)
        ∧ (String.length v ≤ 200)%nat)
       ∨ (AIResponse.content r = ""
          ∧ ∃ e, AIResponse.error r = Some e ∧ e ≠ "" ∧ v = "Error: " +:+ e)).
Proof.
  revert v. induction responses as [| r responses IH] using rev_ind; intros v.
  - unfold AIOrchestrator.createSummaries. cbn. rewrite lookup_empty. discriminate.
  - rewrite createSummaries_snoc. cbn zeta.
    assert (Hold : AIOrchestrator.createSummaries responses !! name = Some v ->
                   ∃ r0, r0 ∈ responses ++ [r]
                         ∧ AIProvider.name (AIResponse.provider r0) = name
                         ∧ ((AIResponse.content r0 ≠ ""
                             ∧ v = previewOf (AIResponse.content r0)
                             ∧ (String.length v ≤ 200)%nat)
                            ∨ (AIResponse.content r0 = ""
                               ∧ ∃ e, AIResponse.error r0 = Some e ∧ e ≠ ""
                                      ∧ v = "Error: " +:+ e))).
    { intros H. destruct (IH v H) as (r0 & Hin & Hrest).
      exists r0. split; [apply elem_of_app; left; exact Hin | exact Hrest]. }
    destruct (AIResponse.content r) as [| a content] eqn:Hcontent; cbn [JS.truthy].
    + destruct (AIResponse.error r) as [[| b e] |] eqn:Herr; cbn [JS.truthy_opt JS.truthy];
        try exact Hold.
      destruct (decide (AIProvider.name (AIResponse.provider r) = name)) as [Hn | Hn].
      * rewrite Hn, lookup_insert_eq. intros [= <-].
        exists r. split; [apply elem_of_app; right; constructor |].
        split; [exact Hn |]. right.
        split; [exact Hcontent |]. exists (String b e).
        split; [exact Herr |]. split; [discriminate | reflexivity].
      * rewrite lookup_insert_ne by exact Hn. exact Hold.
    + destruct (decide (AIProvider.name (AIResponse.provider r) = name)) as [Hn | Hn].
      * rewrite Hn, lookup_insert_eq. intros [= <-].
        exists r. split; [apply elem_of_app; right; constructor |].
        split; [exact Hn |]. left.
        rewrite Hcontent. split; [discriminate |]. split; [reflexivity |].
        apply previewOf_length.
      * rewrite lookup_insert_ne by exact Hn. exact Hold.
Qed.

Lemma createSummaries_entries_witness :
  ∃ r, r ∈ [failure; answer "Paris"]
       ∧ AIProvider.name (AIResponse.provider r) = "grok".
Proof.
  destruct (createSummaries_entries [failure; answer "Paris"] "grok"
              "Error: fetch failed")
    as (r & Hin & Hname & _).
  - vm_compute. reflexivity.
  - exists r. split; assumption.
Defined.

(** ** Providers: attempts and request formats *)

(** X12. A provider calls its vendor once; Gemini alone may call twice, and
    does so exactly when its first attempt threw an error whose message
    mentions 503 or overloaded.  Every call carries the name and the model of
    the provider and the messages it was given. *)
Theorem sendMessage_attempts {S : Type} (O : Oracle) (now : Date)
    (this : BaseAIProvider) (messages : list Message) (options : Options) (s : S) :
  let call := EvVendorCall (AIProvider.name (BaseAIProvider.provider this))
                (BaseAIProvider.model this) messages in
  events_of (BaseAIProvider.sendMessage O now this messages options s)
  = match BaseAIProvider.kind this with
    | GeminiProvider =>
        if geminiRetries O this messages options then [call; call] else [call]
    | _ => [call]
    end.
Proof.
  intros call. subst call. unfold BaseAIProvider.sendMessage, geminiRetries, thrownBy.
  destruct (BaseAIProvider.kind this);
    unfold BaseAIProvider.sendMessageOpenAI, BaseAIProvider.sendMessageAnthropic,
      BaseAIProvider.sendMessageGrok, BaseAIProvider.sendMessageGemini,
      BaseAIProvider.maxRetries;
    cbn [seq BaseAIProvider.geminiLoop];
    unfold BaseAIProvider.call, BaseAIProvider.handleLastError,
      try_catch, bind, emit, ret, throw, events_of;
    destruct (BaseAIProvider.vendorCall O this messages options 1)
      as [e1 | st1 tx1 | text1 tokens1];
    cbn -[BaseAIProvider.vendorCall BaseAIProvider.handleError BaseAIProvider.overloaded
          BaseAIProvider.sdkError];
    try reflexivity.
  - destruct (Options.stream options); reflexivity.
  - destruct (BaseAIProvider.overloaded e1);
      cbn -[BaseAIProvider.vendorCall BaseAIProvider.handleError
            BaseAIProvider.overloaded BaseAIProvider.sdkError];
      [| reflexivity].
    destruct (BaseAIProvider.vendorCall O this messages options 2)
      as [e2 | st2 tx2 | text2 tokens2];
      cbn -[BaseAIProvider.vendorCall BaseAIProvider.handleError
            BaseAIProvider.overloaded BaseAIProvider.sdkError];
      rewrite ?andb_false_r; reflexivity.
  - destruct (BaseAIProvider.overloaded (BaseAIProvider.sdkError st1 tx1));
      cbn -[BaseAIProvider.vendorCall BaseAIProvider.handleError
            BaseAIProvider.overloaded BaseAIProvider.sdkError];
      [| reflexivity].
    destruct (BaseAIProvider.vendorCall O this messages options 2)
      as [e2 | st2 tx2 | text2 tokens2];
      cbn -[BaseAIProvider.vendorCall BaseAIProvider.handleError
            BaseAIProvider.overloaded BaseAIProvider.sdkError];
      rewrite ?andb_false_r; reflexivity.
Qed.

Lemma role_filter_map (f : Message -> Message) (l : list Message) :
  (∀ m, Message.role (f m) ≠ system) ->
  Forall (fun m => Message.role m ≠ system)
         (map f (filter (fun msg => Message.role msg ≠ system) l)).
Proof.
  intros Hf. apply Forall_forall. intros m Hin.
  apply list_elem_of_fmap in Hin as (m0 & -> & _). apply Hf.
Qed.

(** X13. No system message reaches the turns sent to Anthropic or kept as
    Gemini history: both lists hold user and assistant turns only, without
    timestamps; the Gemini history never holds the last message, which is
    sent apart, and an empty message list gives Gemini an empty history and
    an empty current message. *)
Theorem vendor_turns_hold_no_system_message (messages : list Message) :
  Forall (fun m => Message.role m ≠ system ∧ Message.timestamp m = None)
         (BaseAIProvider.formatMessagesAnthropic messages)
  ∧ Forall (fun m => Message.role m ≠ system ∧ Message.timestamp m = None)
           (fst (BaseAIProvider.formatMessagesForGemini messages))
  ∧ (length (fst (BaseAIProvider.formatMessagesForGemini messages))
     ≤ length messages - 1)%nat
  ∧ BaseAIProvider.formatMessagesForGemini [] = ([], "").
Proof.
  assert (Hturn : ∀ l : list Message,
             Forall (fun m => Message.role m ≠ system ∧ Message.timestamp m = None)
               (map (fun msg =>
                       Message.mk
                         (if bool_decide (Message.role msg = assistant)
                          then assistant else user)
                         (Message.content msg) None)
                    (filter (fun msg => Message.role msg ≠ system) l))).
  { intros l. apply Forall_forall. intros m Hin.
    apply list_elem_of_fmap in Hin as (m0 & -> & _). cbn.
    split; [case_bool_decide; discriminate | reflexivity]. }
  split; [apply Hturn |]. split; [apply Hturn |]. split; [| reflexivity].
  unfold BaseAIProvider.formatMessagesForGemini. cbn [fst].
  rewrite length_map.
  etransitivity; [apply length_filter |].
  destruct messages as [| m l] using rev_ind; [cbn; lia |].
  rewrite removelast_last, length_app. cbn. lia.
Qed.

Lemma sendMessage_attempts_witness :
  events_of
    (BaseAIProvider.sendMessage overloadedOracle 0
       (BaseAIProvider.newGemini "sk-gemini" "gemini-2.5-flash")
       [Message.mk user "Hello" None] Options.default tt)
  = [EvVendorCall "gemini" "gemini-2.5-flash" [Message.mk user "Hello" None];
     EvVendorCall "gemini" "gemini-2.5-flash" [Message.mk user "Hello" None]].
Proof.
  exact (sendMessage_attempts overloadedOracle 0
           (BaseAIProvider.newGemini "sk-gemini" "gemini-2.5-flash")
           [Message.mk user "Hello" None] Options.default tt).
Defined.

(** ** ResponseAggregator: every analysis answers *)

Section Analysis.
Context {S : Type}.
Variable O : Oracle.
Variable now : Date.
Variable this : ResponseAggregator.

Lemma calculateMeanAnswer_events (responses : list AIResponse) (question : string)
    (allResponses : list AIResponse) (s : S) :
  ∃ mean evs,
    ResponseAggregator.calculateMeanAnswer O now this responses question allResponses s
    = (Returned mean, s, evs)
    ∧ Forall isVendorCall evs
    ∧ (ResponseAggregator.meanGPT this = None -> evs = []).
Proof.
  unfold ResponseAggregator.calculateMeanAnswer.
  destruct (ResponseAggregator.meanGPT this) as [p |].
  - match goal with
    | |- context [BaseAIProvider.sendMessage O now p ?m ?o] =>
        destruct (sendMessage_returns O now p m o s) as (r & evs & Hr & Hev & _)
    end.
    unfold try_catch, bind, ret. rewrite Hr. cbn. rewrite app_nil_r.
    do 2 eexists. split; [reflexivity |]. split; [exact Hev | discriminate].
  - do 2 eexists. split; [reflexivity |]. split; [constructor | reflexivity].
Qed.

Lemma selectBestAnswer_returns (first : AIResponse) (others : list AIResponse)
    (question : string) (s : S) :
  ∃ best evs,
    ResponseAggregator.selectBestAnswer O now this (first :: others) question s
    = (Returned best, s, evs)
    ∧ Forall isVendorCall evs
    ∧ (ResponseAggregator.meanGPT this = None -> evs = [])
    ∧ (synthesisUnavailable O this -> best = AIResponse.content first).
Proof.
  unfold ResponseAggregator.selectBestAnswer, synthesisUnavailable.
  destruct (ResponseAggregator.meanGPT this) as [p |].
  - match goal with
    | |- context [BaseAIProvider.sendMessage O now p ?m ?o] =>
        destruct (sendMessage_returns O now p m o s) as (r & evs & Hr & Hev & Hs);
        pose proof (settlesWith_failure O _ _ _ _ Hs) as Hfail
    end.
    unfold try_catch, bind, ret, ResponseAggregator.firstContent. rewrite Hr.
    destruct (JS.truthy (AIResponse.content r)) eqn:Ht; cbn; rewrite app_nil_r;
      do 2 eexists; (split; [reflexivity |]); (split; [exact Hev |]);
      (split; [discriminate |]).
    + intros [Hnone | (p' & [= <-] & Hoff)]; [discriminate |].
      destruct (Hfail (Hoff _)) as [Hc _]. rewrite Hc in Ht. discriminate.
    + intros _. reflexivity.
  - do 2 eexists. split; [reflexivity |]. split; [constructor |].
    split; reflexivity.
Qed.

End Analysis.

(** [analyzeResponses] returns, whatever its input. *)
Lemma analyzeResponses_returns {S : Type} (O : Oracle) (now : Date)
    (this : ResponseAggregator) (aggregatedResponse : AggregatedResponse)
    (originalQuestion : string) (s : S) :
  ∃ out mean best evs,
    ResponseAggregator.analyzeResponses O now this aggregatedResponse originalQuestion s
    = (Returned out, s, EvAggregator :: evs)
    ∧ out = ResponseAggregator.withAnswers aggregatedResponse mean best
    ∧ AggregatedResponse.responses out = AggregatedResponse.responses aggregatedResponse
    ∧ AggregatedResponse.summary out = AggregatedResponse.summary aggregatedResponse
    ∧ AggregatedResponse.timestamp out = AggregatedResponse.timestamp aggregatedResponse
    ∧ Forall isVendorCall evs
    ∧ (ResponseAggregator.meanGPT this = None -> evs = []).
Proof.
  unfold ResponseAggregator.analyzeResponses.
  rewrite (bind_run (emit EvAggregator) _ s tt s [EvAggregator]) by reflexivity.
  destruct (List.filter ResponseAggregator.isValid
              (AggregatedResponse.responses aggregatedResponse))
    as [| first [| second others]] eqn:Hvalid.
  - do 4 eexists. split; [reflexivity |]. split; [reflexivity |].
    repeat (split; [reflexivity |]). split; [constructor | reflexivity].
  - destruct (calculateMeanAnswer_events O now this [first] originalQuestion
                (AggregatedResponse.responses aggregatedResponse) s)
      as (mean & evs & Hmean & Hev & Hnone).
    rewrite (bind_run _ _ _ _ _ _ Hmean). unfold ret, prepend. rewrite app_nil_r.
    do 4 eexists. split; [reflexivity |]. split; [reflexivity |].
    repeat (split; [reflexivity |]). split; assumption.
  - destruct (calculateMeanAnswer_events O now this (first :: second :: others)
                originalQuestion (AggregatedResponse.responses aggregatedResponse) s)
      as (mean & evs & Hmean & Hev & Hnone).
    destruct (selectBestAnswer_returns O now this first (second :: others)
                originalQuestion s)
      as (best & evs' & Hbest & Hev' & Hnone' & _).
    rewrite (bind_run _ _ _ _ _ _ Hmean), (bind_run _ _ _ _ _ _ Hbest).
    unfold ret, prepend. rewrite app_nil_r.
    do 4 eexists. split; [reflexivity |]. split; [reflexivity |].
    repeat (split; [reflexivity |]).
    split; [apply Forall_app; split; assumption |].
    intros H. rewrite (Hnone H), (Hnone' H). reflexivity.
Qed.

(** X14. [analyzeResponses] always answers: for every aggregated result and
    question it returns, does not throw and leaves the state as it was; the
    responses, the summary and the timestamp of the result are those of the
    input; both meanAnswer and bestAnswer are set; and apart from the entry
    into the aggregator the only events are calls of the synthesis
    provider, none when no synthesis provider is configured. *)
Theorem analyzeResponses_always_answers {S : Type} (O : Oracle) (now : Date)
    (this : ResponseAggregator) (aggregatedResponse : AggregatedResponse)
    (originalQuestion : string) (s : S) :
  ∃ out mean best evs,
    ResponseAggregator.analyzeResponses O now this aggregatedResponse originalQuestion s
    = (Returned out, s, EvAggregator :: evs)
    ∧ out = ResponseAggregator.withAnswers aggregatedResponse mean best
    ∧ AggregatedResponse.responses out = AggregatedResponse.responses aggregatedResponse
    ∧ AggregatedResponse.summary out = AggregatedResponse.summary aggregatedResponse
    ∧ AggregatedResponse.timestamp out = AggregatedResponse.timestamp aggregatedResponse
    ∧ Forall isVendorCall evs
    ∧ (ResponseAggregator.meanGPT this = None -> evs = []).
Proof.
  exact (analyzeResponses_returns O now this aggregatedResponse originalQuestion s).
Qed.

(** X15. When synthesis is unavailable and at least one response is valid,
    [analyzeResponses] answers from the valid responses alone: meanAnswer is
    their [simpleAverage] and bestAnswer is the content of the first valid
    response, unchanged. *)
Theorem analyzeResponses_without_synthesis {S : Type} (O : Oracle) (now : Date)
    (this : ResponseAggregator) (aggregatedResponse : AggregatedResponse)
    (originalQuestion : string) (first : AIResponse) (others : list AIResponse)
    (s : S) :
  synthesisUnavailable O this ->
  List.filter ResponseAggregator.isValid (AggregatedResponse.responses aggregatedResponse)
  = first :: others ->
  result_of
    (ResponseAggregator.analyzeResponses O now this aggregatedResponse originalQuestion s)
  = Returned
      (ResponseAggregator.withAnswers aggregatedResponse
         (ResponseAggregator.simpleAverage (first :: others))
         (AIResponse.content first)).
Proof.
  intros Hoff Hvalid. unfold ResponseAggregator.analyzeResponses.
  rewrite (bind_run (emit EvAggregator) _ s tt s [EvAggregator]) by reflexivity.
  rewrite Hvalid.
  pose proof (calculateMeanAnswer_fallback O now this (first :: others) originalQuestion
                (AggregatedResponse.responses aggregatedResponse) s Hoff) as Hfb.
  destruct (calculateMeanAnswer_events O now this (first :: others) originalQuestion
              (AggregatedResponse.responses aggregatedResponse) s)
    as (mean & evs & Hmean & _).
  rewrite Hmean in Hfb. unfold result_of in Hfb. cbn in Hfb. injection Hfb as ->.
  destruct others as [| second others].
  - rewrite (bind_run _ _ _ _ _ _ Hmean). reflexivity.
  - destruct (selectBestAnswer_returns O now this first (second :: others)
                originalQuestion s)
      as (best & evs' & Hbest & _ & _ & Hfirst).
    rewrite (Hfirst Hoff) in Hbest.
    rewrite (bind_run _ _ _ _ _ _ Hmean), (bind_run _ _ _ _ _ _ Hbest). reflexivity.
Qed.

Lemma analyzeResponses_without_synthesis_witness :
  ∃ out,
    result_of
      (ResponseAggregator.analyzeResponses offlineOracle 0
         (ResponseAggregator.new fullEnv) twoAnswers "What is the capital of France?" tt)
    = Returned out
    ∧ AggregatedResponse.bestAnswer out = Some "Paris is the capital.".
Proof.
  eexists. split.
  - apply (analyzeResponses_without_synthesis offlineOracle 0
             (ResponseAggregator.new fullEnv) twoAnswers
             "What is the capital of France?"
             (AIResponse.mk
                (AIProvider.mk "anthropic" "Anthropic Claude" "claude-3-5-sonnet-20241022")
                "Paris is the capital." None 0 None)
             [answer "Paris"] tt).
    + right. eexists. split; [reflexivity |]. intros messages attempt. reflexivity.
    + reflexivity.
  - reflexivity.
Defined.

(** ** ResponseAggregator: the rendering *)

Lemma startsWith_append (s t p : string) :
  JS.startsWith s p = true -> JS.startsWith (s +:+ t) p = true.
Proof.
  revert p. induction s as [| c s IH]; intros [| a p]; simpl; intros H;
    try reflexivity; try discriminate.
  - destruct t; reflexivity.
  - destruct (Ascii.eqb a c); [apply IH, H | discriminate].
Qed.

(** X16. The rendering starts with the heading of the summary, and it shows
    a best answer only if there is one that differs from the mean answer:
    when bestAnswer is absent, empty or equal to meanAnswer, the text is the
    one rendered without a best answer. *)
Theorem createFormattedResponse_best_section (aggregated : AggregatedResponse) :
  JS.startsWith (ResponseAggregator.createFormattedResponse aggregated)
    "## AI Responses Summary" = true
  ∧ (JS.truthy_opt (AggregatedResponse.bestAnswer aggregated) = false
     ∨ AggregatedResponse.bestAnswer aggregated = AggregatedResponse.meanAnswer aggregated ->
     ResponseAggregator.createFormattedResponse aggregated
     = ResponseAggregator.createFormattedResponse (withoutBestAnswer aggregated)).
Proof.
  split.
  - unfold ResponseAggregator.createFormattedResponse.
    set (sections := fold_left _ _ _).
    assert (Hs : JS.startsWith sections "## AI Responses Summary" = true).
    { subst sections.
      generalize ("## AI Responses Summary" +:+ JS.nl +:+ JS.nl)
                 (eq_refl : JS.startsWith ("## AI Responses Summary" +:+ JS.nl +:+ JS.nl)
                              "## AI Responses Summary" = true).
      induction (AggregatedResponse.responses aggregated) as [| r rs IH];
        intros acc Hacc; [exact Hacc |].
      cbn [fold_left]. apply IH, startsWith_append, Hacc. }
    repeat case_match; repeat apply startsWith_append; exact Hs.
  - intros Hb. unfold ResponseAggregator.createFormattedResponse, withoutBestAnswer.
    cbn [AggregatedResponse.responses AggregatedResponse.meanAnswer
         AggregatedResponse.bestAnswer JS.truthy_opt andb].
    destruct Hb as [-> | ->]; [reflexivity |].
    rewrite bool_decide_eq_true_2 by reflexivity. cbn [negb].
    rewrite andb_false_r. reflexivity.
Qed.

(** ** MeanGPTRouter: the turn as a whole *)

Lemma bind_state {S A B} (m : ST S A) (k : A -> ST S B) (s : S) :
  state_of (bind m k s)
  = match m s with
    | (Returned a, s1, _) => state_of (k a s1)
    | (Threw _, s1, _) => s1
    end.
Proof.
  unfold bind, state_of. destruct (m s) as [[[a | e] s1] e1]; [| reflexivity].
  destruct (k a s1) as [[r s2] e2]. reflexivity.
Qed.

Lemma sameTranscripts_refl (s : MeanGPTRouter) : sameTranscripts s s.
Proof. repeat split; trivial. Qed.

Lemma sameTranscripts_trans (s1 s2 s3 : MeanGPTRouter) :
  sameTranscripts s1 s2 -> sameTranscripts s2 s3 -> sameTranscripts s1 s3.
Proof.
  intros (Ht & Hn & Ho & Ha) (Ht' & Hn' & Ho' & Ha'). repeat split.
  - intros id. rewrite Ht', Ht. reflexivity.
  - intros H. apply Hn, Hn', H.
  - intros H. apply Hn', Hn, H.
  - congruence.
  - congruence.
Qed.

Lemma bind_sameTranscripts {A B} (m : ST MeanGPTRouter A)
    (k : A -> ST MeanGPTRouter B) :
  (∀ s, sameTranscripts s (state_of (m s))) ->
  (∀ a s, sameTranscripts s (state_of (k a s))) ->
  ∀ s, sameTranscripts s (state_of (bind m k s)).
Proof.
  intros Hm Hk s. rewrite bind_state. specialize (Hm s).
  destruct (m s) as [[[a | e] s1] e1]; [| exact Hm].
  eapply sameTranscripts_trans; [exact Hm | apply Hk].
Qed.

Section Turn.
Variable O : Oracle.
Variable now : Date.

Lemma addAIMessage_sameTranscripts (id p : string) (m : Message) (s : MeanGPTRouter) :
  sameTranscripts s
    (state_of (MeanGPTRouter.onContextManager
                 (ContextManager.addAIMessage now id p m) s)).
Proof.
  destruct (ContextManager.addAIMessage now id p m (MeanGPTRouter.contextManager s))
    as [[r cm'] evs] eqn:Hrun.
  rewrite (onContextManager_run _ _ _ _ _ Hrun).
  destruct (addAIMessage_frame now id p m (MeanGPTRouter.contextManager s))
    as (Ht & _ & Hn).
  rewrite Hrun in Ht, Hn. repeat split; try apply Hn; auto.
Qed.

Lemma recordProviderTurn_sameTranscripts (id userMessage : string)
    (result : AggregatedResponse) (provider : string) (s : MeanGPTRouter) :
  sameTranscripts s
    (state_of (MeanGPTRouter.recordProviderTurn now id userMessage result provider s)).
Proof.
  unfold MeanGPTRouter.recordProviderTurn.
  apply bind_sameTranscripts; [apply addAIMessage_sameTranscripts |].
  intros _ s'. repeat case_match;
    first [apply addAIMessage_sameTranscripts | apply sameTranscripts_refl].
Qed.

Lemma forEach_sameTranscripts (id userMessage : string) (result : AggregatedResponse)
    (providers : list string) (s : MeanGPTRouter) :
  sameTranscripts s
    (state_of (MeanGPTRouter.forEach
                 (MeanGPTRouter.recordProviderTurn now id userMessage result)
                 providers s)).
Proof.
  revert s. induction providers as [| p providers IH]; intros s.
  - apply sameTranscripts_refl.
  - cbn [MeanGPTRouter.forEach]. apply bind_sameTranscripts.
    + apply recordProviderTurn_sameTranscripts.
    + intros _ s'. apply IH.
Qed.

(** A read of a provider context of a conversation in memory leaves the
    router as it is, whether it returns or throws. *)
Lemma getMessagesForProvider_in_memory (id p : string) (incl : bool)
    (s : MeanGPTRouter) (c : ConversationContext) :
  ContextManager.conversations (MeanGPTRouter.contextManager s) !! id = Some c ->
  MeanGPTRouter.onContextManager
    (ContextManager.getMessagesForProvider now id p incl) s
  = (match AIContexts.get (ConversationContext.aiContexts c) p with
     | Some ctx =>
         Returned ((if incl then [ContextManager.assistantSystemPrompt] else []) ++ ctx)
     | None => Threw (TypeError "undefined is not iterable")
     end, s, []).
Proof.
  intros Hc. destruct s as [cm o a]. cbn [MeanGPTRouter.contextManager] in Hc.
  apply (onContextManager_run _ (MeanGPTRouter.mk cm o a)).
  cbn [MeanGPTRouter.contextManager].
  unfold ContextManager.getMessagesForProvider, ContextManager.lookupOrLoad, bind, get.
  rewrite Hc. cbn.
  destruct (AIContexts.get (ConversationContext.aiContexts c) p); reflexivity.
Qed.

Lemma handleAIForwarding_sameTranscripts (id userMessage : string)
    (specificProviders : option (list string)) (s : MeanGPTRouter)
    (c : ConversationContext) :
  ContextManager.conversations (MeanGPTRouter.contextManager s) !! id = Some c ->
  sameTranscripts s
    (state_of (MeanGPTRouter.handleAIForwarding O now id userMessage specificProviders s)).
Proof.
  intros Hc. unfold MeanGPTRouter.handleAIForwarding.
  rewrite bind_state, (getMessagesForProvider_in_memory _ _ _ _ _ Hc).
  destruct (AIContexts.get _ _) as [ctx |]; [| apply sameTranscripts_refl].
  rewrite (bind_run get _ s s s []) by reflexivity. rewrite prepend_nil.
  match goal with
  | |- context [AIOrchestrator.queryAllProviders O now ?o ?m ?opts] =>
      destruct (queryAllProviders_responses O now o m opts s) as (agg & evs & Hq & _)
  end.
  rewrite bind_state, Hq. apply bind_sameTranscripts.
  - apply forEach_sameTranscripts.
  - intros _ s'. apply sameTranscripts_refl.
Qed.

(** The run of [processMessage] up to the routing decision, with the
    decision itself. *)
Lemma processMessage_upto_routing (rnd id userMessage : string) (this : MeanGPTRouter) :
  let cm := MeanGPTRouter.contextManager this in
  ContextManager.conversations cm !! id ≠ None ∨ id ≠ "" ->
  ∃ c2 routing,
    let cm2 := ContextManager.set_conversations (insert id c2) cm in
    let this2 := MeanGPTRouter.mk cm2 (MeanGPTRouter.orchestrator this)
                   (MeanGPTRouter.aggregator this) in
    let fetch := EvRoutingFetch
                   (ContextManager.contextSummary (ConversationContext.messages c2))
                   userMessage in
    ConversationContext.messages c2
    = ContextManager.trimContextIfNeeded
        (transcriptOf cm id ++ [Message.mk user userMessage (Some now)])
    ∧ ConversationContext.aiContexts c2 = providerContextsOf cm id
    ∧ ContextManager.shouldForwardToAIs O id userMessage cm2
      = (Returned routing, cm2, [fetch])
    ∧ MeanGPTRouter.processMessage O now rnd id userMessage this
      = prepend [fetch] (afterRouting O now id userMessage routing this2).
Proof.
  intros cm Hid.
  set (userMsg := Message.mk user userMessage (Some now)).
  destruct (processMessage_ensure now rnd id this Hid)
    as (c1 & cm1 & Hc1 & Hm1 & Ha1 & Hset & Hrun1).
  set (c2 := ConversationContext.mk (ConversationContext.id c1)
               (ContextManager.trimContextIfNeeded
                  (ConversationContext.messages c1 ++ [userMsg]))
               (ConversationContext.aiContexts c1)
               (ConversationContext.createdAt c1) now).
  assert (Hc2 : ContextManager.conversations
                  (ContextManager.set_conversations (insert id c2) cm) !! id = Some c2)
    by apply lookup_insert_eq.
  destruct (shouldForwardToAIs_classifies O id userMessage _ c2 Hc2
              ltac:(apply trimContextIfNeeded_push_nonempty))
    as (routing & Hroute & _).
  exists c2, routing. cbn zeta.
  split; [cbn; rewrite Hm1; reflexivity |].
  split; [exact Ha1 |]. split; [exact Hroute |].
  unfold MeanGPTRouter.processMessage.
  rewrite (bind_run get _ this this this []) by reflexivity. rewrite prepend_nil.
  fold cm. rewrite (bind_run _ _ _ _ _ _ Hrun1), prepend_nil.
  erewrite bind_run, prepend_nil;
    [| apply onContextManager_run; cbn [MeanGPTRouter.contextManager];
       apply (addMessage_found _ _ _ _ _ Hc1)].
  cbn [MeanGPTRouter.contextManager MeanGPTRouter.orchestrator MeanGPTRouter.aggregator].
  rewrite Hset. fold userMsg. fold c2.
  erewrite bind_run;
    [| apply onContextManager_run; cbn [MeanGPTRouter.contextManager];
       exact Hroute].
  reflexivity.
Qed.

End Turn.
